(** * ModerIA marketplace: escrow, booking, dispute and quality actions

    A shallow embedding of the action providers of the repository:

    - [Escrow]      : erc20-escrow provider (releaseEscrow, refundEscrow,
                      getEscrowDetails) over its local JSON file storage;
    - [Marketplace] : marketplace provider (createService, listServices,
                      bookService, completeService, fileDispute,
                      resolveDispute) over one Recall bucket with key prefixes;
    - [Moderia]     : integrated provider (createServiceListing,
                      listAvailableServices, bookService, createEscrow,
                      analyzeServiceQuality, releaseFunds);
    - [Otter]       : otter-ai provider (analyzeCallQuality,
                      authorizePaymentBasedOnQuality).

    External collaborators (wallet clients, the Recall bucket manager, the
    clock and the random source) are inputs of each action: every action
    takes a record holding the outcome of the external calls it performs. *)

From Stdlib Require Import ZArith QArith List Bool Lia.
From stdpp Require Import gmap strings list pretty.

Local Open Scope string_scope.

(** ** Shared helpers *)

(** Outcome of an external call that either returns or throws an [Error]
    carrying a message. *)
Inductive Outcome (A : Type) : Type :=
| Returned (a : A)
| Thrown (msg : string).
Arguments Returned {A} a.
Arguments Thrown {A} msg.

(** JavaScript truthiness of an optional string: [undefined] and the empty
    string are falsy. *)
Definition truthy (s : option string) : bool :=
  match s with
  | Some s' => negb (String.eqb s' "")
  | None => false
  end.

(** [s || fallback] on an optional string. *)
Definition orElse (s : option string) (fallback : string) : string :=
  if truthy s then default "" s else fallback.

(** The three wallet clients built from the private keys of the
    environment. *)
Inductive Wallet := AgentWallet | ProviderWallet | ClientWallet.

(** An ERC20 [transfer] submitted through a wallet client's
    [writeContract]: the token contract, the signing wallet, the recipient
    address and the amount in base units. *)
Record ContractCall := mkContractCall {
  callToken : string;
  callSender : Wallet;
  callRecipient : string;
  callUnits : Z
}.

(* ===================================================================== *)
(** ** erc20-escrow provider *)
(* ===================================================================== *)

Module Escrow.

Inductive EscrowStatus := PENDING | RELEASED | REFUNDED | CANCELLED.

#[global] Instance EscrowStatus_eq_dec : EqDecision EscrowStatus.
Proof. solve_decision. Defined.

Definition statusString (s : EscrowStatus) : string :=
  match s with
  | PENDING => "pending"
  | RELEASED => "released"
  | REFUNDED => "refunded"
  | CANCELLED => "cancelled"
  end.

(** [interface EscrowTransaction]. *)
Record EscrowTransaction := mkEscrowTransaction {
  id : string;
  clientAddress : string;
  agentAddress : string;
  providerAddress : string;
  tokenAddress : string;
  amount : string;
  serviceId : string;
  status : EscrowStatus;
  clientTxHash : option string;
  releaseTxHash : option string;
  createdAt : string;
  updatedAt : string;
  metadata : option (gmap string string)
}.

(** The record that [transferTokens] stores in the same directory; it has no
    [status] field. *)
Record TransferRecord := mkTransferRecord {
  transferId : string;
  fromAddress : string;
  toAddress : string;
  transferToken : string;
  transferAmount : string;
  txHash : string;
  timestamp : string
}.

(** Content of a [<key>.json] file of the storage directory. *)
Inductive Stored :=
| EscrowFile (e : EscrowTransaction)
| TransferFile (t : TransferRecord).

(** [escrowDetails.status] read from a parsed file: [undefined] for a file
    without that field. *)
Definition storedStatus (d : Stored) : option EscrowStatus :=
  match d with
  | EscrowFile e => Some (status e)
  | TransferFile _ => None
  end.

Record ReleaseEscrowInput := mkReleaseEscrowInput {
  releaseEscrowId : string;
  releaseReason : option string
}.

Record RefundEscrowInput := mkRefundEscrowInput {
  refundEscrowId : string;
  refundReason : option string
}.

(** [process.env]: [DEMO_MODE === "true"] and whether the three wallet
    private keys are set. *)
Record Config := mkConfig {
  demoMode : bool;
  keysPresent : bool
}.

(** What the outside world answers during one action. *)
Record Ext := mkExt {
  writeContract : Outcome string;  (* agentClient.writeContract(...) *)
  simulatedHash : string;          (* the random 64-digit hash of demo mode *)
  now : string                     (* new Date().toISOString() *)
}.

(** The storage directory and the transfers submitted to the chain. *)
Record State := mkState {
  files : gmap string Stored;
  chain : list ContractCall
}.

Inductive Response :=
| Success (message escrowId transactionHash : string) (st : EscrowStatus)
| Failure (message : string).

Definition isSuccess (r : Response) : bool :=
  match r with Success _ _ _ _ => true | Failure _ => false end.

Module ERROR_MESSAGES.
Definition ESCROW_ALREADY_RELEASED := "Escrow has already been released".
Definition ESCROW_NOT_FOUND := "Escrow transaction not found".
Definition WALLET_NOT_INITIALIZED := "Wallet client not initialized".
Definition MISSING_KEYS := "Missing wallet private keys in environment variables".
End ERROR_MESSAGES.

Definition USDC_DECIMALS : nat := 6.

(** [initClients]: throws when a private key is missing outside demo mode;
    otherwise the three clients are set. *)
Definition initClients (cfg : Config) : Outcome unit :=
  if demoMode cfg then Returned tt
  else if keysPresent cfg then Returned tt
  else Thrown ERROR_MESSAGES.MISSING_KEYS.

(** [getTransaction]: the parsed file, or [null]. *)
Definition getTransaction (st : State) (key : string) : option Stored :=
  files st !! key.

(** [storeTransaction]: overwrite [<key>.json]. *)
Definition storeTransaction (st : State) (key : string) (data : Stored) : State :=
  {| files := <[key := data]> (files st); chain := chain st |}.

(** [getEscrowDetails], reduced to the [data] field that its callers read
    back from the JSON answer: [undefined] on every failure answer. *)
Definition getEscrowDetails_data (cfg : Config) (st : State) (escrowId : string)
  : option Stored :=
  match initClients cfg with
  | Thrown _ => None
  | Returned _ => getTransaction st escrowId
  end.

Section WithParseUnits.

(** viem's [parseUnits value decimals]: the amount in base units, or a
    thrown error for a string that is not a decimal number. *)
Variable parseUnits : string -> nat -> Outcome Z.

(** The token transfer of release and refund: a real [writeContract] call
    from the agent wallet, or a simulated hash in demo mode. *)
Definition agentTransfer (cfg : Config) (ext : Ext) (e : EscrowTransaction)
    (recipient : string) (st : State) : Outcome (string * State) :=
  if negb (demoMode cfg) then
    match parseUnits (amount e) USDC_DECIMALS with
    | Thrown m => Thrown m
    | Returned units =>
      match writeContract ext with
      | Thrown m => Thrown m
      | Returned h =>
        Returned (h, {| files := files st;
                        chain := chain st ++
                          [mkContractCall (tokenAddress e) AgentWallet
                                          recipient units] |})
      end
    end
  else Returned (simulatedHash ext, st).

Definition withReason (key : string) (reason : option string)
    (md : option (gmap string string)) : option (gmap string string) :=
  let md' := match md with Some m => m | None => ∅ end in
  Some (if truthy reason
        then <[key := default "" reason]> md'
        else md').

Definition releaseEscrow (cfg : Config) (args : ReleaseEscrowInput) (ext : Ext)
    (st : State) : Response * State :=
  let fail m := (Failure ("Failed to release escrow: " ++ m), st) in
  match initClients cfg with
  | Thrown m => fail m
  | Returned _ =>
    match getEscrowDetails_data cfg st (releaseEscrowId args) with
    | None => fail ERROR_MESSAGES.ESCROW_NOT_FOUND
    | Some (TransferFile _) => fail ERROR_MESSAGES.ESCROW_ALREADY_RELEASED
    | Some (EscrowFile e) =>
      if negb (bool_decide (status e = PENDING))
      then fail ERROR_MESSAGES.ESCROW_ALREADY_RELEASED
      else
        match agentTransfer cfg ext e (providerAddress e) st with
        | Thrown m => fail m
        | Returned (transferResult, st1) =>
          let e' := {| id := id e;
                       clientAddress := clientAddress e;
                       agentAddress := agentAddress e;
                       providerAddress := providerAddress e;
                       tokenAddress := tokenAddress e;
                       amount := amount e;
                       serviceId := serviceId e;
                       status := RELEASED;
                       clientTxHash := clientTxHash e;
                       releaseTxHash := Some transferResult;
                       createdAt := createdAt e;
                       updatedAt := now ext;
                       metadata := withReason "release_reason"
                                     (releaseReason args) (metadata e) |} in
          (Success ("Escrow released successfully. " ++ amount e ++
                    " USDC transferred from agent to provider.")
                   (releaseEscrowId args) transferResult RELEASED,
           storeTransaction st1 (releaseEscrowId args) (EscrowFile e'))
        end
    end
  end.

Definition refundEscrow (cfg : Config) (args : RefundEscrowInput) (ext : Ext)
    (st : State) : Response * State :=
  let fail m := (Failure ("Failed to refund escrow: " ++ m), st) in
  match initClients cfg with
  | Thrown m => fail m
  | Returned _ =>
    match getEscrowDetails_data cfg st (refundEscrowId args) with
    | None => fail ERROR_MESSAGES.ESCROW_NOT_FOUND
    | Some (TransferFile _) => fail ERROR_MESSAGES.ESCROW_ALREADY_RELEASED
    | Some (EscrowFile e) =>
      if negb (bool_decide (status e = PENDING))
      then fail ERROR_MESSAGES.ESCROW_ALREADY_RELEASED
      else
        match agentTransfer cfg ext e (clientAddress e) st with
        | Thrown m => fail m
        | Returned (transferResult, st1) =>
          let e' := {| id := id e;
                       clientAddress := clientAddress e;
                       agentAddress := agentAddress e;
                       providerAddress := providerAddress e;
                       tokenAddress := tokenAddress e;
                       amount := amount e;
                       serviceId := serviceId e;
                       status := REFUNDED;
                       clientTxHash := clientTxHash e;
                       releaseTxHash := Some transferResult;
                       createdAt := createdAt e;
                       updatedAt := now ext;
                       metadata := withReason "refund_reason"
                                     (refundReason args) (metadata e) |} in
          (Success ("Escrow refunded successfully. " ++ amount e ++
                    " USDC transferred from agent back to client.")
                   (refundEscrowId args) transferResult REFUNDED,
           storeTransaction st1 (refundEscrowId args) (EscrowFile e'))
        end
    end
  end.

(** A caller's request against the provider. *)
Inductive Call :=
| CallRelease (args : ReleaseEscrowInput) (ext : Ext)
| CallRefund (args : RefundEscrowInput) (ext : Ext).

Definition callTarget (c : Call) : string :=
  match c with
  | CallRelease a _ => releaseEscrowId a
  | CallRefund a _ => refundEscrowId a
  end.

Definition step (cfg : Config) (c : Call) (st : State) : Response * State :=
  match c with
  | CallRelease a x => releaseEscrow cfg a x st
  | CallRefund a x => refundEscrow cfg a x st
  end.


(** The terminal status that a call writes when it has effect. *)
Definition outcomeStatus (c : Call) : EscrowStatus :=
  match c with
  | CallRelease _ _ => RELEASED
  | CallRefund _ _ => REFUNDED
  end.

(** The address that receives the funds of a call. *)
Definition recipientOf (c : Call) (e : EscrowTransaction) : string :=
  match c with
  | CallRelease _ _ => providerAddress e
  | CallRefund _ _ => clientAddress e
  end.

Definition extOf (c : Call) : Ext :=
  match c with
  | CallRelease _ x => x
  | CallRefund _ x => x
  end.

(** The status stored under an escrow id, if the file is an escrow record. *)
Definition statusOf (st : State) (escrowId : string) : option EscrowStatus :=
  files st !! escrowId ≫= storedStatus.

(** *** Further actions of the erc20-escrow provider *)

Definition INSUFFICIENT_BALANCE := "Insufficient token balance".

(** The message of the error that [fs] throws for a missing directory. *)
Definition noSuchDirectory := "ENOENT: no such file or directory".

Record CreateEscrowInput := mkCreateEscrowInput {
  newClientAddress : string;
  newAgentAddress : string;
  newProviderAddress : string;
  newTokenAddress : string;
  newAmount : string;
  newServiceId : string;
  newMetadata : option (gmap string string)
}.

(** What the outside world answers during [createEscrow]. The balance test
    compares two [parseFloat] results; its outcome is an input here. Outside
    demo mode [initClients] creates the storage directory; in demo mode its
    existence is an input. *)
Record CreateExt := mkCreateExt {
  createTimeMs : string;            (* Date.now() *)
  createRandomHex : string;         (* crypto.randomBytes(4).toString('hex') *)
  createNow : string;               (* new Date().toISOString() *)
  createUpdatedAt : string;         (* the same, read after the transfer *)
  balanceBelowAmount : bool;        (* clientBalanceValue < transferAmount *)
  fundingContract : Outcome string; (* clientClient.writeContract(...) *)
  fundingSimulated : string;        (* the random hash of demo mode *)
  createDirExists : bool            (* temp_storage exists (demo mode) *)
}.

Definition createEscrow (cfg : Config) (args : CreateEscrowInput)
    (ext : CreateExt) (st : State) : Response * State :=
  let fail m := (Failure ("Failed to create escrow: " ++ m), st) in
  match initClients cfg with
  | Thrown m => fail m
  | Returned _ =>
    let escrowId := "escrow_" ++ createTimeMs ext ++ "_" ++ createRandomHex ext in
    let funded : Outcome (string * list ContractCall) :=
      if negb (demoMode cfg) then
        if balanceBelowAmount ext then Thrown INSUFFICIENT_BALANCE
        else
          match parseUnits (newAmount args) USDC_DECIMALS with
          | Thrown m => Thrown m
          | Returned units =>
            match fundingContract ext with
            | Thrown m => Thrown m
            | Returned h =>
              Returned (h, (chain st ++
                            [mkContractCall (newTokenAddress args) ClientWallet
                                            (newAgentAddress args) units])%list)
            end
          end
      else Returned (fundingSimulated ext, chain st) in
    match funded with
    | Thrown m => fail m
    | Returned (transferResult, chain') =>
      if demoMode cfg && negb (createDirExists ext)
      then fail noSuchDirectory
      else
        let escrowTx :=
          {| id := escrowId;
             clientAddress := newClientAddress args;
             agentAddress := newAgentAddress args;
             providerAddress := newProviderAddress args;
             tokenAddress := newTokenAddress args;
             amount := newAmount args;
             serviceId := newServiceId args;
             status := PENDING;
             clientTxHash := Some transferResult;
             releaseTxHash := None;
             createdAt := createNow ext;
             updatedAt := createUpdatedAt ext;
             metadata := newMetadata args |} in
        (Success ("Escrow created successfully. " ++ newAmount args ++
                  " USDC transferred from client to agent.")
                 escrowId transferResult PENDING,
         {| files := <[escrowId := EscrowFile escrowTx]> (files st);
            chain := chain' |})
    end
  end.

(** The account addresses of the three wallet clients: derived from the
    private keys outside demo mode, fixed in demo mode. *)
Record Accounts := mkAccounts {
  clientAccount : string;
  agentAccount : string;
  providerAccount : string
}.

Definition accountsOf (cfg : Config) (live : Accounts) : Accounts :=
  if demoMode cfg
  then {| clientAccount := "0xclient"; agentAccount := "0xagent";
          providerAccount := "0xprovider" |}
  else live.

Record TransferTokensInput := mkTransferTokensInput {
  sendFrom : string;
  sendTo : string;
  sendToken : string;
  sendAmount : string
}.

Record TransferExt := mkTransferExt {
  senderBalance : Outcome Z;         (* walletClient.readContract(balanceOf) *)
  sendContract : Outcome string;     (* walletClient.writeContract(...) *)
  sendSimulated : string;            (* the random hash of demo mode *)
  sendTimeMs : string;
  sendRandomHex : string;
  sendNow : string;
  sendDirExists : bool               (* temp_storage exists (demo mode) *)
}.

(** The wallet client that [transferTokens] picks for a sender address: the
    client, the agent and the provider are compared in this order. *)
Definition managedWallet (cfg : Config) (live : Accounts) (sender : string)
  : option Wallet :=
  let a := accountsOf cfg live in
  if String.eqb sender (orElse (Some (clientAccount a)) "0xclient")
  then Some ClientWallet
  else if String.eqb sender (orElse (Some (agentAccount a)) "0xagent")
  then Some AgentWallet
  else if String.eqb sender (orElse (Some (providerAccount a)) "0xprovider")
  then Some ProviderWallet
  else None.

(** The answer of [transferTokens]. *)
Inductive TransferResponse :=
| Transferred (message transactionHash : string)
| TransferFailure (message : string).

(** [transferTokens]. The stored record is kept without the [metadata] that
    the caller may attach, which no action reads. *)
Definition transferTokens (cfg : Config) (live : Accounts)
    (args : TransferTokensInput) (ext : TransferExt) (st : State)
  : TransferResponse * State :=
  let fail m := (TransferFailure ("Failed to transfer tokens: " ++ m), st) in
  match initClients cfg with
  | Thrown m => fail m
  | Returned _ =>
    match managedWallet cfg live (sendFrom args) with
    | None =>
      fail ("Cannot send from address " ++ sendFrom args ++
            ": Not a managed wallet")
    | Some wallet =>
      let sent : Outcome (string * list ContractCall) :=
        if negb (demoMode cfg) then
          match senderBalance ext with
          | Thrown m => Thrown m
          | Returned balance =>
            match parseUnits (sendAmount args) USDC_DECIMALS with
            | Thrown m => Thrown m
            | Returned transferAmount =>
              if (balance <? transferAmount)%Z then Thrown INSUFFICIENT_BALANCE
              else
                match sendContract ext with
                | Thrown m => Thrown m
                | Returned h =>
                  Returned (h, (chain st ++
                                [mkContractCall (sendToken args) wallet
                                                (sendTo args) transferAmount])%list)
                end
            end
          end
        else Returned (sendSimulated ext, chain st) in
      match sent with
      | Thrown m => fail m
      | Returned (transferResult, chain') =>
        if demoMode cfg && negb (sendDirExists ext)
        then fail noSuchDirectory
        else
          let newId := "transfer_" ++ sendTimeMs ext ++ "_" ++ sendRandomHex ext in
          let transferRecord :=
            {| transferId := newId;
               fromAddress := sendFrom args;
               toAddress := sendTo args;
               transferToken := sendToken args;
               transferAmount := sendAmount args;
               txHash := transferResult;
               timestamp := sendNow ext |} in
          (Transferred ("Transfer successful. " ++ sendAmount args ++
                        " USDC transferred from " ++ sendFrom args ++ " to " ++
                        sendTo args ++ ".") transferResult,
           {| files := <[newId := TransferFile transferRecord]> (files st);
              chain := chain' |})
      end
    end
  end.

Record GetAllEscrowTransactionsInput := mkGetAllEscrowTransactionsInput {
  wantStatus : option EscrowStatus;
  wantServiceId : option string;
  wantClientAddress : option string;
  wantProviderAddress : option string
}.

(** [queryTransactions]: the parsed content of every [.json] file of the
    storage directory. The order is that of [readdirSync]; a fixed order
    of the map stands for it. *)
Definition queryTransactions (st : State) : list Stored :=
  (map_to_list (files st)).*2.

(** A string field of a stored file: [undefined] for a transfer record. *)
Definition storedField (f : EscrowTransaction -> string) (tx : Stored)
  : option string :=
  match tx with
  | EscrowFile e => Some (f e)
  | TransferFile _ => None
  end.

(** One [if (args.x) filtered = filtered.filter(tx => tx.x === args.x)]. *)
Definition filterBy (want : option string) (f : EscrowTransaction -> string)
    (l : list Stored) : list Stored :=
  if truthy want
  then List.filter (fun tx => bool_decide (storedField f tx = want)) l
  else l.

Definition filterByStatus (want : option EscrowStatus) (l : list Stored)
  : list Stored :=
  match want with
  | Some s => List.filter (fun tx => bool_decide (storedStatus tx = Some s)) l
  | None => l
  end.

Inductive ListResponse :=
| NoTransactions                                   (* "No escrow transactions found" *)
| Transactions (count : nat) (data : list Stored)  (* "... retrieved successfully" *)
| ListFailure (message : string).

Definition getAllEscrowTransactions (cfg : Config)
    (args : GetAllEscrowTransactionsInput) (dirExists : bool) (st : State)
  : ListResponse :=
  match initClients cfg with
  | Thrown m => ListFailure ("Failed to get escrow transactions: " ++ m)
  | Returned _ =>
    if demoMode cfg && negb dirExists
    then ListFailure ("Failed to get escrow transactions: " ++ noSuchDirectory)
    else
      match queryTransactions st with
      | [] => NoTransactions
      | transactions =>
        let filteredTransactions :=
          filterBy (wantProviderAddress args) providerAddress
            (filterBy (wantClientAddress args) clientAddress
               (filterBy (wantServiceId args) serviceId
                  (filterByStatus (wantStatus args) transactions))) in
        Transactions (length filteredTransactions) filteredTransactions
      end
  end.

End WithParseUnits.

(** A stand-in for [parseUnits] on strings of decimal digits only, where
    viem pads the (empty) fraction with [decimals] zeros: ["50"] at 6
    decimals is [50000000]. Other strings are rejected here. *)
Fixpoint digitsValue (s : string) (acc : Z) : option Z :=
  match s with
  | EmptyString => Some acc
  | String c s' =>
    let n := Ascii.nat_of_ascii c in
    if (48 <=? n)%nat && (n <=? 57)%nat
    then digitsValue s' (10 * acc + Z.of_nat (n - 48))%Z
    else None
  end.

Definition wholeUnits (value : string) (decimals : nat) : Outcome Z :=
  match digitsValue value 0 with
  | Some v => Returned (v * 10 ^ Z.of_nat decimals)%Z
  | None => Thrown "InvalidDecimalNumberError"
  end.

End Escrow.

(* ===================================================================== *)
(** ** marketplace provider *)
(* ===================================================================== *)

(** [String.prototype.toLowerCase] folds every letter that Unicode gives a
    lower-case form. The actions that call it take it as a parameter
    [toLowerCase], so what is proved of them holds for the function of the
    JavaScript engine. [asciiToLowerCase] is that function on text that
    consists of ASCII characters, where only A-Z change. *)
Definition lowerAscii (c : Ascii.ascii) : Ascii.ascii :=
  let n := Ascii.nat_of_ascii c in
  if (65 <=? n)%nat && (n <=? 90)%nat then Ascii.ascii_of_nat (n + 32) else c.

Fixpoint asciiToLowerCase (s : string) : string :=
  match s with
  | EmptyString => EmptyString
  | String c s' => String (lowerAscii c) (asciiToLowerCase s')
  end.

(** [hay.includes(needle)]. *)
Fixpoint includes (hay needle : string) : bool :=
  String.prefix needle hay ||
  match hay with
  | EmptyString => false
  | String _ hay' => includes hay' needle
  end.

(** A stored object's content: JSON that parses to a record of type [A], or
    text on which [JSON.parse] throws. *)
Inductive Content (A : Type) : Type :=
| Parsed (a : A)
| Malformed.
Arguments Parsed {A} a.
Arguments Malformed {A}.

(** Objects of one key prefix, in the order in which a bucket query returns
    them. [put] replaces the object of an existing key and appends a new
    key at the end. *)
Fixpoint get {A : Type} (k : string) (l : list (string * A)) : option A :=
  match l with
  | [] => None
  | (k', v) :: l' => if String.eqb k k' then Some v else get k l'
  end.

Fixpoint put {A : Type} (k : string) (v : A) (l : list (string * A))
  : list (string * A) :=
  match l with
  | [] => [(k, v)]
  | (k', v') :: l' =>
    if String.eqb k k' then (k, v) :: l' else (k', v') :: put k v l'
  end.

(** What [bucketManager.get] answers for one object inside a query loop:
    its content, no content, or an error. *)
Inductive Fetch := Fetched | FetchedNothing | FetchThrows.

(** The loop of [_queryObjects] over the queried keys: an object whose
    [get] throws is skipped, and one whose [get] gives no content is kept
    with the empty string as content, on which [JSON.parse] throws. *)
Fixpoint fetched {A : Type} (fetch : string -> Fetch)
    (objs : list (string * Content A)) : list (string * Content A) :=
  match objs with
  | [] => []
  | (k, c) :: rest =>
    match fetch k with
    | Fetched => (k, c) :: fetched fetch rest
    | FetchedNothing => (k, Malformed) :: fetched fetch rest
    | FetchThrows => fetched fetch rest
    end
  end.

Module Marketplace.

Module SERVICE_STATUS.
Inductive t := AVAILABLE | BOOKED | COMPLETED | CANCELLED.
#[global] Instance eq_dec : EqDecision t.
Proof. solve_decision. Defined.
End SERVICE_STATUS.

Module BOOKING_STATUS.
Inductive t := PENDING | CONFIRMED | COMPLETED | DISPUTED | CANCELLED | REFUNDED.
#[global] Instance eq_dec : EqDecision t.
Proof. solve_decision. Defined.
End BOOKING_STATUS.

(** [z.enum(["zoom", "meet", "jitsi"])]. *)
Inductive MeetingPlatform := zoom | meet | jitsi.

(** [z.enum(["full_refund", "partial_refund", "no_refund"])]. *)
Inductive Resolution := full_refund | partial_refund | no_refund.

#[global] Instance Resolution_eq_dec : EqDecision Resolution.
Proof. solve_decision. Defined.

(** The status strings of a dispute record. *)
Inductive DisputeStatus := dispute_pending | dispute_resolved.

(** [serviceObject] of [createService], with the two fields that
    [bookService] adds later. *)
Record Service := mkService {
  id : string;
  provider : string;
  title : string;
  description : string;
  date : string;
  startTime : string;
  endTime : string;
  timeZone : string;
  price : string;
  status : SERVICE_STATUS.t;
  createdAt : string;
  bookedBy : option string;
  updatedAt : option string
}.

(** [bookingObject.service]. *)
Record ServiceSummary := mkServiceSummary {
  sTitle : string;
  sProvider : string;
  sDate : string;
  sStartTime : string;
  sEndTime : string;
  sTimeZone : string;
  sPrice : string
}.

(** [bookingObject] of [bookService], with the fields that [fileDispute]
    and [resolveDispute] add later. *)
Record Booking := mkBooking {
  bId : string;
  bServiceId : string;
  bService : ServiceSummary;
  clientName : string;
  clientEmail : string;
  meetingPlatform : MeetingPlatform;
  meetingLink : string;
  bStatus : BOOKING_STATUS.t;
  meetingNotes : string;
  bCreatedAt : string;
  disputeReason : option string;
  disputeEvidence : option string;
  disputeFiledAt : option string;
  disputeResolution : option Resolution;
  disputeResolutionNotes : option string;
  bRefundAmount : option string;
  bResolvedAt : option string
}.

(** [disputeObject] of [fileDispute], with the fields that [resolveDispute]
    adds later. *)
Record Dispute := mkDispute {
  dId : string;
  dBookingId : string;
  dServiceId : string;
  reason : string;
  evidence : string;
  dStatus : DisputeStatus;
  dMeetingNotes : string;
  dCreatedAt : string;
  resolution : option Resolution;
  resolutionNotes : option string;
  dRefundAmount : option string;
  dResolvedAt : option string
}.

(** The main bucket. Every key written by the provider starts with one of
    [BUCKET_PREFIXES]; the objects of each prefix are kept apart, keyed by
    the rest of the key ("services/k" is entry [k] of [services]). *)
Record Bucket := mkBucket {
  services : list (string * Content Service);
  bookings : list (string * Content Booking);
  disputes : list (string * Content Dispute)
}.

(** One [bucketManager.add] that the network accepted. *)
Inductive Put :=
| PutService (key : string) (s : Service)
| PutBooking (key : string) (b : Booking)
| PutDispute (key : string) (d : Dispute).

Definition applyPut (b : Bucket) (p : Put) : Bucket :=
  match p with
  | PutService k s =>
    {| services := put k (Parsed s) (services b);
       bookings := bookings b; disputes := disputes b |}
  | PutBooking k x =>
    {| services := services b;
       bookings := put k (Parsed x) (bookings b); disputes := disputes b |}
  | PutDispute k d =>
    {| services := services b; bookings := bookings b;
       disputes := put k (Parsed d) (disputes b) |}
  end.

(** Provider state: whether [recallClient] and [mainBucket] are set, the
    bucket, and the accepted [add] transactions in the order of their
    submission. *)
Record State := mkState {
  initialized : bool;
  bucket : Bucket;
  addLog : list Put
}.

(** What the outside world answers during one action: the clock, the random
    number, and for the k-th bucket call of each kind whether it throws. *)
Record Ext := mkExt {
  timeMs : string;                          (* Date.now() *)
  random1000 : string;                      (* Math.floor(Math.random() * 1000) *)
  nowIso : string;                          (* new Date().toISOString() *)
  addOutcome : nat -> Outcome (option string); (* k-th add: tx hash, or thrown *)
  getThrows : nat -> bool;                  (* k-th get throws *)
  queryThrows : bool;                       (* the query throws *)
  queryGet : string -> Fetch                (* the get of a queried key *)
}.

Module ERROR_MESSAGES.
Definition MISSING_CLIENT :=
    "Marketplace client not initialized. Please create a client first.".
Definition FAILED_BOOKING_CREATION := "Failed to create booking.".
Definition FAILED_DISPUTE_FILING := "Failed to file dispute.".
Definition FAILED_DISPUTE_RESOLUTION := "Failed to resolve dispute.".
Definition SERVICE_ALREADY_BOOKED := "This service has already been booked.".
End ERROR_MESSAGES.

Definition _isInitialized (st : State) : bool := initialized st.

Record StoreResult := mkStoreResult {
  success : bool;
  message : string
}.

(** [_storeObject]: never throws; a failed [add] leaves the bucket as it
    was. *)
Definition _storeObject (st : State) (p : Put) (o : Outcome (option string))
  : StoreResult * State :=
  if negb (_isInitialized st)
  then (mkStoreResult false ERROR_MESSAGES.MISSING_CLIENT, st)
  else
    match o with
    | Returned _ =>
      (mkStoreResult true "Data stored.",
       {| initialized := initialized st;
          bucket := applyPut (bucket st) p;
          addLog := addLog st ++ [p] |})
    | Thrown m => (mkStoreResult false ("Failed to store data: " ++ m), st)
    end.

(** [_getObject], reduced to [success] and the content: a missing object,
    a throwing call and an uninitialised client all give no content. *)
Definition _getObject {A : Type} (st : State) (objs : list (string * Content A))
    (key : string) (throws : bool) : option (Content A) :=
  if negb (_isInitialized st) then None
  else if throws then None
  else get key objs.

(** [_queryObjects]: a failure, or the objects of a prefix in query order
    as far as the [get] of each could be answered. *)
Definition _queryObjects {A : Type} (st : State)
    (objs : list (string * Content A)) (throws : bool) (fetch : string -> Fetch)
  : option (list (string * Content A)) :=
  if negb (_isInitialized st) then None
  else if throws then None
  else Some (fetched fetch objs).

Record CreateServiceArgs := mkCreateServiceArgs {
  argProvider : string;
  argTitle : string;
  argDescription : string;
  argDate : string;
  argStartTime : string;
  argEndTime : string;
  argTimeZone : string;
  argPrice : string
}.

Record ListServicesArgs := mkListServicesArgs {
  argFilter : option string
}.

Record BookServiceArgs := mkBookServiceArgs {
  argServiceId : string;
  argClientName : string;
  argClientEmail : string;
  argMeetingPlatform : MeetingPlatform
}.

Record FileDisputeArgs := mkFileDisputeArgs {
  fdBookingId : string;
  fdReason : string;
  fdEvidence : option string
}.

Record ResolveDisputeArgs := mkResolveDisputeArgs {
  rdBookingId : string;
  rdResolution : Resolution;
  rdRefundAmount : option string;
  rdNotes : string
}.

(** The answers of the actions, one constructor per [return] statement; the
    text of each is quoted from the source. *)
Inductive Reply :=
| MissingClient
    (* ERROR_MESSAGES.MISSING_CLIENT *)
| ServiceCreated (serviceId : string)
    (* "Successfully created service ... with ID: <serviceId>. ..." *)
| ServiceCreationFailed (msg : string)
    (* "Failed to create service. <msg>" *)
| ListingFailed
    (* "Failed to list services. <msg>" *)
| NoServicesFound
    (* "No services found in the marketplace." *)
| NoAvailableServices (filter : string)
    (* "No available services found[ matching <filter>]." *)
| AvailableServices (filter : string) (found : list Service)
    (* "Available Services[ matching <filter>]:" and one entry per service *)
| BookingServiceNotFound
    (* FAILED_BOOKING_CREATION + " Service not found." *)
| ServiceAlreadyBooked
    (* ERROR_MESSAGES.SERVICE_ALREADY_BOOKED *)
| BookingStoreFailed (msg : string)
    (* "Failed to create booking. <msg>" *)
| BookedButServiceNotUpdated (msg : string)
    (* "Booking created, but failed to update service status. <msg>" *)
| ServiceBooked (bookingId meetingLink : string)
    (* "Service ... successfully booked! ..." *)
| BookingParseError
    (* FAILED_BOOKING_CREATION + " Error parsing service data." *)
| DisputeBookingNotFound
    (* FAILED_DISPUTE_FILING + " Booking not found." *)
| DisputeBookingStoreFailed (msg : string)
    (* "Failed to update booking with dispute. <msg>" *)
| DisputedButNoRecord (msg : string)
    (* "Booking marked as disputed, but failed to create dispute record. <msg>" *)
| DisputeFiled (bookingId : string)
    (* "Dispute filed for booking <bookingId>. ..." *)
| DisputeParseError
    (* FAILED_DISPUTE_FILING + " Error parsing booking data." *)
| ResolutionBookingNotFound
    (* FAILED_DISPUTE_RESOLUTION + " Booking not found." *)
| NotDisputed (current : BOOKING_STATUS.t)
    (* "This booking is not currently disputed. Current status: <STATUS>." *)
| ResolutionStoreFailed (msg : string)
    (* "Failed to update booking with dispute resolution. <msg>" *)
| DisputeResolved (bookingId : string) (res : Resolution)
    (refundText : option string) (disputeUpdated : bool)
    (* "Dispute for booking <bookingId> has been resolved. ..." with the
       resolution line, the refund amount line and, when no dispute record
       was found, the closing note *)
| ResolutionParseError.
    (* FAILED_DISPUTE_RESOLUTION + " Error parsing booking data." *)

Definition createService (args : CreateServiceArgs) (ext : Ext) (st : State)
  : Reply * State :=
  if negb (_isInitialized st) then (MissingClient, st)
  else
    let serviceId := "service_" ++ timeMs ext ++ "_" ++ random1000 ext in
    let serviceObject :=
      {| id := serviceId;
         provider := argProvider args;
         title := argTitle args;
         description := argDescription args;
         date := argDate args;
         startTime := argStartTime args;
         endTime := argEndTime args;
         timeZone := argTimeZone args;
         price := argPrice args;
         status := SERVICE_STATUS.AVAILABLE;
         createdAt := nowIso ext;
         bookedBy := None;
         updatedAt := None |} in
    let '(result, st1) :=
      _storeObject st (PutService serviceId serviceObject) (addOutcome ext 0) in
    if success result then (ServiceCreated serviceId, st1)
    else (ServiceCreationFailed (message result), st1).

(** The parsed objects of a query, without those that do not parse. *)
Fixpoint parsedObjects {A : Type} (data : list (string * Content A)) : list A :=
  match data with
  | [] => []
  | (_, Parsed a) :: rest => a :: parsedObjects rest
  | (_, Malformed) :: rest => parsedObjects rest
  end.

Section WithToLowerCase.

(** [String.prototype.toLowerCase]. *)
Variable toLowerCase : string -> string.

Definition matchesFilter (filter : string) (service : Service) : bool :=
  bool_decide (status service = SERVICE_STATUS.AVAILABLE) &&
  (String.eqb filter "" ||
   includes (toLowerCase (title service)) filter ||
   includes (toLowerCase (provider service)) filter ||
   includes (toLowerCase (description service)) filter).

Definition listServices (args : ListServicesArgs) (ext : Ext) (st : State)
  : Reply :=
  if negb (_isInitialized st) then MissingClient
  else
    let filter := match argFilter args with
                  | Some f => toLowerCase f
                  | None => ""
                  end in
    match _queryObjects st (services (bucket st)) (queryThrows ext)
                        (queryGet ext) with
    | None => ListingFailed
    | Some [] => NoServicesFound
    | Some data =>
      match List.filter (matchesFilter filter) (parsedObjects data) with
      | [] => NoAvailableServices filter
      | serviceObjects => AvailableServices filter serviceObjects
      end
    end.

End WithToLowerCase.

Definition bookService (args : BookServiceArgs) (ext : Ext) (st : State)
  : Reply * State :=
  if negb (_isInitialized st) then (MissingClient, st)
  else
    match _getObject st (services (bucket st)) (argServiceId args)
                     (getThrows ext 0) with
    | None => (BookingServiceNotFound, st)
    | Some Malformed => (BookingParseError, st)
    | Some (Parsed service) =>
      if negb (bool_decide (status service = SERVICE_STATUS.AVAILABLE))
      then (ServiceAlreadyBooked, st)
      else
        let bookingId := "booking_" ++ timeMs ext ++ "_" ++ random1000 ext in
        let link :=
          "https://" ++
          match argMeetingPlatform args with
          | zoom => "zoom" | meet => "meet" | jitsi => "jitsi"
          end ++ ".example.com/meeting/" ++ bookingId in
        let bookingObject :=
          {| bId := bookingId;
             bServiceId := argServiceId args;
             bService :=
               {| sTitle := title service;
                  sProvider := provider service;
                  sDate := date service;
                  sStartTime := startTime service;
                  sEndTime := endTime service;
                  sTimeZone := timeZone service;
                  sPrice := price service |};
             clientName := argClientName args;
             clientEmail := argClientEmail args;
             meetingPlatform := argMeetingPlatform args;
             meetingLink := link;
             bStatus := BOOKING_STATUS.CONFIRMED;
             meetingNotes := "";
             bCreatedAt := nowIso ext;
             disputeReason := None;
             disputeEvidence := None;
             disputeFiledAt := None;
             disputeResolution := None;
             disputeResolutionNotes := None;
             bRefundAmount := None;
             bResolvedAt := None |} in
        let '(bookingResult, st1) :=
          _storeObject st (PutBooking bookingId bookingObject)
                       (addOutcome ext 0) in
        if negb (success bookingResult)
        then (BookingStoreFailed (message bookingResult), st1)
        else
          let service' :=
            {| id := id service;
               provider := provider service;
               title := title service;
               description := description service;
               date := date service;
               startTime := startTime service;
               endTime := endTime service;
               timeZone := timeZone service;
               price := price service;
               status := SERVICE_STATUS.BOOKED;
               createdAt := createdAt service;
               bookedBy := Some bookingId;
               updatedAt := Some (nowIso ext) |} in
          let '(updateResult, st2) :=
            _storeObject st1 (PutService (argServiceId args) service')
                         (addOutcome ext 1) in
          if negb (success updateResult)
          then (BookedButServiceNotUpdated (message updateResult), st2)
          else (ServiceBooked bookingId link, st2)
    end.

Definition fileDispute (args : FileDisputeArgs) (ext : Ext) (st : State)
  : Reply * State :=
  if negb (_isInitialized st) then (MissingClient, st)
  else
    match _getObject st (bookings (bucket st)) (fdBookingId args)
                     (getThrows ext 0) with
    | None => (DisputeBookingNotFound, st)
    | Some Malformed => (DisputeParseError, st)
    | Some (Parsed booking) =>
      let booking' :=
        {| bId := bId booking;
           bServiceId := bServiceId booking;
           bService := bService booking;
           clientName := clientName booking;
           clientEmail := clientEmail booking;
           meetingPlatform := meetingPlatform booking;
           meetingLink := meetingLink booking;
           bStatus := BOOKING_STATUS.DISPUTED;
           meetingNotes := meetingNotes booking;
           bCreatedAt := bCreatedAt booking;
           disputeReason := Some (fdReason args);
           disputeEvidence := Some (orElse (fdEvidence args) "");
           disputeFiledAt := Some (nowIso ext);
           disputeResolution := disputeResolution booking;
           disputeResolutionNotes := disputeResolutionNotes booking;
           bRefundAmount := bRefundAmount booking;
           bResolvedAt := bResolvedAt booking |} in
      let '(updateResult, st1) :=
        _storeObject st (PutBooking (fdBookingId args) booking')
                     (addOutcome ext 0) in
      if negb (success updateResult)
      then (DisputeBookingStoreFailed (message updateResult), st1)
      else
        let disputeId := "dispute_" ++ timeMs ext ++ "_" ++ fdBookingId args in
        let disputeObject :=
          {| dId := disputeId;
             dBookingId := fdBookingId args;
             dServiceId := bServiceId booking;
             reason := fdReason args;
             evidence := orElse (fdEvidence args) "";
             dStatus := dispute_pending;
             dMeetingNotes := meetingNotes booking;
             dCreatedAt := nowIso ext;
             resolution := None;
             resolutionNotes := None;
             dRefundAmount := None;
             dResolvedAt := None |} in
        let '(disputeResult, st2) :=
          _storeObject st1 (PutDispute disputeId disputeObject)
                       (addOutcome ext 1) in
        if negb (success disputeResult)
        then (DisputedButNoRecord (message disputeResult), st2)
        else (DisputeFiled (fdBookingId args), st2)
    end.

(** The loop of [resolveDispute] over the queried dispute objects: the first
    one that parses and carries the booking id, with its key. *)
Fixpoint findDispute (bookingId : string) (data : list (string * Content Dispute))
  : option (string * Dispute) :=
  match data with
  | [] => None
  | (k, Parsed d) :: rest =>
    if String.eqb (dBookingId d) bookingId then Some (k, d)
    else findDispute bookingId rest
  | (_, Malformed) :: rest => findDispute bookingId rest
  end.

Definition resolveDispute (args : ResolveDisputeArgs) (ext : Ext) (st : State)
  : Reply * State :=
  if negb (_isInitialized st) then (MissingClient, st)
  else
    match _getObject st (bookings (bucket st)) (rdBookingId args)
                     (getThrows ext 0) with
    | None => (ResolutionBookingNotFound, st)
    | Some Malformed => (ResolutionParseError, st)
    | Some (Parsed booking) =>
      if negb (bool_decide (bStatus booking = BOOKING_STATUS.DISPUTED))
      then (NotDisputed (bStatus booking), st)
      else
        let booking' :=
          {| bId := bId booking;
             bServiceId := bServiceId booking;
             bService := bService booking;
             clientName := clientName booking;
             clientEmail := clientEmail booking;
             meetingPlatform := meetingPlatform booking;
             meetingLink := meetingLink booking;
             bStatus := if bool_decide (rdResolution args = no_refund)
                        then BOOKING_STATUS.COMPLETED
                        else BOOKING_STATUS.REFUNDED;
             meetingNotes := meetingNotes booking;
             bCreatedAt := bCreatedAt booking;
             disputeReason := disputeReason booking;
             disputeEvidence := disputeEvidence booking;
             disputeFiledAt := disputeFiledAt booking;
             disputeResolution := Some (rdResolution args);
             disputeResolutionNotes := Some (rdNotes args);
             bRefundAmount := Some (orElse (rdRefundAmount args) "0");
             bResolvedAt := Some (nowIso ext) |} in
        let '(updateResult, st1) :=
          _storeObject st (PutBooking (rdBookingId args) booking')
                       (addOutcome ext 0) in
        if negb (success updateResult)
        then (ResolutionStoreFailed (message updateResult), st1)
        else
          let found :=
            match _queryObjects st1 (disputes (bucket st1)) (queryThrows ext)
                                (queryGet ext) with
            | Some data => findDispute (rdBookingId args) data
            | None => None
            end in
          let '(disputeUpdated, st2) :=
            match found with
            | Some (key, disputeObj) =>
              let disputeObj' :=
                {| dId := dId disputeObj;
                   dBookingId := dBookingId disputeObj;
                   dServiceId := dServiceId disputeObj;
                   reason := reason disputeObj;
                   evidence := evidence disputeObj;
                   dStatus := dispute_resolved;
                   dMeetingNotes := dMeetingNotes disputeObj;
                   dCreatedAt := dCreatedAt disputeObj;
                   resolution := Some (rdResolution args);
                   resolutionNotes := Some (rdNotes args);
                   dRefundAmount := Some (orElse (rdRefundAmount args) "0");
                   dResolvedAt := Some (nowIso ext) |} in
              (true, snd (_storeObject st1 (PutDispute key disputeObj')
                                       (addOutcome ext 1)))
            | None => (false, st1)
            end in
          let refundText :=
            match rdResolution args with
            | full_refund => Some (sPrice (bService booking))
            | partial_refund => Some (default "undefined" (rdRefundAmount args))
            | no_refund => None
            end in
          (DisputeResolved (rdBookingId args) (rdResolution args)
                           refundText disputeUpdated, st2)
    end.

(** *** Read-only actions of the marketplace provider *)

Record ListBookingsArgs := mkListBookingsArgs {
  wantProvider : option string;
  wantClient : option string
}.

(** The answers of [getService], [getBooking] and [listBookings]; the
    detail answers keep the record whose fields the text shows. *)
Inductive ReadReply :=
| ReadMissingClient
    (* ERROR_MESSAGES.MISSING_CLIENT *)
| ServiceRetrievalFailed
    (* FAILED_SERVICE_RETRIEVAL + the message of _getObject *)
| ServiceDetails (shown : Service)
    (* "Service Details:" with title, provider, description, date, time,
       price, status in upper case and id *)
| ServiceUnreadable
    (* FAILED_SERVICE_RETRIEVAL + " Error parsing service data." *)
| BookingRetrievalFailed
    (* FAILED_BOOKING_RETRIEVAL + the message of _getObject *)
| BookingDetails (shown : Booking)
    (* "Booking Details:" with the service data, the client, the status in
       upper case, the meeting platform and link, the id and the notes *)
| BookingUnreadable
    (* FAILED_BOOKING_RETRIEVAL + " Error parsing booking data." *)
| BookingListingFailed
    (* "Failed to list bookings. <msg>" *)
| NoBookingsFound
    (* "No bookings found." *)
| NoBookingsMatching
    (* "No bookings found matching the provided filters." *)
| BookingList (found : list Booking).
    (* "Bookings[ for provider ...][ by client ...]:" and one entry each *)

Definition getService (serviceId : string) (ext : Ext) (st : State) : ReadReply :=
  if negb (_isInitialized st) then ReadMissingClient
  else
    match _getObject st (services (bucket st)) serviceId (getThrows ext 0) with
    | None => ServiceRetrievalFailed
    | Some Malformed => ServiceUnreadable
    | Some (Parsed service) => ServiceDetails service
    end.

Definition getBooking (bookingId : string) (ext : Ext) (st : State) : ReadReply :=
  if negb (_isInitialized st) then ReadMissingClient
  else
    match _getObject st (bookings (bucket st)) bookingId (getThrows ext 0) with
    | None => BookingRetrievalFailed
    | Some Malformed => BookingUnreadable
    | Some (Parsed booking) => BookingDetails booking
    end.

Section ListingBookings.

(** [String.prototype.toLowerCase]. *)
Variable toLowerCase : string -> string.

(** The filter of [listBookings]: the lower-case form of each given name
    must occur in the lower-case form of the provider name of the booked
    service, respectively of the client name. *)
Definition matchesBooking (args : ListBookingsArgs) (booking : Booking) : bool :=
  (negb (truthy (wantProvider args)) ||
   includes (toLowerCase (sProvider (bService booking)))
            (toLowerCase (default "" (wantProvider args)))) &&
  (negb (truthy (wantClient args)) ||
   includes (toLowerCase (clientName booking))
            (toLowerCase (default "" (wantClient args)))).

Definition listBookings (args : ListBookingsArgs) (ext : Ext) (st : State)
  : ReadReply :=
  if negb (_isInitialized st) then ReadMissingClient
  else
    match _queryObjects st (bookings (bucket st)) (queryThrows ext)
                        (queryGet ext) with
    | None => BookingListingFailed
    | Some [] => NoBookingsFound
    | Some data =>
      match List.filter (matchesBooking args) (parsedObjects data) with
      | [] => NoBookingsMatching
      | bookingObjects => BookingList bookingObjects
      end
    end.

End ListingBookings.

End Marketplace.

(* ===================================================================== *)
(** ** moderia provider *)
(* ===================================================================== *)

(** [Array.prototype.slice(0, n)] for an integer [n]: a negative [n] counts
    from the end. *)
Definition slice0 {A : Type} (n : Z) (l : list A) : list A :=
  if (n <? 0)%Z then take (Z.to_nat (Z.of_nat (length l) + n)) l
  else take (Z.to_nat n) l.

(** A number that [z.number()] accepts: a finite one, given as a fraction,
    or one of the infinities ([NaN] is refused by the schema). *)
Inductive JsNumber := Finite (q : Q) | PlusInfinity | MinusInfinity.

(** [ToIntegerOrInfinity] on a finite number: the fraction is dropped, the
    rounding is towards zero. *)
Definition truncate (q : Q) : Z := Z.quot (Qnum q) (Z.pos (Qden q)).

(** [Array.prototype.slice(0, n)] for any number [n]. *)
Definition sliceTo {A : Type} (n : JsNumber) (l : list A) : list A :=
  match n with
  | Finite q => slice0 (truncate q) l
  | PlusInfinity => l
  | MinusInfinity => []
  end.

Module Moderia.

Module ServiceStatus.
Inductive t := AVAILABLE | BOOKED | COMPLETED | CANCELLED.
#[global] Instance eq_dec : EqDecision t.
Proof. solve_decision. Defined.
Definition text (s : t) : string :=
    match s with
    | AVAILABLE => "available" | BOOKED => "booked"
    | COMPLETED => "completed" | CANCELLED => "cancelled"
    end.
End ServiceStatus.

Module BookingStatus.
Inductive t := CONFIRMED | COMPLETED | CANCELLED | DISPUTED.
End BookingStatus.

Module EscrowStatus.
Inductive t := PENDING | RELEASED | REFUNDED | CANCELLED.
#[global] Instance eq_dec : EqDecision t.
Proof. solve_decision. Defined.
Definition text (s : t) : string :=
    match s with
    | PENDING => "pending" | RELEASED => "released"
    | REFUNDED => "refunded" | CANCELLED => "cancelled"
    end.
End EscrowStatus.

Module MeetingStatus.
Inductive t := SCHEDULED | JOINING | ACTIVE | ENDED | FAILED.
End MeetingStatus.

Record ServiceListing := mkServiceListing {
  id : string;
  serviceType : string;
  providerName : string;
  startTime : string;
  endTime : string;
  price : string;
  walletAddress : string;
  meetingLink : string;
  description : option string;
  status : ServiceStatus.t;
  createdAt : string;
  bucketId : string;
  objectKey : string
}.

Record ServiceBooking := mkServiceBooking {
  bId : string;
  bServiceId : string;
  clientName : string;
  clientEmail : option string;
  specialRequests : option string;
  bookingTime : string;
  bStatus : BookingStatus.t;
  escrowId : option string;
  meetingId : option string;
  bBucketId : string;
  bObjectKey : string
}.

Record EscrowTransaction := mkEscrowTransaction {
  eId : string;
  eBookingId : string;
  amount : string;
  providerAddress : string;
  clientAddress : string;
  agentAddress : string;
  eStatus : EscrowStatus.t;
  eCreatedAt : string;
  completedAt : option string;
  txHash : option string
}.

Record Meeting := mkMeeting {
  mId : string;
  mBookingId : string;
  url : string;
  mTitle : string;
  mStatus : MeetingStatus.t;
  mStartTime : string;
  mEndTime : option string;
  participantCount : Z;
  hasTranscript : bool;
  hasSummary : bool;
  hasAnalysis : bool;
  transcriptUrl : option string;
  summaryUrl : option string;
  qualityScore : option Z
}.

(** A Recall bucket: its id and its objects in query order. Each named
    bucket of the provider only ever receives one kind of record. *)
Record Bucket (A : Type) := mkBucket {
  bucketAddr : string;
  objects : list (string * A)
}.
Arguments mkBucket {A} bucketAddr objects.
Arguments bucketAddr {A} b.
Arguments objects {A} b.

Definition addObject {A : Type} (key : string) (v : A) (b : Bucket A) : Bucket A :=
  {| bucketAddr := bucketAddr b; objects := put key v (objects b) |}.

(** One [bucketManager.add] that the network accepted. *)
Inductive Put :=
| PutService (key : string) (s : ServiceListing)
| PutBooking (key : string) (b : ServiceBooking)
| PutEscrow (key : string) (e : EscrowTransaction).

(** Provider state. [createRecallClient] sets the Recall client and the
    Base Sepolia wallet of a user type together and nothing else sets
    either, so each user type is one field: the wallet's account address
    when the pair is set. The four directories of [storagePath] and the
    transfers submitted to the chain complete the state. *)
Record State := mkState {
  teacher : option string;
  student : option string;
  agent : option string;
  servicesBucket : option (Bucket ServiceListing);
  bookingsBucket : option (Bucket ServiceBooking);
  transactionsBucket : option (Bucket EscrowTransaction);
  meetingFiles : gmap string Meeting;
  transcriptFiles : gmap string string;
  analysisFiles : gmap string string;
  transactionFiles : gmap string EscrowTransaction;
  chain : list ContractCall;
  addLog : list Put
}.

Definition teacherClient (st : State) : bool := bool_decide (is_Some (teacher st)).
Definition studentClient (st : State) : bool := bool_decide (is_Some (student st)).

(** What the outside world answers during one action. *)
Record Ext := mkExt {
  timeMs : string;               (* Date.now() *)
  randomHex : string;            (* crypto.randomBytes(4).toString('hex') *)
  nowIso : string;               (* new Date().toISOString() *)
  createdBucket : Outcome string;   (* bucketManager.create(): the new id *)
  queryThrows : option string;      (* bucketManager.query / get throws *)
  addThrows : nat -> option string; (* k-th bucketManager.add throws *)
  writeContract : Outcome string;   (* wallet.writeContract: the tx hash *)
  contentIsText : bool
    (* whether content.toString() of a fetched object is its JSON text (a
       Buffer) and not the byte list of a plain Uint8Array, on which
       JSON.parse throws *)
}.

Module ERROR_MESSAGES.
Definition MISSING_CLIENT := "Client not initialized. Please create a client first.".
Definition SERVICE_NOT_FOUND := "Service not found.".
Definition BOOKING_NOT_FOUND := "Booking not found.".
Definition ESCROW_NOT_FOUND := "Escrow transaction not found.".
Definition WALLET_NOT_INITIALIZED := "Wallet client not initialized.".
Definition FAILED_CLIENT_CREATION := "Failed to create client.".
Definition MISSING_PRIVATE_KEY := "Missing private key in environment variables.".
Definition INVALID_MEETING_LINK :=
    "Invalid meeting link. Please provide a Google Meet or Zoom link.".
End ERROR_MESSAGES.

Definition USDC_TOKEN_ADDRESS := "0x036CbD53842c5426634e7929541eC2318f3dCF7e".
Definition USDC_DECIMALS : nat := 6.

(** The answers of the actions: most are the returned text itself; the
    listing and the analysis keep their data. *)
Inductive Reply :=
| Text (msg : string)
| Failed (prefix msg : string)      (* "<prefix> Error: <msg>" of a catch block *)
| ListingCreated (serviceId : string)
    (* "Successfully created service listing with ID: <serviceId> ..." *)
| AvailableServices (found : list ServiceListing)
    (* "Available Services:" and one entry per service *)
| NotAvailable (current : ServiceStatus.t)
    (* "Service is not available for booking. Current status: <status>" *)
| Booked (serviceId bookingId : string)
    (* "Successfully booked service with ID: <serviceId>\nBooking ID: ..." *)
| EscrowCreated (bookingId escrowId amount hash : string)
    (* "Successfully created escrow for booking ID: ..." *)
| QualityAnalysis (meetingId : string) (score : Z) (recommendation : string)
    (* the analysisResult text *)
| AlreadySettled (current : EscrowStatus.t)
    (* "Escrow funds have already been <status>. Cannot release again." *)
| FundsReleased (escrowId amount recipient hash : string).
    (* "Successfully released funds from escrow ID: ..." *)

Definition setServices (st : State) (b : Bucket ServiceListing) : State :=
  {| teacher := teacher st; student := student st; agent := agent st;
     servicesBucket := Some b;
     bookingsBucket := bookingsBucket st;
     transactionsBucket := transactionsBucket st;
     meetingFiles := meetingFiles st; transcriptFiles := transcriptFiles st;
     analysisFiles := analysisFiles st;
     transactionFiles := transactionFiles st;
     chain := chain st; addLog := addLog st |}.

Definition setBookings (st : State) (b : Bucket ServiceBooking) : State :=
  {| teacher := teacher st; student := student st; agent := agent st;
     servicesBucket := servicesBucket st;
     bookingsBucket := Some b;
     transactionsBucket := transactionsBucket st;
     meetingFiles := meetingFiles st; transcriptFiles := transcriptFiles st;
     analysisFiles := analysisFiles st;
     transactionFiles := transactionFiles st;
     chain := chain st; addLog := addLog st |}.

Definition setTransactions (st : State) (b : Bucket EscrowTransaction) : State :=
  {| teacher := teacher st; student := student st; agent := agent st;
     servicesBucket := servicesBucket st;
     bookingsBucket := bookingsBucket st;
     transactionsBucket := Some b;
     meetingFiles := meetingFiles st; transcriptFiles := transcriptFiles st;
     analysisFiles := analysisFiles st;
     transactionFiles := transactionFiles st;
     chain := chain st; addLog := addLog st |}.

Definition logPut (st : State) (p : Put) : State :=
  {| teacher := teacher st; student := student st; agent := agent st;
     servicesBucket := servicesBucket st;
     bookingsBucket := bookingsBucket st;
     transactionsBucket := transactionsBucket st;
     meetingFiles := meetingFiles st; transcriptFiles := transcriptFiles st;
     analysisFiles := analysisFiles st;
     transactionFiles := transactionFiles st;
     chain := chain st; addLog := addLog st ++ [p] |}.

Definition submit (st : State) (c : ContractCall) : State :=
  {| teacher := teacher st; student := student st; agent := agent st;
     servicesBucket := servicesBucket st;
     bookingsBucket := bookingsBucket st;
     transactionsBucket := transactionsBucket st;
     meetingFiles := meetingFiles st; transcriptFiles := transcriptFiles st;
     analysisFiles := analysisFiles st;
     transactionFiles := transactionFiles st;
     chain := chain st ++ [c]; addLog := addLog st |}.

Definition setTransactionFile (st : State) (name : string) (e : EscrowTransaction)
  : State :=
  {| teacher := teacher st; student := student st; agent := agent st;
     servicesBucket := servicesBucket st;
     bookingsBucket := bookingsBucket st;
     transactionsBucket := transactionsBucket st;
     meetingFiles := meetingFiles st; transcriptFiles := transcriptFiles st;
     analysisFiles := analysisFiles st;
     transactionFiles := <[name := e]> (transactionFiles st);
     chain := chain st; addLog := addLog st |}.

Definition setAnalysis (st : State) (name : string) (m : Meeting) (text : string)
  : State :=
  {| teacher := teacher st; student := student st; agent := agent st;
     servicesBucket := servicesBucket st;
     bookingsBucket := bookingsBucket st;
     transactionsBucket := transactionsBucket st;
     meetingFiles := <[name := m]> (meetingFiles st);
     transcriptFiles := transcriptFiles st;
     analysisFiles := <[name := text]> (analysisFiles st);
     transactionFiles := transactionFiles st;
     chain := chain st; addLog := addLog st |}.

(** [bucketManager.add] on each named bucket: the object is stored and the
    transaction logged. *)
Definition addService (st : State) (b : Bucket ServiceListing) (key : string)
    (s : ServiceListing) : State :=
  logPut (setServices st (addObject key s b)) (PutService key s).

Definition addBooking (st : State) (b : Bucket ServiceBooking) (key : string)
    (x : ServiceBooking) : State :=
  logPut (setBookings st (addObject key x b)) (PutBooking key x).

Definition addEscrow (st : State) (b : Bucket EscrowTransaction) (key : string)
    (e : EscrowTransaction) : State :=
  logPut (setTransactions st (addObject key e b)) (PutEscrow key e).

(** The first object, in query order, that satisfies a test on its key and
    parsed content: the [for ... of] loops that [break] on a match. *)
Fixpoint firstMatch {A : Type} (test : string -> A -> bool)
    (objs : list (string * A)) : option A :=
  match objs with
  | [] => None
  | (k, a) :: rest => if test k a then Some a else firstMatch test rest
  end.

Record CreateServiceListingArgs := mkCreateServiceListingArgs {
  argServiceType : string;
  argProviderName : string;
  argStartTime : string;
  argEndTime : string;
  argPrice : string;
  argWalletAddress : string;
  argMeetingLink : string;
  argDescription : option string
}.

Record ListAvailableServicesArgs := mkListAvailableServicesArgs {
  filterServiceType : option string;
  limit : JsNumber                    (* z.number().default(10) *)
}.

Record BookServiceArgs := mkBookServiceArgs {
  argServiceId : string;
  argClientName : string;
  argClientEmail : option string;
  argSpecialRequests : option string
}.

Definition createServiceListing (args : CreateServiceListingArgs) (ext : Ext)
    (st : State) : Reply * State :=
  let failed := Failed "Failed to create service listing." in
  if negb (teacherClient st) then (Text ERROR_MESSAGES.MISSING_CLIENT, st)
  else
    let ensured :=
      match servicesBucket st with
      | Some b => Returned (b, st)
      | None =>
        match createdBucket ext with
        | Returned addr =>
          let b := mkBucket addr [] in Returned (b, setServices st b)
        | Thrown m => Thrown m
        end
      end in
    match ensured with
    | Thrown m => (failed m, st)
    | Returned (b, st1) =>
      let serviceId := "service_" ++ timeMs ext ++ "_" ++ randomHex ext in
      let serviceListing :=
        {| id := serviceId;
           serviceType := argServiceType args;
           providerName := argProviderName args;
           startTime := argStartTime args;
           endTime := argEndTime args;
           price := argPrice args;
           walletAddress := argWalletAddress args;
           meetingLink := argMeetingLink args;
           description := argDescription args;
           status := ServiceStatus.AVAILABLE;
           createdAt := nowIso ext;
           bucketId := bucketAddr b;
           objectKey := "service_" ++ serviceId ++ ".json" |} in
      match addThrows ext 0 with
      | Some m => (failed m, st1)
      | None =>
        (ListingCreated serviceId,
         addService st1 b (objectKey serviceListing) serviceListing)
      end
    end.

(** The per-object test of [listAvailableServices]: [null] for another
    service type or a status other than available. *)
Definition listed (args : ListAvailableServicesArgs) (service : ServiceListing)
  : bool :=
  negb (truthy (filterServiceType args) &&
        negb (String.eqb (serviceType service)
                         (default "" (filterServiceType args)))) &&
  bool_decide (status service = ServiceStatus.AVAILABLE).

Definition listAvailableServices (args : ListAvailableServicesArgs) (ext : Ext)
    (st : State) : Reply :=
  if negb (studentClient st) then Text ERROR_MESSAGES.MISSING_CLIENT
  else
    match servicesBucket st with
    | None => Text "No services bucket found. Please create services first."
    | Some b =>
      match queryThrows ext with
      | Some m => Failed "Failed to list available services." m
      | None =>
        let services :=
          sliceTo (limit args)
                  (List.filter (listed args) (List.map snd (objects b))) in
        match services with
        | [] => Text "No available services found."
        | _ => AvailableServices services
        end
      end
    end.

Record CreateEscrowArgs := mkCreateEscrowArgs {
  ceBookingId : string;
  ceAmount : string
}.

Record ReleaseFundsArgs := mkReleaseFundsArgs {
  rfEscrowId : string;
  rfAmount : option string
}.

Record AnalyzeServiceQualityArgs := mkAnalyzeServiceQualityArgs {
  aqMeetingId : string;
  aqBookingId : string
}.

(** The message of the error thrown by the bucket manager when it is handed
    [undefined] for a bucket that was never created. *)
Definition undefinedBucket := "bucket is undefined".

(** The message of the [SyntaxError] of [JSON.parse]. *)
Definition jsonSyntaxError := "Unexpected token in JSON".

Definition bookService (args : BookServiceArgs) (ext : Ext) (st : State)
  : Reply * State :=
  let failed := Failed "Failed to book service." in
  if negb (studentClient st) then (Text ERROR_MESSAGES.MISSING_CLIENT, st)
  else
    match servicesBucket st with
    | None => (Text "No services bucket found. Please create services first.", st)
    | Some sb =>
      let ensured :=
        match bookingsBucket st with
        | Some b => Returned (b, st)
        | None =>
          match createdBucket ext with
          | Returned addr =>
            let b := mkBucket addr [] in Returned (b, setBookings st b)
          | Thrown m => Thrown m
          end
        end in
      match ensured with
      | Thrown m => (failed m, st)
      | Returned (bb, st1) =>
        match queryThrows ext with
        | Some m => (failed m, st1)
        | None =>
          match firstMatch (fun _ s => String.eqb (id s) (argServiceId args))
                           (objects sb) with
          | None => (Text ERROR_MESSAGES.SERVICE_NOT_FOUND, st1)
          | Some serviceListing =>
            if negb (bool_decide (status serviceListing = ServiceStatus.AVAILABLE))
            then (NotAvailable (status serviceListing), st1)
            else
              let bookingId := "booking_" ++ timeMs ext ++ "_" ++ randomHex ext in
              let booking :=
                {| bId := bookingId;
                   bServiceId := argServiceId args;
                   clientName := argClientName args;
                   clientEmail := argClientEmail args;
                   specialRequests := argSpecialRequests args;
                   bookingTime := nowIso ext;
                   bStatus := BookingStatus.CONFIRMED;
                   escrowId := None;
                   meetingId := None;
                   bBucketId := bucketAddr bb;
                   bObjectKey := "booking_" ++ bookingId ++ ".json" |} in
              match addThrows ext 0 with
              | Some m => (failed m, st1)
              | None =>
                let st2 := addBooking st1 bb (bObjectKey booking) booking in
                let serviceListing' :=
                  {| id := id serviceListing;
                     serviceType := serviceType serviceListing;
                     providerName := providerName serviceListing;
                     startTime := startTime serviceListing;
                     endTime := endTime serviceListing;
                     price := price serviceListing;
                     walletAddress := walletAddress serviceListing;
                     meetingLink := meetingLink serviceListing;
                     description := description serviceListing;
                     status := ServiceStatus.BOOKED;
                     createdAt := createdAt serviceListing;
                     bucketId := bucketId serviceListing;
                     objectKey := objectKey serviceListing |} in
                match addThrows ext 1 with
                | Some m => (failed m, st2)
                | None =>
                  (Booked (argServiceId args) bookingId,
                   addService st2 sb (objectKey serviceListing) serviceListing')
                end
              end
          end
        end
      end
    end.

(** The analysis text of [analyzeServiceQuality]. *)
Definition recommendation :=
  "Based on the high quality of service provided, payment should be authorized for the teacher.".

Definition analysisText (meetingId : string) (score : Z) : string :=
  "
Quality Analysis for Meeting ID: " ++ meetingId ++ "

Overall Score: " ++ pretty score ++ "/100 (Excellent)

Metrics:
- Teacher Engagement: 95/100
- Student Participation: 90/100
- Content Coverage: 93/100
- Clarity of Instruction: 90/100
- Response to Student Needs: 92/100

Summary:
The French language class was conducted very professionally. The teacher provided clear instructions
and patiently guided the student through basic greetings, introductions, and numbers. The student
was engaged and responsive, showing enthusiasm for learning. The teacher offered encouragement
and positive reinforcement throughout the session. The lesson progressed at an appropriate pace
and covered all the planned topics effectively.

Recommendation:
" ++ recommendation ++ "
".

Definition analyzeServiceQuality (args : AnalyzeServiceQualityArgs) (st : State)
  : Reply * State :=
  match meetingFiles st !! aqMeetingId args with
  | None => (Text ("Meeting not found with ID: " ++ aqMeetingId args), st)
  | Some meeting =>
    match transcriptFiles st !! aqMeetingId args with
    | None =>
      (Text ("Transcript not found for meeting ID: " ++ aqMeetingId args), st)
    | Some _ =>
      let score : Z := 92%Z in
      let meeting' :=
        {| mId := mId meeting;
           mBookingId := aqBookingId args;
           url := url meeting;
           mTitle := mTitle meeting;
           mStatus := mStatus meeting;
           mStartTime := mStartTime meeting;
           mEndTime := mEndTime meeting;
           participantCount := participantCount meeting;
           hasTranscript := hasTranscript meeting;
           hasSummary := hasSummary meeting;
           hasAnalysis := true;
           transcriptUrl := transcriptUrl meeting;
           summaryUrl := summaryUrl meeting;
           qualityScore := Some score |} in
      (QualityAnalysis (aqMeetingId args) score recommendation,
       setAnalysis st (aqMeetingId args) meeting'
                   (analysisText (aqMeetingId args) score))
    end
  end.

Section WithParseUnits.

(** viem's [parseUnits value decimals]. *)
Variable parseUnits : string -> nat -> Outcome Z.

Definition createEscrow (args : CreateEscrowArgs) (ext : Ext) (st : State)
  : Reply * State :=
  let failed := Failed "Failed to create escrow." in
  match student st, agent st with
  | Some studentAddress, Some agentAddr =>
    match bookingsBucket st with
    | None => (Text "No bookings bucket found. Please book a service first.", st)
    | Some bb =>
      let ensured :=
        match transactionsBucket st with
        | Some b => Returned (b, st)
        | None =>
          match createdBucket ext with
          | Returned addr =>
            let b := mkBucket addr [] in Returned (b, setTransactions st b)
          | Thrown m => Thrown m
          end
        end in
      match ensured with
      | Thrown m => (failed m, st)
      | Returned (tb, st1) =>
        match queryThrows ext with
        | Some m => (failed m, st1)
        | None =>
          match firstMatch (fun _ b => String.eqb (bId b) (ceBookingId args))
                           (objects bb) with
          | None => (Text ERROR_MESSAGES.BOOKING_NOT_FOUND, st1)
          | Some booking =>
            match servicesBucket st1 with
            | None => (failed undefinedBucket, st1)
            | Some sb =>
              match firstMatch (fun _ s => String.eqb (id s) (bServiceId booking))
                               (objects sb) with
              | None => (Text ERROR_MESSAGES.SERVICE_NOT_FOUND, st1)
              | Some service =>
                let newId := "escrow_" ++ timeMs ext ++ "_" ++ randomHex ext in
                match parseUnits (ceAmount args) USDC_DECIMALS with
                | Thrown m => (failed m, st1)
                | Returned tokenAmount =>
                  match writeContract ext with
                  | Thrown m => (failed m, st1)
                  | Returned hash =>
                    let st2 :=
                      submit st1 (mkContractCall USDC_TOKEN_ADDRESS ClientWallet
                                                 agentAddr tokenAmount) in
                    let escrowTx :=
                      {| eId := newId;
                         eBookingId := ceBookingId args;
                         amount := ceAmount args;
                         providerAddress := walletAddress service;
                         clientAddress := studentAddress;
                         agentAddress := agentAddr;
                         eStatus := EscrowStatus.PENDING;
                         eCreatedAt := nowIso ext;
                         completedAt := None;
                         txHash := Some hash |} in
                    match addThrows ext 0 with
                    | Some m => (failed m, st2)
                    | None =>
                      let st3 :=
                        addEscrow st2 tb ("escrow_" ++ newId ++ ".json") escrowTx in
                      let booking' :=
                        {| bId := bId booking;
                           bServiceId := bServiceId booking;
                           clientName := clientName booking;
                           clientEmail := clientEmail booking;
                           specialRequests := specialRequests booking;
                           bookingTime := bookingTime booking;
                           bStatus := bStatus booking;
                           escrowId := Some newId;
                           meetingId := meetingId booking;
                           bBucketId := bBucketId booking;
                           bObjectKey := bObjectKey booking |} in
                      match addThrows ext 1 with
                      | Some m => (failed m, st3)
                      | None =>
                        (EscrowCreated (ceBookingId args) newId (ceAmount args) hash,
                         addBooking st3 bb (bObjectKey booking) booking')
                      end
                    end
                  end
                end
              end
            end
          end
        end
      end
    end
  | _, _ => (Text ERROR_MESSAGES.WALLET_NOT_INITIALIZED, st)
  end.

(** The first part of [releaseFunds]: the escrow record of the local
    [transactions] directory, fetched from the transactions bucket and saved
    locally when the file does not exist yet. *)
Definition loadEscrow (args : ReleaseFundsArgs) (ext : Ext) (st : State)
  : Reply + (EscrowTransaction * State) :=
  let failed := Failed "Failed to release funds." in
  match transactionFiles st !! rfEscrowId args with
  | Some escrowTx => inr (escrowTx, st)
  | None =>
    match transactionsBucket st with
    | None => inl (failed undefinedBucket)
    | Some tb =>
      match queryThrows ext with
      | Some m => inl (failed m)
      | None =>
        match firstMatch (fun key _ => includes key (rfEscrowId args))
                         (objects tb) with
        | None => inl (Text ERROR_MESSAGES.ESCROW_NOT_FOUND)
        | Some escrowData =>
          if contentIsText ext
          then inr (escrowData,
                    setTransactionFile st (rfEscrowId args) escrowData)
          else inl (failed jsonSyntaxError)
        end
      end
    end
  end.

Definition releaseFunds (args : ReleaseFundsArgs) (ext : Ext) (st : State)
  : Reply * State :=
  let failed := Failed "Failed to release funds." in
  match agent st, teacher st with
  | Some _, Some _ =>
    match loadEscrow args ext st with
    | inl reply => (reply, st)
    | inr (escrowTx, st1) =>
      if negb (bool_decide (eStatus escrowTx = EscrowStatus.PENDING))
      then (AlreadySettled (eStatus escrowTx), st1)
      else
        let released := orElse (rfAmount args) (amount escrowTx) in
        match parseUnits released USDC_DECIMALS with
        | Thrown m => (failed m, st1)
        | Returned tokenAmount =>
          match writeContract ext with
          | Thrown m => (failed m, st1)
          | Returned hash =>
            let st2 :=
              submit st1 (mkContractCall USDC_TOKEN_ADDRESS AgentWallet
                                         (providerAddress escrowTx) tokenAmount) in
            let escrowTx' :=
              {| eId := eId escrowTx;
                 eBookingId := eBookingId escrowTx;
                 amount := amount escrowTx;
                 providerAddress := providerAddress escrowTx;
                 clientAddress := clientAddress escrowTx;
                 agentAddress := agentAddress escrowTx;
                 eStatus := EscrowStatus.RELEASED;
                 eCreatedAt := eCreatedAt escrowTx;
                 completedAt := Some (nowIso ext);
                 txHash := txHash escrowTx |} in
            let key := "escrow_" ++ eId escrowTx ++ ".json" in
            match transactionsBucket st2 with
            | None => (failed undefinedBucket, st2)
            | Some tb =>
              match addThrows ext 0 with
              | Some m => (failed m, st2)
              | None =>
                let st3 := addEscrow st2 tb key escrowTx' in
                match addThrows ext 1 with
                | Some m => (failed m, st3)
                | None =>
                  (FundsReleased (rfEscrowId args) released
                                 (providerAddress escrowTx) hash,
                   addEscrow st3 (addObject key escrowTx' tb) key escrowTx')
                end
              end
            end
          end
        end
    end
  | _, _ => (Text ERROR_MESSAGES.WALLET_NOT_INITIALIZED, st)
  end.

End WithParseUnits.

(** The state with other contents of the [meetings], [transcripts] and
    [analysis] directories. *)
Definition withEvaluations (st : State) (ms : gmap string Meeting)
    (ts an : gmap string string) : State :=
  {| teacher := teacher st; student := student st; agent := agent st;
     servicesBucket := servicesBucket st;
     bookingsBucket := bookingsBucket st;
     transactionsBucket := transactionsBucket st;
     meetingFiles := ms; transcriptFiles := ts; analysisFiles := an;
     transactionFiles := transactionFiles st;
     chain := chain st; addLog := addLog st |}.

(** The score that an answer reports, if it is an analysis. *)
Definition replyScore (r : Reply) : option Z :=
  match r with
  | QualityAnalysis _ score _ => Some score
  | _ => None
  end.

(** What a query of a named bucket lists: nothing for a bucket that does
    not exist. *)
Definition contents {A : Type} (b : option (Bucket A)) : list (string * A) :=
  match b with
  | Some b' => objects b'
  | None => []
  end.

(** ** Clients and meetings *)

Inductive UserType := TeacherUser | StudentUser | AgentUser.

Definition userTypeText (u : UserType) : string :=
  match u with
  | TeacherUser => "teacher" | StudentUser => "student" | AgentUser => "agent"
  end.

Inductive NetworkName := Testnet | Mainnet.

Definition networkText (n : NetworkName) : string :=
  match n with Testnet => "testnet" | Mainnet => "mainnet" end.

Definition RECALL_EXPLORER_URLS (n : NetworkName) : string :=
  match n with
  | Testnet => "https://explorer.recall.network"
  | Mainnet => "https://explorer.recall.network"
  end.

Record CreateRecallClientArgs := mkCreateRecallClientArgs {
  crNetworkName : NetworkName;
  crUserType : UserType
}.

(** [process.env] as [createRecallClient] reads it: for each user type,
    nothing when its private key variable is unset or empty, otherwise what
    [privateKeyToAccount] and the client constructors make of the key: the
    account address, or the error they throw. *)
Definition Keys := UserType -> option (Outcome string).

Definition setUser (st : State) (u : UserType) (address : string) : State :=
  {| teacher := match u with TeacherUser => Some address | _ => teacher st end;
     student := match u with StudentUser => Some address | _ => student st end;
     agent := match u with AgentUser => Some address | _ => agent st end;
     servicesBucket := servicesBucket st;
     bookingsBucket := bookingsBucket st;
     transactionsBucket := transactionsBucket st;
     meetingFiles := meetingFiles st; transcriptFiles := transcriptFiles st;
     analysisFiles := analysisFiles st;
     transactionFiles := transactionFiles st;
     chain := chain st; addLog := addLog st |}.

(** [createRecallClient]. The network name that it also records is used for
    the portal links of the answers only, and both networks have the same
    links. *)
Definition createRecallClient (args : CreateRecallClientArgs) (keys : Keys)
    (st : State) : Reply * State :=
  match keys (crUserType args) with
  | None =>
    (Text (ERROR_MESSAGES.MISSING_PRIVATE_KEY ++ " for "
           ++ userTypeText (crUserType args)), st)
  | Some (Thrown m) => (Failed ERROR_MESSAGES.FAILED_CLIENT_CREATION m, st)
  | Some (Returned walletAddr) =>
    (Text ("Successfully created Recall client for "
           ++ userTypeText (crUserType args) ++ " on "
           ++ networkText (crNetworkName args) ++ " network.
Wallet address: " ++ walletAddr ++ "
Explorer: " ++ RECALL_EXPLORER_URLS (crNetworkName args) ++ "/address/"
           ++ walletAddr),
     setUser st (crUserType args) walletAddr)
  end.

Record JoinMeetingArgs := mkJoinMeetingArgs {
  jmMeetingUrl : string;
  jmMeetingTitle : option string;
  jmParticipantName : option string;
  jmLanguageCode : string                (* default "en-US" *)
}.

(** What the outside world answers during [joinMeeting]. *)
Record MeetingExt := mkMeetingExt {
  meetTimeMs : string;         (* Date.now() *)
  meetRandomHex : string;      (* crypto.randomBytes(4).toString('hex') *)
  transcriptHex : string;      (* crypto.randomBytes(8).toString('hex') *)
  localeNow : string;          (* new Date().toLocaleString() *)
  dateNow : string             (* new Date(), as it is serialised *)
}.

Definition setMeeting (st : State) (name : string) (m : Meeting) : State :=
  {| teacher := teacher st; student := student st; agent := agent st;
     servicesBucket := servicesBucket st;
     bookingsBucket := bookingsBucket st;
     transactionsBucket := transactionsBucket st;
     meetingFiles := <[name := m]> (meetingFiles st);
     transcriptFiles := transcriptFiles st;
     analysisFiles := analysisFiles st;
     transactionFiles := transactionFiles st;
     chain := chain st; addLog := addLog st |}.

Definition setTranscript (st : State) (name : string) (m : Meeting)
    (text : string) : State :=
  {| teacher := teacher st; student := student st; agent := agent st;
     servicesBucket := servicesBucket st;
     bookingsBucket := bookingsBucket st;
     transactionsBucket := transactionsBucket st;
     meetingFiles := <[name := m]> (meetingFiles st);
     transcriptFiles := <[name := text]> (transcriptFiles st);
     analysisFiles := analysisFiles st;
     transactionFiles := transactionFiles st;
     chain := chain st; addLog := addLog st |}.

Definition newMeetingId (mext : MeetingExt) : string :=
  "meeting_" ++ meetTimeMs mext ++ "_" ++ meetRandomHex mext.

Definition joinMeeting (args : JoinMeetingArgs) (mext : MeetingExt) (st : State)
  : Reply * State :=
  if negb (includes (jmMeetingUrl args) "meet.google.com") &&
     negb (includes (jmMeetingUrl args) "zoom.us") &&
     negb (includes (jmMeetingUrl args) "jitsi.meet")
  then (Text ERROR_MESSAGES.INVALID_MEETING_LINK, st)
  else
    let newId := newMeetingId mext in
    let transcriptId := "transcript_" ++ transcriptHex mext in
    let meeting :=
      {| mId := newId;
         mBookingId := "";
         url := jmMeetingUrl args;
         mTitle := orElse (jmMeetingTitle args) ("Meeting at " ++ localeNow mext);
         mStatus := MeetingStatus.JOINING;
         mStartTime := dateNow mext;
         mEndTime := None;
         participantCount := 2%Z;
         hasTranscript := false;
         hasSummary := false;
         hasAnalysis := false;
         transcriptUrl := Some ("https://otter.ai/note/" ++ transcriptId);
         summaryUrl := None;
         qualityScore := None |} in
    (Text ("Successfully joined meeting with ID: " ++ newId ++ "
Meeting URL: " ++ jmMeetingUrl args ++ "
Transcription is being recorded automatically.
Use this meeting ID for retrieving the transcript later."),
     setMeeting st newId meeting).

(** The double-quote character. *)
Definition quote : string := String (Ascii.ascii_of_nat 34) EmptyString.

(** The simulated transcript of [getTranscript]. *)
Definition simulatedTranscript : string := "
Teacher: Hello, welcome to the French language class. How are you today?
Student: Bonjour! I'm doing well, thank you. I'm excited to learn French.
Teacher: Très bien! Let's start with some basic greetings. Repeat after me: " ++ quote ++ "Bonjour, comment allez-vous?" ++ quote ++ "
Student: Bonjour, comment allez-vous?
Teacher: Excellent pronunciation! Now, let's try " ++ quote ++ "Je m'appelle..." ++ quote ++ " and then say your name.
Student: Je m'appelle Pedro.
Teacher: Perfect! Let's move on to numbers. Can you count from one to five in French?
Student: Um... Un, deux, trois, quatre, cinq?
Teacher: Exactly right! You're doing very well. Let's practice some common phrases now.
Student: I'm enjoying this. The pronunciation is challenging but fun.
Teacher: That's the spirit! Practice makes perfect. Let's continue with days of the week...
".

(** [getTranscript]; [now] is [new Date()] as it is serialised. *)
Definition getTranscript (wanted : string) (now : string) (st : State)
  : Reply * State :=
  match meetingFiles st !! wanted with
  | None => (Text ("Meeting not found with ID: " ++ wanted), st)
  | Some meeting =>
    let meeting' :=
      {| mId := mId meeting;
         mBookingId := mBookingId meeting;
         url := url meeting;
         mTitle := mTitle meeting;
         mStatus := MeetingStatus.ENDED;
         mStartTime := mStartTime meeting;
         mEndTime := Some now;
         participantCount := participantCount meeting;
         hasTranscript := true;
         hasSummary := hasSummary meeting;
         hasAnalysis := hasAnalysis meeting;
         transcriptUrl := transcriptUrl meeting;
         summaryUrl := summaryUrl meeting;
         qualityScore := qualityScore meeting |} in
    (Text ("Transcript for meeting ID: " ++ wanted ++ "

" ++ simulatedTranscript ++ "

Transcript URL: " ++ default "undefined" (transcriptUrl meeting)),
     setTranscript st wanted meeting' simulatedTranscript)
  end.

(** The provider right after construction. *)
Definition initial : State :=
  {| teacher := None; student := None; agent := None;
     servicesBucket := None; bookingsBucket := None;
     transactionsBucket := None;
     meetingFiles := ∅; transcriptFiles := ∅; analysisFiles := ∅;
     transactionFiles := ∅; chain := []; addLog := [] |}.

End Moderia.

(* ===================================================================== *)
(** ** otter-ai provider *)
(* ===================================================================== *)


Module Otter.

Module MeetingStatus.
Inductive t := JOINING | RECORDING | TRANSCRIBING | COMPLETED | FAILED.
#[global] Instance eq_dec : EqDecision t.
Proof. solve_decision. Defined.
End MeetingStatus.

Record Meeting := mkMeeting {
  id : string;
  url : string;
  title : string;
  status : MeetingStatus.t;
  startTime : Z;                 (* milliseconds *)
  endTime : option Z;
  duration : option Z;           (* seconds *)
  participantCount : option Z;
  hasTranscript : bool;
  hasSummary : bool;
  hasAnalysis : bool;
  transcriptUrl : string;
  summaryUrl : string
}.

Record AnalysisResult := mkAnalysisResult {
  meetingId : string;
  callDuration : Z;
  qualityScore : Q;
  qualityPassed : bool;
  speakerBreakdown : list (string * Q);
  languageBreakdown : list (string * Q);
  learningObjectives : list string;
  vocabCoverage : list string;
  qualityBreakdown : list (string * Q);
  recommendations : list string
}.

(** [reason: notes || `Quality score: ${qualityScore || analysis.qualityScore}/10`]. *)
Inductive Reason :=
| Notes (text : string)
| QualityScoreOf (score : Q).

Record PaymentAuthorization := mkPaymentAuthorization {
  paMeetingId : string;
  authorized : bool;
  amount : option string;
  recipient : option string;
  timestamp : Z;
  reason : Reason;
  transactionId : string
}.

(** The in-memory maps of the provider. *)
Record State := mkState {
  meetings : gmap string Meeting;
  transcripts : gmap string string;
  analyses : gmap string AnalysisResult;
  paymentAuthorizations : gmap string PaymentAuthorization
}.

Record Ext := mkExt {
  nowMs : Z;                (* Date.now() / new Date() *)
  random10000 : string      (* Math.floor(Math.random() * 10000) *)
}.

Module ERROR_MESSAGES.
Definition TRANSCRIPT_NOT_FOUND := "Transcript not found for this meeting.".
Definition MEETING_ID_REQUIRED := "Meeting ID is required.".
Definition QUALITY_CHECK_REQUIRED :=
    "Quality check is required before authorizing payment.".
Definition QUALITY_THRESHOLD_NOT_MET :=
    "Quality threshold not met. Payment cannot be authorized.".
End ERROR_MESSAGES.

Module QUALITY_THRESHOLDS.
Definition MIN_QUALITY_SCORE : Q := 7%Q.
End QUALITY_THRESHOLDS.

(** The double-quote character. *)
Definition dq : string := String (Ascii.ascii_of_nat 34) EmptyString.

Definition DEMO_TRANSCRIPT := "
User A: Good morning! How are you today?
User B: I'm doing well, thank you. I'm ready for our lesson.
User A: Great! Today we'll be focusing on conversational phrases for travel.
User B: That sounds useful. I'm planning a trip next month.
User A: Perfect! Let's start with some basic expressions you might use at the airport.
User B: I often struggle with understanding announcements at airports.
User A: That's a common challenge. Let's practice some airline announcements first.
User B: Could you speak a bit slower please?
User A: Of course. Let's take it step by step. Repeat after me: " ++ dq ++ "Excuse me, what time is boarding?" ++ dq ++ "
User B: Excuse me, what time is boarding?
User A: Very good! Now try: " ++ dq ++ "Which gate is flight AC123 departing from?" ++ dq ++ "
User B: Which gate is flight AC123 departing from?
User A: Excellent pronunciation! Let's continue with some restaurant vocabulary...
".

Definition DEMO_ANALYSIS : AnalysisResult :=
  {| meetingId := "";
     callDuration := 1800%Z;
     qualityScore := (17 # 2)%Q;       (* 8.5 *)
     qualityPassed := true;
     speakerBreakdown := [("Teacher", 55%Q); ("Student", 45%Q)];
     languageBreakdown :=
       [("Target Language", 85%Q); ("Native Language", 15%Q)];
     learningObjectives :=
       ["Practice travel-related vocabulary";
        "Improve pronunciation of question phrases";
        "Develop listening comprehension for public announcements"];
     vocabCoverage :=
       ["Airport terminology"; "Travel booking phrases";
        "Transportation vocabulary"; "Hotel check-in expressions"];
     qualityBreakdown :=
       [("Student Engagement", 8%Q); ("Teacher Clarity", 9%Q);
        ("Pronunciation Correction", (17 # 2)%Q);
        ("Vocabulary Relevance", 9%Q); ("Pacing", (15 # 2)%Q)];
     recommendations :=
       ["Provide more listening exercises for airport announcements";
        "Allow more time for student to practice complex sentences";
        "Include more realistic dialogue scenarios";
        "Consider supplementary materials for airport vocabulary"] |}.

Inductive Reply :=
| Text (msg : string)
| MeetingNotFound (meetingId : string)
    (* "Meeting with ID <meetingId> not found" *)
| Transcript (shown : string)
    (* the "Otter AI Transcript" text *)
| CallAnalysis (analysis : AnalysisResult) (threshold : Q)
    (* the "Call Analysis Results" text with its payment recommendation *)
| PaymentAuthorized (authorization : PaymentAuthorization).
    (* the "Payment Authorization Successful" text *)

(** [Math.floor] of an integer quotient with a positive divisor. *)
Definition floorDiv (a b : Z) : Z := (a / b)%Z.

Module EMOJIS.
Definition CHECK_MARK := "✅".
Definition CROSS_MARK := "❌".
Definition DOCUMENT := "📄".
Definition MAGNIFYING_GLASS := "🔍".
Definition CLOCK := "⏱️".
Definition SPARKLES := "✨".
End EMOJIS.

(** An error answer: the cross mark and the message. *)
Definition cross (msg : string) : string := EMOJIS.CROSS_MARK ++ " " ++ msg.

(** [meeting.duration ? Math.floor(meeting.duration / 60) : 30]. *)
Definition shownMinutes (m : Meeting) : Z :=
  match duration m with
  | Some d => if (d =? 0)%Z then 30%Z else floorDiv d 60
  | None => 30%Z
  end.

(** The text of the transcript answer. *)
Definition transcriptText (m : Meeting) (key transcript : string) : string :=
  "
" ++ EMOJIS.DOCUMENT ++ " **Otter AI Transcript**

" ++ EMOJIS.CHECK_MARK ++ " Transcript for meeting: " ++ title m ++ "
" ++ EMOJIS.CLOCK ++ " Duration: " ++ pretty (shownMinutes m) ++ " minutes
" ++ EMOJIS.MAGNIFYING_GLASS ++ " Meeting ID: " ++ key ++ "

" ++ EMOJIS.SPARKLES ++ " Transcript URL: " ++ transcriptUrl m ++ "

" ++ transcript ++ "
      ".

(** [getOtterAiTranscript] with [format: "plain"]. *)
Definition getOtterAiTranscript (key : string) (ext : Ext) (st : State)
  : Reply * State :=
  if String.eqb key "" then (Text (cross ERROR_MESSAGES.MEETING_ID_REQUIRED), st)
  else
    match meetings st !! key with
    | None => (MeetingNotFound key, st)
    | Some meeting =>
      let meeting1 :=
        if bool_decide (status meeting = MeetingStatus.RECORDING)
        then {| id := id meeting; url := url meeting; title := title meeting;
                status := MeetingStatus.TRANSCRIBING;
                startTime := startTime meeting;
                endTime := Some (nowMs ext);
                duration := Some (floorDiv (nowMs ext - startTime meeting) 1000);
                participantCount := participantCount meeting;
                hasTranscript := hasTranscript meeting;
                hasSummary := hasSummary meeting;
                hasAnalysis := hasAnalysis meeting;
                transcriptUrl := transcriptUrl meeting;
                summaryUrl := summaryUrl meeting |}
        else meeting in
      (* the meeting object is shared with the map: its mutations are
         visible at the meeting's own key *)
      let st1 := if bool_decide (status meeting = MeetingStatus.RECORDING)
                 then {| meetings := <[key := meeting1]> (meetings st);
                         transcripts := transcripts st;
                         analyses := analyses st;
                         paymentAuthorizations := paymentAuthorizations st |}
                 else st in
      match transcripts st1 !! key with
      | Some transcript =>
        if String.eqb transcript ""
        then
          let meeting2 :=
            {| id := id meeting1; url := url meeting1; title := title meeting1;
               status := MeetingStatus.COMPLETED;
               startTime := startTime meeting1; endTime := endTime meeting1;
               duration := duration meeting1;
               participantCount := participantCount meeting1;
               hasTranscript := true;
               hasSummary := hasSummary meeting1;
               hasAnalysis := hasAnalysis meeting1;
               transcriptUrl := transcriptUrl meeting1;
               summaryUrl := summaryUrl meeting1 |} in
          (Transcript (transcriptText meeting2 key DEMO_TRANSCRIPT),
           {| meetings := <[key := meeting2]> (meetings st1);
              transcripts := <[key := DEMO_TRANSCRIPT]> (transcripts st1);
              analyses := analyses st1;
              paymentAuthorizations := paymentAuthorizations st1 |})
        else (Transcript (transcriptText meeting1 key transcript), st1)
      | None =>
        let meeting2 :=
          {| id := id meeting1; url := url meeting1; title := title meeting1;
             status := MeetingStatus.COMPLETED;
             startTime := startTime meeting1; endTime := endTime meeting1;
             duration := duration meeting1;
             participantCount := participantCount meeting1;
             hasTranscript := true;
             hasSummary := hasSummary meeting1;
             hasAnalysis := hasAnalysis meeting1;
             transcriptUrl := transcriptUrl meeting1;
             summaryUrl := summaryUrl meeting1 |} in
        (Transcript (transcriptText meeting2 key DEMO_TRANSCRIPT),
         {| meetings := <[key := meeting2]> (meetings st1);
            transcripts := <[key := DEMO_TRANSCRIPT]> (transcripts st1);
            analyses := analyses st1;
            paymentAuthorizations := paymentAuthorizations st1 |})
      end
    end.

Record AnalyzeCallQualityArgs := mkAnalyzeCallQualityArgs {
  acMeetingId : string;
  qualityThresholdOverride : option Q;   (* z.number().min(1).max(10) *)
  includeRecommendations : bool
}.

Record AuthorizePaymentArgs := mkAuthorizePaymentArgs {
  apMeetingId : string;
  apQualityScore : option Q;
  apQualityPassed : option bool;
  paymentAmount : option string;
  paymentRecipient : option string;
  notes : option string
}.

(** JavaScript truthiness of an optional number. *)
Definition truthyQ (q : option Q) : bool :=
  match q with
  | Some x => negb (Qeq_bool x 0)
  | None => false
  end.

Definition setAnalysis (st : State) (key : string) (a : AnalysisResult) : State :=
  {| meetings := meetings st;
     transcripts := transcripts st;
     analyses := <[key := a]> (analyses st);
     paymentAuthorizations := paymentAuthorizations st |}.

Definition withVerdict (a : AnalysisResult) (passed : bool) : AnalysisResult :=
  {| meetingId := meetingId a;
     callDuration := callDuration a;
     qualityScore := qualityScore a;
     qualityPassed := passed;
     speakerBreakdown := speakerBreakdown a;
     languageBreakdown := languageBreakdown a;
     learningObjectives := learningObjectives a;
     vocabCoverage := vocabCoverage a;
     qualityBreakdown := qualityBreakdown a;
     recommendations := recommendations a |}.

Definition analyzeCallQuality (args : AnalyzeCallQualityArgs) (ext : Ext)
    (st : State) : Reply * State :=
  let key := acMeetingId args in
  if String.eqb key "" then (Text (cross ERROR_MESSAGES.MEETING_ID_REQUIRED), st)
  else
    match meetings st !! key with
    | None => (MeetingNotFound key, st)
    | Some meeting =>
      (* fetch the transcript first when the meeting has none *)
      let fetched :=
        if negb (hasTranscript meeting)
        then
          let '(r, st1) := getOtterAiTranscript key ext st in
          match r with
          | Transcript shown =>
            if includes shown ERROR_MESSAGES.TRANSCRIPT_NOT_FOUND
            then inl (Text (cross ERROR_MESSAGES.TRANSCRIPT_NOT_FOUND), st1)
            else inr st1
          | _ => inr st1
          end
        else inr st in
      match fetched with
      | inl answer => answer
      | inr st1 =>
        let '(analysis, st2) :=
          match analyses st1 !! key with
          | Some a => (a, st1)
          | None =>
            let a :=
              {| meetingId := key;
                 callDuration := callDuration DEMO_ANALYSIS;
                 qualityScore := qualityScore DEMO_ANALYSIS;
                 qualityPassed := qualityPassed DEMO_ANALYSIS;
                 speakerBreakdown := speakerBreakdown DEMO_ANALYSIS;
                 languageBreakdown := languageBreakdown DEMO_ANALYSIS;
                 learningObjectives := learningObjectives DEMO_ANALYSIS;
                 vocabCoverage := vocabCoverage DEMO_ANALYSIS;
                 qualityBreakdown := qualityBreakdown DEMO_ANALYSIS;
                 recommendations := recommendations DEMO_ANALYSIS |} in
            let st' := setAnalysis st1 key a in
            (a,
             match meetings st' !! key with
             | Some m =>
               {| meetings :=
                    <[key := {| id := id m; url := url m; title := title m;
                                status := status m; startTime := startTime m;
                                endTime := endTime m; duration := duration m;
                                participantCount := participantCount m;
                                hasTranscript := hasTranscript m;
                                hasSummary := hasSummary m;
                                hasAnalysis := true;
                                transcriptUrl := transcriptUrl m;
                                summaryUrl := summaryUrl m |}]> (meetings st');
                  transcripts := transcripts st';
                  analyses := analyses st';
                  paymentAuthorizations := paymentAuthorizations st' |}
             | None => st'
             end)
          end in
        let qualityThreshold :=
          if truthyQ (qualityThresholdOverride args)
          then default 0%Q (qualityThresholdOverride args)
          else QUALITY_THRESHOLDS.MIN_QUALITY_SCORE in
        let passed := Qle_bool qualityThreshold (qualityScore analysis) in
        let analysis' := withVerdict analysis passed in
        (CallAnalysis analysis' qualityThreshold, setAnalysis st2 key analysis')
      end
    end.

Definition authorizePaymentBasedOnQuality (args : AuthorizePaymentArgs)
    (ext : Ext) (st : State) : Reply * State :=
  let key := apMeetingId args in
  if String.eqb key ""
  then (Text (cross ERROR_MESSAGES.MEETING_ID_REQUIRED), st)
  else
    match meetings st !! key with
    | None => (MeetingNotFound key, st)
    | Some meeting =>
      match analyses st !! key with
      | None =>
        (Text (cross ERROR_MESSAGES.QUALITY_CHECK_REQUIRED
               ++ " Please run analyzeCallQuality first."), st)
      | Some analysis =>
        let shouldAuthorize :=
          default false (apQualityPassed args) || qualityPassed analysis in
        if negb shouldAuthorize
        then (Text (cross ERROR_MESSAGES.QUALITY_THRESHOLD_NOT_MET ++
                    " Payment cannot be authorized."), st)
        else
          let authorization :=
            {| paMeetingId := key;
               authorized := true;
               amount := paymentAmount args;
               recipient := paymentRecipient args;
               timestamp := nowMs ext;
               reason :=
                 if truthy (notes args) then Notes (default "" (notes args))
                 else QualityScoreOf
                        (if truthyQ (apQualityScore args)
                         then default 0%Q (apQualityScore args)
                         else qualityScore analysis);
               transactionId :=
                 "tx_" ++ pretty (nowMs ext) ++ "_" ++ random10000 ext |} in
          (PaymentAuthorized authorization,
           {| meetings := meetings st;
              transcripts := transcripts st;
              analyses := analyses st;
              paymentAuthorizations :=
                <[key := authorization]> (paymentAuthorizations st) |})
      end
    end.

End Otter.

(* ===================================================================== *)
(** ** Sample data and auxiliary definitions *)
(* ===================================================================== *)

(** A sample store: one pending escrow of 50 USDC under the id
    ["escrow_1"], outside demo mode with the wallet keys present. *)
Definition sampleEscrow : Escrow.EscrowTransaction :=
  {| Escrow.id := "escrow_1";
     Escrow.clientAddress := "0xclient";
     Escrow.agentAddress := "0xagent";
     Escrow.providerAddress := "0xprovider";
     Escrow.tokenAddress := "0xusdc";
     Escrow.amount := "50";
     Escrow.serviceId := "service_1";
     Escrow.status := Escrow.PENDING;
     Escrow.clientTxHash := Some "0xfund";
     Escrow.releaseTxHash := None;
     Escrow.createdAt := "t0";
     Escrow.updatedAt := "t0";
     Escrow.metadata := None |}.

Definition sampleEscrowState : Escrow.State :=
  {| Escrow.files := {[ "escrow_1" := Escrow.EscrowFile sampleEscrow ]};
     Escrow.chain := [] |}.

Definition liveConfig : Escrow.Config :=
  {| Escrow.demoMode := false; Escrow.keysPresent := true |}.

Definition sampleExt (hash : string) : Escrow.Ext :=
  {| Escrow.writeContract := Returned hash;
     Escrow.simulatedHash := "0xsim";
     Escrow.now := "t1" |}.


(** An initialised marketplace provider with an empty bucket. *)
Definition marketStart : Marketplace.State :=
  {| Marketplace.initialized := true;
     Marketplace.bucket :=
       {| Marketplace.services := []; Marketplace.bookings := [];
          Marketplace.disputes := [] |};
     Marketplace.addLog := [] |}.

(** An outside world in which every bucket call succeeds. *)
Definition calmExt (ms rnd iso : string) : Marketplace.Ext :=
  {| Marketplace.timeMs := ms;
     Marketplace.random1000 := rnd;
     Marketplace.nowIso := iso;
     Marketplace.addOutcome := fun _ => Returned None;
     Marketplace.getThrows := fun _ => false;
     Marketplace.queryThrows := false;
     Marketplace.queryGet := fun _ => Fetched |}.

(** A listing whose price is zero and whose window ends before it starts. *)
Definition oddServiceArgs : Marketplace.CreateServiceArgs :=
  {| Marketplace.argProvider := "Alice Web Development";
     Marketplace.argTitle := "Website Development Consultation";
     Marketplace.argDescription := "One-hour consultation";
     Marketplace.argDate := "2023-12-01";
     Marketplace.argStartTime := "11:00";
     Marketplace.argEndTime := "10:00";
     Marketplace.argTimeZone := "UTC";
     Marketplace.argPrice := "0" |}.

Definition demoServiceArgs : Marketplace.CreateServiceArgs :=
  {| Marketplace.argProvider := "Alice Web Development";
     Marketplace.argTitle := "Website Development Consultation";
     Marketplace.argDescription := "One-hour consultation";
     Marketplace.argDate := "2023-12-01";
     Marketplace.argStartTime := "10:00";
     Marketplace.argEndTime := "11:00";
     Marketplace.argTimeZone := "UTC";
     Marketplace.argPrice := "50" |}.

Definition demoBookArgs : Marketplace.BookServiceArgs :=
  {| Marketplace.argServiceId := "service_1700000000000_7";
     Marketplace.argClientName := "John Doe";
     Marketplace.argClientEmail := "john@example.com";
     Marketplace.argMeetingPlatform := Marketplace.zoom |}.

(** The provider after a service was created, and after it was booked: the
    booking ["booking_1700000000001_8"] is CONFIRMED. *)
Definition marketListed : Marketplace.State :=
  (Marketplace.createService demoServiceArgs
     (calmExt "1700000000000" "7" "t0") marketStart).2.

Definition marketBooked : Marketplace.State :=
  (Marketplace.bookService demoBookArgs
     (calmExt "1700000000001" "8" "t1") marketListed).2.

Definition demoDisputeArgs : Marketplace.FileDisputeArgs :=
  {| Marketplace.fdBookingId := "booking_1700000000001_8";
     Marketplace.fdReason := "The provider did not attend the meeting";
     Marketplace.fdEvidence := None |}.

(** The provider after a dispute was filed against that booking. *)
Definition marketDisputed : Marketplace.State :=
  (Marketplace.fileDispute demoDisputeArgs
     (calmExt "1700000000002" "9" "t2") marketBooked).2.

(** The provider after a second dispute was filed against the same
    booking, and an outside world whose query cannot get the first of the
    two dispute records. *)
Definition marketDisputedTwice : Marketplace.State :=
  (Marketplace.fileDispute demoDisputeArgs
     (calmExt "1700000000004" "9" "t4") marketDisputed).2.

Definition skippingExt (skipped : string) : Marketplace.Ext :=
  {| Marketplace.timeMs := "1700000000005";
     Marketplace.random1000 := "1";
     Marketplace.nowIso := "t5";
     Marketplace.addOutcome := fun _ => Returned None;
     Marketplace.getThrows := fun _ => false;
     Marketplace.queryThrows := false;
     Marketplace.queryGet :=
       fun k => if String.eqb k skipped then FetchThrows else Fetched |}.






(** The service lookup of moderia's [bookService]: the first listing of the
    services bucket whose id is the requested one. *)
Definition firstMatchListing (args : Moderia.BookServiceArgs)
    (sb : Moderia.Bucket Moderia.ServiceListing)
  : option Moderia.ServiceListing :=
  Moderia.firstMatch
    (fun _ s => String.eqb (Moderia.id s) (Moderia.argServiceId args))
    (Moderia.objects sb).

(** A moderia provider whose three clients are set, and an outside world in
    which every call succeeds. *)
Definition moderiaReady : Moderia.State :=
  {| Moderia.teacher := Some "0xteacher";
     Moderia.student := Some "0xstudent";
     Moderia.agent := Some "0xagent";
     Moderia.servicesBucket := None;
     Moderia.bookingsBucket := None;
     Moderia.transactionsBucket := None;
     Moderia.meetingFiles := ∅;
     Moderia.transcriptFiles := ∅;
     Moderia.analysisFiles := ∅;
     Moderia.transactionFiles := ∅;
     Moderia.chain := [];
     Moderia.addLog := [] |}.

Definition quietExt (ms hex : string) : Moderia.Ext :=
  {| Moderia.timeMs := ms;
     Moderia.randomHex := hex;
     Moderia.nowIso := "2025-03-23T09:30:36.055Z";
     Moderia.createdBucket := Returned ("0xbucket" ++ ms);
     Moderia.queryThrows := None;
     Moderia.addThrows := fun _ => None;
     Moderia.writeContract := Returned ("0xtx" ++ ms);
     Moderia.contentIsText := true |}.

Definition lessonArgs : Moderia.CreateServiceListingArgs :=
  {| Moderia.argServiceType := "French lesson";
     Moderia.argProviderName := "Marie";
     Moderia.argStartTime := "2025-03-24T10:00:00Z";
     Moderia.argEndTime := "2025-03-24T11:00:00Z";
     Moderia.argPrice := "50";
     Moderia.argWalletAddress := "0xteacher";
     Moderia.argMeetingLink := "https://meet.google.com/abc";
     Moderia.argDescription := None |}.

(** One listing per time stamp, created one after the other. *)
Definition createAll (stamps : list string) (st : Moderia.State) : Moderia.State :=
  fold_left
    (fun s ms => (Moderia.createServiceListing lessonArgs (quietExt ms "abcd") s).2)
    stamps st.

Definition tenStamps : list string :=
  ["1700000000001"; "1700000000002"; "1700000000003"; "1700000000004";
   "1700000000005"; "1700000000006"; "1700000000007"; "1700000000008";
   "1700000000009"; "1700000000010"].

(** Two listings are stored, and the first of them is then booked. *)
Definition twoListed : Moderia.State :=
  createAll ["1700000000001"; "1700000000002"] moderiaReady.

Definition firstOfTwoBooked : Moderia.State :=
  (Moderia.bookService
     {| Moderia.argServiceId := "service_1700000000001_abcd";
        Moderia.argClientName := "Pedro";
        Moderia.argClientEmail := None;
        Moderia.argSpecialRequests := None |}
     (quietExt "1700000000003" "abcd") twoListed).2.

(** Ten listings are stored; the eleventh is created afterwards. *)
Definition tenListed : Moderia.State := createAll tenStamps moderiaReady.

(** The arguments of an unfiltered [listAvailableServices]: no service type
    and the given limit (10 when the caller gives none). *)
Definition unfiltered (lim : Z) : Moderia.ListAvailableServicesArgs :=
  {| Moderia.filterServiceType := None;
     Moderia.limit := Finite (inject_Z lim) |}.

(** The same with any number as the limit. *)
Definition unfilteredTo (n : JsNumber) : Moderia.ListAvailableServicesArgs :=
  {| Moderia.filterServiceType := None; Moderia.limit := n |}.

(** The number of available listings that a query returns before the
    object of a key. *)
Fixpoint availableBefore (key : string)
    (objs : list (string * Moderia.ServiceListing)) : nat :=
  match objs with
  | [] => 0
  | (k, s) :: rest =>
    if String.eqb key k then 0
    else (if bool_decide (Moderia.status s = Moderia.ServiceStatus.AVAILABLE)
          then 1 else 0) + availableBefore key rest
  end.

(** Whether the item at index [i] is below the end that [slice(0, n)] uses
    for a number [n] that is not negative. *)
Definition withinLimit (n : JsNumber) (i : nat) : bool :=
  match n with
  | Finite q => (Z.of_nat i <? truncate q)%Z
  | PlusInfinity => true
  | MinusInfinity => false
  end.

(** The listing object that [createServiceListing] builds for a bucket. *)
Definition newListing (args : Moderia.CreateServiceListingArgs)
    (ext : Moderia.Ext) (b : Moderia.Bucket Moderia.ServiceListing)
  : Moderia.ServiceListing :=
  let serviceId := "service_" ++ Moderia.timeMs ext ++ "_" ++ Moderia.randomHex ext in
  {| Moderia.id := serviceId;
     Moderia.serviceType := Moderia.argServiceType args;
     Moderia.providerName := Moderia.argProviderName args;
     Moderia.startTime := Moderia.argStartTime args;
     Moderia.endTime := Moderia.argEndTime args;
     Moderia.price := Moderia.argPrice args;
     Moderia.walletAddress := Moderia.argWalletAddress args;
     Moderia.meetingLink := Moderia.argMeetingLink args;
     Moderia.description := Moderia.argDescription args;
     Moderia.status := Moderia.ServiceStatus.AVAILABLE;
     Moderia.createdAt := Moderia.nowIso ext;
     Moderia.bucketId := Moderia.bucketAddr b;
     Moderia.objectKey := "service_" ++ serviceId ++ ".json" |}.

(** The booking object that moderia's [bookService] builds for a bookings
    bucket. *)
Definition newBooking (args : Moderia.BookServiceArgs) (ext : Moderia.Ext)
    (bb : Moderia.Bucket Moderia.ServiceBooking) : Moderia.ServiceBooking :=
  let bookingId := "booking_" ++ Moderia.timeMs ext ++ "_" ++ Moderia.randomHex ext in
  {| Moderia.bId := bookingId;
     Moderia.bServiceId := Moderia.argServiceId args;
     Moderia.clientName := Moderia.argClientName args;
     Moderia.clientEmail := Moderia.argClientEmail args;
     Moderia.specialRequests := Moderia.argSpecialRequests args;
     Moderia.bookingTime := Moderia.nowIso ext;
     Moderia.bStatus := Moderia.BookingStatus.CONFIRMED;
     Moderia.escrowId := None;
     Moderia.meetingId := None;
     Moderia.bBucketId := Moderia.bucketAddr bb;
     Moderia.bObjectKey := "booking_" ++ bookingId ++ ".json" |}.

(** A joined meeting with a stored transcript. *)
Definition sampleMeeting : Moderia.Meeting :=
  {| Moderia.mId := "meeting_1";
     Moderia.mBookingId := "";
     Moderia.url := "https://meet.google.com/abc";
     Moderia.mTitle := "French lesson";
     Moderia.mStatus := Moderia.MeetingStatus.ENDED;
     Moderia.mStartTime := "2025-03-24T10:00:00Z";
     Moderia.mEndTime := Some "2025-03-24T11:00:00Z";
     Moderia.participantCount := 2;
     Moderia.hasTranscript := true;
     Moderia.hasSummary := false;
     Moderia.hasAnalysis := false;
     Moderia.transcriptUrl := Some "https://otter.ai/note/transcript_1";
     Moderia.summaryUrl := None;
     Moderia.qualityScore := None |}.

Definition withTranscript (text : string) : Moderia.State :=
  Moderia.withEvaluations moderiaReady
    {[ "meeting_1" := sampleMeeting ]} {[ "meeting_1" := text ]} ∅.

Definition sampleAnalysisArgs : Moderia.AnalyzeServiceQualityArgs :=
  {| Moderia.aqMeetingId := "meeting_1"; Moderia.aqBookingId := "booking_1" |}.

(** The moderia workflow up to the release, without any quality step:
    list, book, fund the escrow, release. *)
Definition flowListed : Moderia.State :=
  (Moderia.createServiceListing lessonArgs
     (quietExt "1700000000001" "abcd") moderiaReady).2.

Definition flowBooked : Moderia.State :=
  (Moderia.bookService
     {| Moderia.argServiceId := "service_1700000000001_abcd";
        Moderia.argClientName := "Pedro";
        Moderia.argClientEmail := None;
        Moderia.argSpecialRequests := None |}
     (quietExt "1700000000002" "abcd") flowListed).2.

Definition flowFunded : Moderia.State :=
  (Moderia.createEscrow Escrow.wholeUnits
     {| Moderia.ceBookingId := "booking_1700000000002_abcd";
        Moderia.ceAmount := "50" |}
     (quietExt "1700000000003" "abcd") flowBooked).2.

Definition flowReleaseArgs : Moderia.ReleaseFundsArgs :=
  {| Moderia.rfEscrowId := "escrow_1700000000003_abcd";
     Moderia.rfAmount := None |}.

Definition flowReleased : Moderia.Reply * Moderia.State :=
  Moderia.releaseFunds Escrow.wholeUnits flowReleaseArgs
    (quietExt "1700000000004" "abcd") flowFunded.



(** A new escrow of 25 USDC, and the outside world of its creation: funded,
    or with a client balance below the amount. *)
Definition newEscrowArgs : Escrow.CreateEscrowInput :=
  {| Escrow.newClientAddress := "0xclient";
     Escrow.newAgentAddress := "0xagent";
     Escrow.newProviderAddress := "0xprovider";
     Escrow.newTokenAddress := "0xusdc";
     Escrow.newAmount := "25";
     Escrow.newServiceId := "service_2";
     Escrow.newMetadata := None |}.

Definition fundingExt (poor : bool) : Escrow.CreateExt :=
  {| Escrow.createTimeMs := "1700000000000";
     Escrow.createRandomHex := "beef0001";
     Escrow.createNow := "t2";
     Escrow.createUpdatedAt := "t3";
     Escrow.balanceBelowAmount := poor;
     Escrow.fundingContract := Returned "0xfund2";
     Escrow.fundingSimulated := "0xsim";
     Escrow.createDirExists := true |}.

(** The accounts of the three private keys, and a direct transfer of 3 USDC
    from the client's account. *)
Definition liveAccounts : Escrow.Accounts :=
  {| Escrow.clientAccount := "0xc11e";
     Escrow.agentAccount := "0xa9e0";
     Escrow.providerAccount := "0x9120" |}.

Definition sendArgs : Escrow.TransferTokensInput :=
  {| Escrow.sendFrom := "0xc11e";
     Escrow.sendTo := "0xfriend";
     Escrow.sendToken := "0xusdc";
     Escrow.sendAmount := "3" |}.

Definition sendExt (balance : Z) : Escrow.TransferExt :=
  {| Escrow.senderBalance := Returned balance;
     Escrow.sendContract := Returned "0xsend";
     Escrow.sendSimulated := "0xsim";
     Escrow.sendTimeMs := "1700000000009";
     Escrow.sendRandomHex := "cafe0001";
     Escrow.sendNow := "t3";
     Escrow.sendDirExists := true |}.

Definition noFilter : Escrow.GetAllEscrowTransactionsInput :=
  {| Escrow.wantStatus := None;
     Escrow.wantServiceId := None;
     Escrow.wantClientAddress := None;
     Escrow.wantProviderAddress := None |}.

(** An outside world in which the second write of a call is refused. *)
Definition flakyExt (ms rnd iso : string) : Marketplace.Ext :=
  {| Marketplace.timeMs := ms;
     Marketplace.random1000 := rnd;
     Marketplace.nowIso := iso;
     Marketplace.addOutcome :=
       fun k => match k with
                | 1 => Thrown "network down"
                | _ => Returned None
                end;
     Marketplace.getThrows := fun _ => false;
     Marketplace.queryThrows := false;
     Marketplace.queryGet := fun _ => Fetched |}.

(** The demo service as [createService] stored it. *)
Definition demoService : Marketplace.Service :=
  {| Marketplace.id := "service_1700000000000_7";
     Marketplace.provider := "Alice Web Development";
     Marketplace.title := "Website Development Consultation";
     Marketplace.description := "One-hour consultation";
     Marketplace.date := "2023-12-01";
     Marketplace.startTime := "10:00";
     Marketplace.endTime := "11:00";
     Marketplace.timeZone := "UTC";
     Marketplace.price := "50";
     Marketplace.status := Marketplace.SERVICE_STATUS.AVAILABLE;
     Marketplace.createdAt := "t0";
     Marketplace.bookedBy := None;
     Marketplace.updatedAt := None |}.

(** An outside world of the moderia provider in which the first write is
    refused. *)
Definition refusingExt (ms hex : string) : Moderia.Ext :=
  {| Moderia.timeMs := ms;
     Moderia.randomHex := hex;
     Moderia.nowIso := "2025-03-23T09:30:36.055Z";
     Moderia.createdBucket := Returned ("0xbucket" ++ ms);
     Moderia.queryThrows := None;
     Moderia.addThrows :=
       fun k => match k with 0 => Some "network down" | _ => None end;
     Moderia.writeContract := Returned ("0xtx" ++ ms);
     Moderia.contentIsText := true |}.

(** An outside world of the moderia provider in which the second write is
    refused. *)
Definition halfExt (ms hex : string) : Moderia.Ext :=
  {| Moderia.timeMs := ms;
     Moderia.randomHex := hex;
     Moderia.nowIso := "2025-03-23T09:30:36.055Z";
     Moderia.createdBucket := Returned ("0xbucket" ++ ms);
     Moderia.queryThrows := None;
     Moderia.addThrows :=
       fun k => match k with 1 => Some "network down" | _ => None end;
     Moderia.writeContract := Returned ("0xtx" ++ ms);
     Moderia.contentIsText := true |}.

(** The listed lesson next to a bookings bucket that is still empty. *)
Definition flowListedOpen : Moderia.State :=
  Moderia.setBookings flowListed (Moderia.mkBucket "0xbookings" []).

Definition lessonBooking (client : string) : Moderia.BookServiceArgs :=
  {| Moderia.argServiceId := "service_1700000000001_abcd";
     Moderia.argClientName := client;
     Moderia.argClientEmail := None;
     Moderia.argSpecialRequests := None |}.

Definition flowEscrowArgs : Moderia.CreateEscrowArgs :=
  {| Moderia.ceBookingId := "booking_1700000000002_abcd";
     Moderia.ceAmount := "50" |}.

Definition lessonJoin (link : string) : Moderia.JoinMeetingArgs :=
  {| Moderia.jmMeetingUrl := link;
     Moderia.jmMeetingTitle := None;
     Moderia.jmParticipantName := None;
     Moderia.jmLanguageCode := "en-US" |}.

Definition joinExt (ms : string) : Moderia.MeetingExt :=
  {| Moderia.meetTimeMs := ms;
     Moderia.meetRandomHex := "abcd0123";
     Moderia.transcriptHex := "0123456789abcdef";
     Moderia.localeNow := "3/24/2025, 10:00:00 AM";
     Moderia.dateNow := "2025-03-24T10:00:00.000Z" |}.

(** An environment that holds the teacher's private key only. *)
Definition teacherKeyOnly : Moderia.Keys :=
  fun u => match u with
           | Moderia.TeacherUser => Some (Returned "0xteacher")
           | _ => None
           end.

(** The Otter provider with one meeting that has a transcript and no
    analysis yet. *)
Definition otterMeeting : Otter.Meeting :=
  {| Otter.id := "meeting_7";
     Otter.url := "https://meet.google.com/abc";
     Otter.title := "French lesson";
     Otter.status := Otter.MeetingStatus.COMPLETED;
     Otter.startTime := 1700000000000%Z;
     Otter.endTime := Some 1700001800000%Z;
     Otter.duration := Some 1800%Z;
     Otter.participantCount := Some 2%Z;
     Otter.hasTranscript := true;
     Otter.hasSummary := false;
     Otter.hasAnalysis := false;
     Otter.transcriptUrl := "https://otter.ai/note/meeting_7";
     Otter.summaryUrl := "https://otter.ai/note/meeting_7/summary" |}.

Definition otterState : Otter.State :=
  {| Otter.meetings := {[ "meeting_7" := otterMeeting ]};
     Otter.transcripts := {[ "meeting_7" := Otter.DEMO_TRANSCRIPT ]};
     Otter.analyses := ∅;
     Otter.paymentAuthorizations := ∅ |}.

Definition otterExt : Otter.Ext :=
  {| Otter.nowMs := 1700002000000%Z; Otter.random10000 := "4711" |}.

Definition otterAnalyzeArgs (threshold : option Q) : Otter.AnalyzeCallQualityArgs :=
  {| Otter.acMeetingId := "meeting_7";
     Otter.qualityThresholdOverride := threshold;
     Otter.includeRecommendations := true |}.

Definition otterPayArgs (override : option bool) : Otter.AuthorizePaymentArgs :=
  {| Otter.apMeetingId := "meeting_7";
     Otter.apQualityScore := None;
     Otter.apQualityPassed := override;
     Otter.paymentAmount := Some "50";
     Otter.paymentRecipient := Some "0xteacher";
     Otter.notes := None |}.

(* ===================================================================== *)
(** * Properties *)
(* ===================================================================== *)

(** ** Escrow: release and refund are guarded by the pending status *)

Section EscrowFacts.

Import Escrow.

Variable parseUnits : string -> nat -> Outcome Z.

Lemma agentTransfer_files cfg ext e r st h st1 :
  agentTransfer parseUnits cfg ext e r st = Returned (h, st1) ->
  files st1 = files st.
Proof.
  unfold agentTransfer.
  destruct (negb (demoMode cfg)); [|by intros [= _ <-]].
  destruct (parseUnits _ _); [|done].
  destruct (writeContract ext); [|done].
  by intros [= _ <-].
Qed.


(** A call either fails and leaves the state as it was, or it found a
    pending escrow record, moved the funds and stored the terminal status. *)
Lemma step_cases cfg c st :
  (exists m, step parseUnits cfg c st = (Failure m, st)) \/
  (exists msg h e e' st1,
      step parseUnits cfg c st =
        (Success msg (callTarget c) h (outcomeStatus c),
         storeTransaction st1 (callTarget c) (EscrowFile e')) /\
      files st !! callTarget c = Some (EscrowFile e) /\
      status e = PENDING /\
      agentTransfer parseUnits cfg (extOf c) e (recipientOf c e) st
        = Returned (h, st1) /\
      status e' = outcomeStatus c /\
      amount e' = amount e /\ id e' = id e /\
      clientAddress e' = clientAddress e /\
      providerAddress e' = providerAddress e).
Proof.
  destruct c as [args ext | args ext]; simpl;
    unfold releaseEscrow, refundEscrow, getEscrowDetails_data, getTransaction;
    (destruct (initClients cfg); [|by left; eexists]);
    (destruct (files st !! _) as [[e|t]|] eqn:Hf; [|by left; eexists..]);
    (destruct (decide (status e = PENDING)) as [Hp|Hp];
     [rewrite bool_decide_eq_true_2 by done
     |rewrite bool_decide_eq_false_2 by done; by left; eexists]);
    simpl;
    (destruct (agentTransfer _ _ _ _ _ _) as [[h st1]|] eqn:Ht;
     [|by left; eexists]);
    right; do 5 eexists; repeat split; try done; apply Ht.
Qed.


(** The guard: without a pending record under the id, a call fails and
    changes nothing. *)
Lemma step_not_pending cfg c st :
  statusOf st (callTarget c) <> Some PENDING ->
  exists m, step parseUnits cfg c st = (Failure m, st).
Proof.
  intros Hs. destruct (step_cases cfg c st) as [H|H]; [done|].
  destruct H as (msg & h & e & e' & st1 & _ & Hf & Hp & _).
  exfalso. apply Hs. unfold statusOf. rewrite Hf. simpl. by rewrite Hp.
Qed.





End EscrowFacts.

Section EscrowClaims.

Import Escrow.

Variable parseUnits : string -> nat -> Outcome Z.


(** C3 (amended). Refund takes an escrow id and a reason, and no percentage.
    For every pending escrow it returns the whole stored amount: outside demo
    mode exactly one transfer is submitted, from the agent wallet to the
    client address, of [parseUnits amount 6] base units; in demo mode no
    transfer is submitted and a simulated hash is recorded. In both modes
    the escrow is stored with status REFUNDED and its amount unchanged. *)
Theorem refund_returns_whole_amount cfg (args : RefundEscrowInput) (ext : Ext)
    (st : State) (e : EscrowTransaction) (units : Z) (hash : string) :
  files st !! refundEscrowId args = Some (EscrowFile e) ->
  status e = PENDING ->
  (demoMode cfg = false -> keysPresent cfg = true) ->
  parseUnits (amount e) USDC_DECIMALS = Returned units ->
  writeContract ext = Returned hash ->
  exists msg e' st',
    refundEscrow parseUnits cfg args ext st =
      (Success msg (refundEscrowId args)
               (if demoMode cfg then simulatedHash ext else hash) REFUNDED, st') /\
    files st' = <[refundEscrowId args := EscrowFile e']> (files st) /\
    status e' = REFUNDED /\ amount e' = amount e /\
    chain st' =
      if demoMode cfg then chain st
      else (chain st ++ [mkContractCall (tokenAddress e) AgentWallet
                                        (clientAddress e) units])%list.
Proof.
  intros Hf Hp Hkeys Hunits Hw.
  unfold refundEscrow, getEscrowDetails_data, getTransaction, initClients,
    agentTransfer.
  destruct (demoMode cfg) eqn:Hd; simpl.
  - rewrite Hf, bool_decide_eq_true_2 by done. simpl.
    do 3 eexists. repeat split; reflexivity.
  - rewrite Hkeys by done. rewrite Hf, bool_decide_eq_true_2 by done. simpl.
    rewrite Hunits, Hw. do 3 eexists. repeat split; reflexivity.
Qed.

End EscrowClaims.


Lemma refund_returns_whole_amount_witness :
  exists msg e' st',
    Escrow.refundEscrow Escrow.wholeUnits liveConfig
      (Escrow.mkRefundEscrowInput "escrow_1" (Some "partial refund of 40%"))
      (sampleExt "0xb") sampleEscrowState =
      (Escrow.Success msg "escrow_1" "0xb" Escrow.REFUNDED, st') /\
    Escrow.files st' =
      <["escrow_1" := Escrow.EscrowFile e']> (Escrow.files sampleEscrowState) /\
    Escrow.status e' = Escrow.REFUNDED /\
    Escrow.amount e' = "50" /\
    Escrow.chain st' =
      [mkContractCall "0xusdc" AgentWallet "0xclient" 50000000%Z].
Proof.
  apply (refund_returns_whole_amount Escrow.wholeUnits liveConfig
           (Escrow.mkRefundEscrowInput "escrow_1" (Some "partial refund of 40%"))
           (sampleExt "0xb") sampleEscrowState sampleEscrow 50000000%Z "0xb");
    try reflexivity.
Defined.

(** C3, as stated, fails: a refund decided at 40% of a pending escrow of 50
    USDC transfers the whole 50 USDC (50000000 base units), not 40% of it
    (20000000 base units). *)
Lemma refund_percentage_counterexample :
  let '(_, st') :=
    Escrow.refundEscrow Escrow.wholeUnits liveConfig
      (Escrow.mkRefundEscrowInput "escrow_1" (Some "partial refund of 40%"))
      (sampleExt "0xb") sampleEscrowState in
  Escrow.wholeUnits "50" 6 = Returned 50000000%Z /\
  List.map callUnits (Escrow.chain st') = [50000000%Z] /\
  List.map callUnits (Escrow.chain st') <> [(50000000 * 40 / 100)%Z].
Proof. vm_compute. repeat split; congruence. Qed.

(** ** Objects of a bucket prefix *)

Lemma get_put_eq {A : Type} (k : string) (v : A) (l : list (string * A)) :
  get k (put k v l) = Some v.
Proof.
  induction l as [|[k' v'] l IH]; simpl.
  - by rewrite String.eqb_refl.
  - destruct (String.eqb k k') eqn:E; simpl.
    + by rewrite String.eqb_refl.
    + by rewrite E.
Qed.

Lemma get_put_ne {A : Type} (k k' : string) (v : A) (l : list (string * A)) :
  k <> k' -> get k' (put k v l) = get k' l.
Proof.
  intros Hne. induction l as [|[k2 v2] l IH]; simpl.
  - destruct (String.eqb_spec k' k); [congruence|done].
  - destruct (String.eqb_spec k k2) as [->|Hk]; simpl.
    + destruct (String.eqb_spec k' k2); [congruence|done].
    + by destruct (String.eqb_spec k' k2).
Qed.

(** ** Marketplace: service creation *)

Section MarketplaceCreation.

Import Marketplace.

(** C6 (amended). [createService] validates neither the price nor the time
    window: for every input, on an initialised provider whose [add]
    succeeds, it stores a Service record that carries the given fields
    unchanged and whose initial status is AVAILABLE. It fails only when the
    provider is not initialised or the bucket write fails, and then no
    record is created. *)
Theorem createService_no_validation (args : CreateServiceArgs) (ext : Ext)
    (st : State) :
  let serviceId := "service_" ++ timeMs ext ++ "_" ++ random1000 ext in
  (initialized st = true ->
   (exists h, addOutcome ext 0 = Returned h) ->
   exists s st',
     createService args ext st = (ServiceCreated serviceId, st') /\
     get serviceId (services (bucket st')) = Some (Parsed s) /\
     addLog st' = (addLog st ++ [PutService serviceId s])%list /\
     status s = SERVICE_STATUS.AVAILABLE /\
     id s = serviceId /\
     price s = argPrice args /\
     startTime s = argStartTime args /\ endTime s = argEndTime args /\
     date s = argDate args /\ timeZone s = argTimeZone args /\
     provider s = argProvider args /\ title s = argTitle args /\
     description s = argDescription args) /\
  (initialized st = false ->
   createService args ext st = (MissingClient, st)) /\
  (initialized st = true ->
   forall m, addOutcome ext 0 = Thrown m ->
   createService args ext st =
     (ServiceCreationFailed ("Failed to store data: " ++ m), st)).
Proof.
  intros serviceId. unfold createService, _storeObject, _isInitialized.
  repeat split.
  - intros Hi [h Hh]. rewrite Hi, Hh. simpl.
    do 2 eexists. split; [reflexivity|]. simpl.
    rewrite get_put_eq. repeat split; reflexivity.
  - intros Hi. by rewrite Hi.
  - intros Hi m Hm. by rewrite Hi, Hm.
Qed.

End MarketplaceCreation.

Lemma createService_no_validation_witness :
  Marketplace.initialized marketStart = true /\
  (exists h, Marketplace.addOutcome (calmExt "1700000000000" "7" "t0") 0
             = Returned h) /\
  exists s st',
    Marketplace.createService oddServiceArgs
      (calmExt "1700000000000" "7" "t0") marketStart =
      (Marketplace.ServiceCreated "service_1700000000000_7", st') /\
    get "service_1700000000000_7"
        (Marketplace.services (Marketplace.bucket st')) = Some (Parsed s) /\
    Marketplace.status s = Marketplace.SERVICE_STATUS.AVAILABLE.
Proof.
  split; [reflexivity|]. split; [by exists None|].
  destruct (createService_no_validation oddServiceArgs
              (calmExt "1700000000000" "7" "t0") marketStart) as [H _].
  destruct (H eq_refl (ex_intro _ None eq_refl))
    as (s & st' & H1 & H2 & _ & H3 & _).
  exists s, st'. repeat split; assumption.
Defined.

(** C6, as stated, fails: with price 0 and a window that ends (10:00)
    before it starts (11:00), [createService] succeeds and stores the
    record. *)
Lemma createService_validation_counterexample :
  Escrow.digitsValue (Marketplace.argPrice oddServiceArgs) 0 = Some 0%Z /\
  String.leb (Marketplace.argEndTime oddServiceArgs)
             (Marketplace.argStartTime oddServiceArgs) = true /\
  exists s st',
    Marketplace.createService oddServiceArgs
      (calmExt "1700000000000" "7" "t0") marketStart =
      (Marketplace.ServiceCreated "service_1700000000000_7", st') /\
    Marketplace.services (Marketplace.bucket st') =
      [("service_1700000000000_7", Parsed s)] /\
    Marketplace.price s = "0" /\
    Marketplace.startTime s = "11:00" /\ Marketplace.endTime s = "10:00".
Proof.
  split; [reflexivity|]. split; [reflexivity|].
  do 2 eexists. vm_compute. repeat split; reflexivity.
Qed.

(** ** Marketplace: disputes *)

Section MarketplaceDisputes.

Import Marketplace.

(** C8 (amended). [fileDispute] checks only that the booking exists: for a
    stored booking in any status, when both bucket writes succeed, it sets
    the booking's status to DISPUTED and creates a dispute record with
    status pending. It creates no dispute record when the booking is not
    found. *)
Theorem fileDispute_any_status (args : FileDisputeArgs) (ext : Ext) (st : State) :
  initialized st = true ->
  getThrows ext 0 = false ->
  let disputeId := "dispute_" ++ timeMs ext ++ "_" ++ fdBookingId args in
  (forall booking,
     get (fdBookingId args) (bookings (bucket st)) = Some (Parsed booking) ->
     (exists h, addOutcome ext 0 = Returned h) ->
     (exists h, addOutcome ext 1 = Returned h) ->
     exists st' booking' d,
       fileDispute args ext st = (DisputeFiled (fdBookingId args), st') /\
       get (fdBookingId args) (bookings (bucket st')) = Some (Parsed booking') /\
       bStatus booking' = BOOKING_STATUS.DISPUTED /\
       disputeReason booking' = Some (fdReason args) /\
       get disputeId (disputes (bucket st')) = Some (Parsed d) /\
       dStatus d = dispute_pending /\
       dBookingId d = fdBookingId args /\
       dServiceId d = bServiceId booking /\
       reason d = fdReason args) /\
  (get (fdBookingId args) (bookings (bucket st)) = None ->
   fileDispute args ext st = (DisputeBookingNotFound, st)).
Proof.
  intros Hi Hg disputeId.
  unfold fileDispute, _getObject, _storeObject, _isInitialized.
  rewrite Hi, Hg. simpl. split.
  - intros booking Hb [h0 H0] [h1 H1]. rewrite Hb, H0. simpl.
    rewrite H1. simpl.
    do 3 eexists. split; [reflexivity|]. simpl.
    rewrite !get_put_eq. repeat split; reflexivity.
  - intros Hb. by rewrite Hb.
Qed.



End MarketplaceDisputes.

Lemma fileDispute_any_status_witness :
  exists st' booking' d,
    Marketplace.fileDispute demoDisputeArgs
      (calmExt "1700000000002" "9" "t2") marketBooked =
      (Marketplace.DisputeFiled "booking_1700000000001_8", st') /\
    get "booking_1700000000001_8"
        (Marketplace.bookings (Marketplace.bucket st')) = Some (Parsed booking') /\
    Marketplace.bStatus booking' = Marketplace.BOOKING_STATUS.DISPUTED /\
    get "dispute_1700000000002_booking_1700000000001_8"
        (Marketplace.disputes (Marketplace.bucket st')) = Some (Parsed d) /\
    Marketplace.dStatus d = Marketplace.dispute_pending.
Proof.
  destruct (fileDispute_any_status demoDisputeArgs
              (calmExt "1700000000002" "9" "t2") marketBooked eq_refl eq_refl)
    as [H _].
  destruct (H _ eq_refl (ex_intro _ None eq_refl) (ex_intro _ None eq_refl))
    as (st' & b' & d & H1 & H2 & H3 & _ & H4 & H5 & _).
  exists st', b', d. repeat split; assumption.
Defined.

(** C8, as stated, fails: a dispute is opened against a booking whose
    status is CONFIRMED (neither Completed nor Disputed); the call succeeds
    and the dispute record is created. *)
Lemma fileDispute_confirmed_counterexample :
  (exists b,
     get "booking_1700000000001_8"
         (Marketplace.bookings (Marketplace.bucket marketBooked))
       = Some (Parsed b) /\
     Marketplace.bStatus b = Marketplace.BOOKING_STATUS.CONFIRMED) /\
  Marketplace.disputes (Marketplace.bucket marketBooked) = [] /\
  exists st' d,
    Marketplace.fileDispute demoDisputeArgs
      (calmExt "1700000000002" "9" "t2") marketBooked =
      (Marketplace.DisputeFiled "booking_1700000000001_8", st') /\
    Marketplace.disputes (Marketplace.bucket st') =
      [("dispute_1700000000002_booking_1700000000001_8", Parsed d)] /\
    Marketplace.dBookingId d = "booking_1700000000001_8".
Proof.
  split; [eexists; vm_compute; split; reflexivity|].
  split; [reflexivity|].
  do 2 eexists. vm_compute. repeat split; reflexivity.
Qed.



(** ** Booking: order of the two writes and the availability guard *)

Section BookingFacts.

(** marketplace provider: a successful booking found the service available,
    wrote the booking, and then wrote the service as booked. *)
Lemma market_booking_order (args : Marketplace.BookServiceArgs)
    (ext : Marketplace.Ext) (st st' : Marketplace.State) (bookingId link : string) :
  Marketplace.bookService args ext st
    = (Marketplace.ServiceBooked bookingId link, st') ->
  exists service b s',
    get (Marketplace.argServiceId args)
        (Marketplace.services (Marketplace.bucket st)) = Some (Parsed service) /\
    Marketplace.status service = Marketplace.SERVICE_STATUS.AVAILABLE /\
    Marketplace.addLog st' =
      (Marketplace.addLog st ++
       [Marketplace.PutBooking bookingId b;
        Marketplace.PutService (Marketplace.argServiceId args) s'])%list /\
    Marketplace.bucket st' =
      Marketplace.applyPut
        (Marketplace.applyPut (Marketplace.bucket st)
                              (Marketplace.PutBooking bookingId b))
        (Marketplace.PutService (Marketplace.argServiceId args) s') /\
    Marketplace.bStatus b = Marketplace.BOOKING_STATUS.CONFIRMED /\
    Marketplace.bServiceId b = Marketplace.argServiceId args /\
    Marketplace.status s' = Marketplace.SERVICE_STATUS.BOOKED /\
    Marketplace.bookedBy s' = Some bookingId /\
    get (Marketplace.argServiceId args)
        (Marketplace.services
           (Marketplace.applyPut (Marketplace.bucket st)
                                 (Marketplace.PutBooking bookingId b)))
      = Some (Parsed service).
Proof.
  unfold Marketplace.bookService, Marketplace._getObject,
    Marketplace._storeObject, Marketplace._isInitialized.
  destruct (Marketplace.initialized st) eqn:Hi; simpl; [|done].
  destruct (Marketplace.getThrows ext 0); [done|].
  destruct (get _ _) as [[service|]|] eqn:Hs; [|done..].
  destruct (decide (Marketplace.status service
                    = Marketplace.SERVICE_STATUS.AVAILABLE)) as [Ha|Ha];
    [rewrite bool_decide_eq_true_2 by done
    |by rewrite bool_decide_eq_false_2 by done].
  simpl.
  destruct (Marketplace.addOutcome ext 0); simpl; [|done].
  destruct (Marketplace.addOutcome ext 1); simpl; [|done].
  intros [= <- <- <-].
  do 3 eexists. split; [reflexivity|]. split; [done|]. simpl.
  rewrite <- app_assoc. simpl. split_and!; try reflexivity; done.
Qed.

(** marketplace provider: without an available service no write is made. *)
Lemma market_booking_guard (args : Marketplace.BookServiceArgs)
    (ext : Marketplace.Ext) (st : Marketplace.State)
    (service : Marketplace.Service) :
  Marketplace.initialized st = true ->
  get (Marketplace.argServiceId args)
      (Marketplace.services (Marketplace.bucket st)) = Some (Parsed service) ->
  Marketplace.status service <> Marketplace.SERVICE_STATUS.AVAILABLE ->
  Marketplace.bookService args ext st =
    (if Marketplace.getThrows ext 0 then Marketplace.BookingServiceNotFound
     else Marketplace.ServiceAlreadyBooked, st).
Proof.
  intros Hi Hs Ha.
  unfold Marketplace.bookService, Marketplace._getObject,
    Marketplace._isInitialized.
  rewrite Hi. simpl. destruct (Marketplace.getThrows ext 0); [done|].
  rewrite Hs. by rewrite bool_decide_eq_false_2 by done.
Qed.

(** moderia provider: a successful booking found the listing available,
    wrote the booking while the stored listing was still available, and
    then wrote the listing as booked under its object key. *)
Lemma moderia_booking_order (args : Moderia.BookServiceArgs)
    (ext : Moderia.Ext) (st st' : Moderia.State) (sid bookingId : string) :
  Moderia.bookService args ext st = (Moderia.Booked sid bookingId, st') ->
  exists sb bb listing booking listing' stMid,
    Moderia.servicesBucket st = Some sb /\
    firstMatchListing args sb = Some listing /\
    Moderia.status listing = Moderia.ServiceStatus.AVAILABLE /\
    Moderia.addLog st' =
      (Moderia.addLog st ++
       [Moderia.PutBooking (Moderia.bObjectKey booking) booking;
        Moderia.PutService (Moderia.objectKey listing) listing'])%list /\
    Moderia.bookingsBucket stMid =
      Some (Moderia.addObject (Moderia.bObjectKey booking) booking bb) /\
    Moderia.servicesBucket stMid = Some sb /\
    st' = Moderia.addService stMid sb (Moderia.objectKey listing) listing' /\
    Moderia.bId booking = bookingId /\
    Moderia.bServiceId booking = Moderia.argServiceId args /\
    Moderia.status listing' = Moderia.ServiceStatus.BOOKED /\
    Moderia.id listing' = Moderia.id listing.
Proof.
  unfold Moderia.bookService, firstMatchListing.
  intros H. repeat case_match; simplify_eq.
  all: do 6 eexists; split_and!; try reflexivity; try done.
  all: try match goal with
           | Hn : negb (bool_decide _) = false |- _ = Moderia.ServiceStatus.AVAILABLE =>
             apply negb_false_iff, bool_decide_eq_true_1 in Hn; exact Hn
           end.
  all: unfold Moderia.addService, Moderia.addBooking, Moderia.logPut; simpl;
    by rewrite <- app_assoc.
Qed.

End BookingFacts.

Section BookingGuard.

(** moderia provider: when the listing found for the requested id is not
    available, no record is written whatever the outside world answers, and
    the answer names the unavailable status as soon as the bucket manager
    answers. *)
Lemma moderia_booking_guard (args : Moderia.BookServiceArgs)
    (ext : Moderia.Ext) (st : Moderia.State)
    (sb : Moderia.Bucket Moderia.ServiceListing)
    (listing : Moderia.ServiceListing) :
  Moderia.servicesBucket st = Some sb ->
  firstMatchListing args sb = Some listing ->
  Moderia.status listing <> Moderia.ServiceStatus.AVAILABLE ->
  Moderia.contents (Moderia.servicesBucket (Moderia.bookService args ext st).2)
    = Moderia.contents (Moderia.servicesBucket st) /\
  Moderia.contents (Moderia.bookingsBucket (Moderia.bookService args ext st).2)
    = Moderia.contents (Moderia.bookingsBucket st) /\
  Moderia.contents (Moderia.transactionsBucket (Moderia.bookService args ext st).2)
    = Moderia.contents (Moderia.transactionsBucket st) /\
  Moderia.addLog (Moderia.bookService args ext st).2 = Moderia.addLog st /\
  Moderia.chain (Moderia.bookService args ext st).2 = Moderia.chain st /\
  Moderia.transactionFiles (Moderia.bookService args ext st).2
    = Moderia.transactionFiles st /\
  (forall sid bid,
     (Moderia.bookService args ext st).1 <> Moderia.Booked sid bid) /\
  (Moderia.student st <> None ->
   Moderia.queryThrows ext = None ->
   (Moderia.bookingsBucket st = None ->
    exists addr, Moderia.createdBucket ext = Returned addr) ->
   (Moderia.bookService args ext st).1
     = Moderia.NotAvailable (Moderia.status listing)).
Proof.
  intros Hsb Hl Ha. unfold firstMatchListing in Hl.
  unfold Moderia.bookService. rewrite Hsb.
  assert (bool_decide (Moderia.status listing = Moderia.ServiceStatus.AVAILABLE)
          = false) as Hd by by apply bool_decide_eq_false_2.
  destruct (Moderia.studentClient st) eqn:Hstu; simpl.
  2: { split_and!; rewrite ?Hsb; try done. intros Hs. exfalso.
       unfold Moderia.studentClient in Hstu.
       apply bool_decide_eq_false_1 in Hstu. apply Hstu.
       by destruct (Moderia.student st). }
  destruct (Moderia.bookingsBucket st) as [bb|] eqn:Hbb.
  - destruct (Moderia.queryThrows ext) eqn:Hq; simpl.
    + split_and!; rewrite ?Hsb, ?Hbb; done.
    + rewrite Hl, Hd. simpl. split_and!; rewrite ?Hsb, ?Hbb; done.
  - destruct (Moderia.createdBucket ext) as [addr|m] eqn:Hc; simpl.
    + destruct (Moderia.queryThrows ext) eqn:Hq; simpl.
      * split_and!; rewrite ?Hsb, ?Hbb; done.
      * rewrite Hl, Hd. simpl. split_and!; rewrite ?Hsb, ?Hbb; done.
    + split_and!; rewrite ?Hsb, ?Hbb; try done.
      intros _ _ Hx. destruct (Hx eq_refl). done.
Qed.

End BookingGuard.

(** C4 (amended). In both providers a successful booking writes the Booking
    record first and the Service record second: the two accepted writes of
    the call are, in this order, the new booking and the service with status
    BOOKED, and in the store as it is right after the first write the
    booking is present while the service's stored status is still
    AVAILABLE. *)
Theorem booking_written_before_service_claim :
  (forall (args : Marketplace.BookServiceArgs) (ext : Marketplace.Ext)
          (st st' : Marketplace.State) (bookingId link : string),
     Marketplace.bookService args ext st
       = (Marketplace.ServiceBooked bookingId link, st') ->
     exists service b s',
       Marketplace.addLog st' =
         (Marketplace.addLog st ++
          [Marketplace.PutBooking bookingId b;
           Marketplace.PutService (Marketplace.argServiceId args) s'])%list /\
       Marketplace.status s' = Marketplace.SERVICE_STATUS.BOOKED /\
       let mid := Marketplace.applyPut (Marketplace.bucket st)
                    (Marketplace.PutBooking bookingId b) in
       get bookingId (Marketplace.bookings mid) = Some (Parsed b) /\
       get (Marketplace.argServiceId args) (Marketplace.services mid)
         = Some (Parsed service) /\
       Marketplace.status service = Marketplace.SERVICE_STATUS.AVAILABLE /\
       Marketplace.bucket st' =
         Marketplace.applyPut mid
           (Marketplace.PutService (Marketplace.argServiceId args) s')) /\
  (forall (args : Moderia.BookServiceArgs) (ext : Moderia.Ext)
          (st st' : Moderia.State) (sid bookingId : string),
     Moderia.bookService args ext st = (Moderia.Booked sid bookingId, st') ->
     exists sb listing booking listing' mid,
       Moderia.addLog st' =
         (Moderia.addLog st ++
          [Moderia.PutBooking (Moderia.bObjectKey booking) booking;
           Moderia.PutService (Moderia.objectKey listing) listing'])%list /\
       Moderia.status listing' = Moderia.ServiceStatus.BOOKED /\
       get (Moderia.bObjectKey booking)
           (Moderia.contents (Moderia.bookingsBucket mid)) = Some booking /\
       Moderia.servicesBucket mid = Some sb /\
       firstMatchListing args sb = Some listing /\
       Moderia.status listing = Moderia.ServiceStatus.AVAILABLE /\
       st' = Moderia.addService mid sb (Moderia.objectKey listing) listing').
Proof.
  split.
  - intros args ext st st' bookingId link H.
    destruct (market_booking_order _ _ _ _ _ _ H)
      as (service & b & s' & H1 & H2 & H3 & H4 & _ & _ & H5 & _ & H6).
    exists service, b, s'. split; [done|]. split; [done|].
    cbv zeta. split_and!; try done.
    simpl. apply get_put_eq.
  - intros args ext st st' sid bookingId H.
    destruct (moderia_booking_order _ _ _ _ _ _ H)
      as (sb & bb & listing & booking & listing' & mid & H1 & H2 & H3 & H4
          & H5 & H6 & H7 & _ & _ & H8 & _).
    exists sb, listing, booking, listing', mid. split_and!; try done.
    rewrite H5. simpl. apply get_put_eq.
Qed.

Lemma booking_written_before_service_claim_witness :
  exists service b s',
    Marketplace.addLog marketBooked =
      (Marketplace.addLog marketListed ++
       [Marketplace.PutBooking "booking_1700000000001_8" b;
        Marketplace.PutService "service_1700000000000_7" s'])%list /\
    Marketplace.status s' = Marketplace.SERVICE_STATUS.BOOKED /\
    get "service_1700000000000_7"
        (Marketplace.services
           (Marketplace.applyPut (Marketplace.bucket marketListed)
              (Marketplace.PutBooking "booking_1700000000001_8" b)))
      = Some (Parsed service) /\
    Marketplace.status service = Marketplace.SERVICE_STATUS.AVAILABLE.
Proof.
  destruct booking_written_before_service_claim as [H _].
  destruct (H demoBookArgs (calmExt "1700000000001" "8" "t1") marketListed
              marketBooked "booking_1700000000001_8"
              "https://zoom.example.com/meeting/booking_1700000000001_8"
              eq_refl)
    as (service & b & s' & H1 & H2 & _ & H3 & H4 & _).
  exists service, b, s'. split_and!; assumption.
Defined.

(** C4, as stated, fails: in the demo booking the Booking record is the
    first write, and at that moment the Service record still says
    AVAILABLE; the service is written as BOOKED only afterwards. *)
Lemma booking_before_claim_counterexample :
  exists b s' service,
    Marketplace.addLog marketBooked =
      (Marketplace.addLog marketListed ++
       [Marketplace.PutBooking "booking_1700000000001_8" b;
        Marketplace.PutService "service_1700000000000_7" s'])%list /\
    let mid := Marketplace.applyPut (Marketplace.bucket marketListed)
                 (Marketplace.PutBooking "booking_1700000000001_8" b) in
    Marketplace.bookings mid = [("booking_1700000000001_8", Parsed b)] /\
    Marketplace.services mid = [("service_1700000000000_7", Parsed service)] /\
    Marketplace.status service = Marketplace.SERVICE_STATUS.AVAILABLE /\
    Marketplace.status service <> Marketplace.SERVICE_STATUS.BOOKED.
Proof.
  do 3 eexists. vm_compute. split_and!; try reflexivity. discriminate.
Qed.

(** C5. For every booking attempt against a stored Service whose status is
    not AVAILABLE, in both providers: the call never answers with a
    booking, it writes no record (the marketplace provider's state is
    unchanged; in the moderia provider every bucket lists the same objects as
    before, no write is logged, no transfer is submitted), and when the
    bucket manager answers the call, the answer is the unavailable message
    (SERVICE_ALREADY_BOOKED, respectively "Service is not available for
    booking" with the current status). *)
Theorem unavailable_service_not_booked :
  (forall (args : Marketplace.BookServiceArgs) (ext : Marketplace.Ext)
          (st : Marketplace.State) (service : Marketplace.Service),
     Marketplace.initialized st = true ->
     get (Marketplace.argServiceId args)
         (Marketplace.services (Marketplace.bucket st)) = Some (Parsed service) ->
     Marketplace.status service <> Marketplace.SERVICE_STATUS.AVAILABLE ->
     (Marketplace.bookService args ext st).2 = st /\
     (forall bid link,
        (Marketplace.bookService args ext st).1
          <> Marketplace.ServiceBooked bid link) /\
     (Marketplace.getThrows ext 0 = false ->
      (Marketplace.bookService args ext st).1
        = Marketplace.ServiceAlreadyBooked)) /\
  (forall (args : Moderia.BookServiceArgs) (ext : Moderia.Ext)
          (st : Moderia.State) (sb : Moderia.Bucket Moderia.ServiceListing)
          (listing : Moderia.ServiceListing),
     Moderia.servicesBucket st = Some sb ->
     firstMatchListing args sb = Some listing ->
     Moderia.status listing <> Moderia.ServiceStatus.AVAILABLE ->
     Moderia.contents (Moderia.servicesBucket (Moderia.bookService args ext st).2)
       = Moderia.contents (Moderia.servicesBucket st) /\
     Moderia.contents (Moderia.bookingsBucket (Moderia.bookService args ext st).2)
       = Moderia.contents (Moderia.bookingsBucket st) /\
     Moderia.contents
       (Moderia.transactionsBucket (Moderia.bookService args ext st).2)
       = Moderia.contents (Moderia.transactionsBucket st) /\
     Moderia.addLog (Moderia.bookService args ext st).2 = Moderia.addLog st /\
     Moderia.chain (Moderia.bookService args ext st).2 = Moderia.chain st /\
     (forall sid bid,
        (Moderia.bookService args ext st).1 <> Moderia.Booked sid bid) /\
     (Moderia.student st <> None ->
      Moderia.queryThrows ext = None ->
      (Moderia.bookingsBucket st = None ->
       exists addr, Moderia.createdBucket ext = Returned addr) ->
      (Moderia.bookService args ext st).1
        = Moderia.NotAvailable (Moderia.status listing))).
Proof.
  split.
  - intros args ext st service Hi Hs Ha.
    rewrite (market_booking_guard args ext st service Hi Hs Ha). simpl.
    split_and!; [done| |].
    + intros bid link. by destruct (Marketplace.getThrows ext 0).
    + by intros ->.
  - intros args ext st sb listing Hsb Hl Ha.
    destruct (moderia_booking_guard args ext st sb listing Hsb Hl Ha)
      as (H1 & H2 & H3 & H4 & H5 & _ & H6 & H7).
    split_and!; assumption.
Qed.

Lemma unavailable_service_not_booked_witness :
  (Marketplace.bookService demoBookArgs (calmExt "1700000000005" "3" "t5")
     marketBooked).2 = marketBooked /\
  (Marketplace.bookService demoBookArgs (calmExt "1700000000005" "3" "t5")
     marketBooked).1 = Marketplace.ServiceAlreadyBooked.
Proof.
  destruct unavailable_service_not_booked as [H _].
  assert (exists service,
            get (Marketplace.argServiceId demoBookArgs)
                (Marketplace.services (Marketplace.bucket marketBooked))
              = Some (Parsed service) /\
            Marketplace.status service <> Marketplace.SERVICE_STATUS.AVAILABLE)
    as (service & Hs & Ha).
  { eexists. vm_compute. split; [reflexivity|discriminate]. }
  destruct (H demoBookArgs (calmExt "1700000000005" "3" "t5") marketBooked
              service eq_refl Hs Ha) as (H1 & _ & H2).
  split; [exact H1|exact (H2 eq_refl)].
Defined.

(** ** Listing of services *)

Section ListingFacts.

Lemma get_In {A : Type} (k : string) (v : A) (l : list (string * A)) :
  get k l = Some v -> In (k, v) l.
Proof.
  induction l as [|[k' v'] l IH]; simpl; [done|].
  destruct (String.eqb_spec k k') as [->|Hk].
  - intros [= ->]. by left.
  - intros H. right. by apply IH.
Qed.

Lemma In_get_NoDup {A : Type} (k : string) (v : A) (l : list (string * A)) :
  List.NoDup (List.map fst l) -> In (k, v) l -> get k l = Some v.
Proof.
  induction l as [|[k' v'] l IH]; simpl; [done|].
  intros Hnd [Hin|Hin].
  - injection Hin as -> ->. by rewrite String.eqb_refl.
  - apply List.NoDup_cons_iff in Hnd as [Hk Hnd].
    destruct (String.eqb_spec k k') as [->|Hne].
    + exfalso. apply Hk. apply (List.in_map fst) in Hin. exact Hin.
    + by apply IH.
Qed.

Lemma In_parsedObjects {A : Type} (a : A) (data : list (string * Content A)) :
  In a (Marketplace.parsedObjects data) <-> exists k, In (k, Parsed a) data.
Proof.
  induction data as [|[k [x|]] data IH]; simpl.
  - split; [done|by intros [k H]].
  - rewrite IH. split.
    + intros [->|[k' H]]; [exists k; by left|exists k'; by right].
    + intros [k' [[= _ ->]|H]]; [by left|right; by exists k'].
  - rewrite IH. split.
    + intros [k' H]. exists k'. by right.
    + intros [k' [H|H]]; [done|by exists k'].
Qed.

(** The parsed objects that a query fetches are the stored parsed objects
    whose [get] was answered with content. *)
Lemma In_fetched {A : Type} (fetch : string -> Fetch) (k : string) (a : A)
    (objs : list (string * Content A)) :
  In (k, Parsed a) (fetched fetch objs) <->
  In (k, Parsed a) objs /\ fetch k = Fetched.
Proof.
  induction objs as [|[k' c] objs IH]; simpl; [tauto|].
  destruct (fetch k') eqn:Hf; simpl; rewrite IH.
  - split.
    + intros [E|[H1 H2]].
      * injection E as -> ->. split; [by left|done].
      * split; [by right|done].
    + intros [[E|H1] H2]; [by left|right; by split].
  - split.
    + intros [E|[H1 H2]]; [discriminate E|split; [by right|done]].
    + intros [[E|H1] H2].
      * injection E as -> _. congruence.
      * right. by split.
  - split.
    + intros [H1 H2]. split; [by right|done].
    + intros [[E|H1] H2].
      * injection E as -> _. congruence.
      * by split.
Qed.

Section WithToLowerCase.

Variable toLowerCase : string -> string.

(** marketplace provider: an unfiltered listing shows every stored service
    whose status is AVAILABLE and whose [get] the query could answer, as it
    is stored. *)
Lemma market_listing_includes (st : Marketplace.State) (ext : Marketplace.Ext)
    (key : string) (s : Marketplace.Service) :
  Marketplace.initialized st = true ->
  Marketplace.queryThrows ext = false ->
  Marketplace.queryGet ext key = Fetched ->
  get key (Marketplace.services (Marketplace.bucket st)) = Some (Parsed s) ->
  Marketplace.status s = Marketplace.SERVICE_STATUS.AVAILABLE ->
  exists l,
    Marketplace.listServices toLowerCase {| Marketplace.argFilter := None |}
                             ext st
      = Marketplace.AvailableServices "" l /\
    In s l.
Proof.
  intros Hi Hq Hf Hg Ha.
  unfold Marketplace.listServices, Marketplace._queryObjects,
    Marketplace._isInitialized.
  rewrite Hi, Hq. simpl.
  apply get_In in Hg.
  assert (In (key, Parsed s)
             (fetched (Marketplace.queryGet ext)
                      (Marketplace.services (Marketplace.bucket st)))) as Hfe.
  { by apply In_fetched. }
  assert (In s (List.filter (Marketplace.matchesFilter toLowerCase "")
                  (Marketplace.parsedObjects
                     (fetched (Marketplace.queryGet ext)
                        (Marketplace.services (Marketplace.bucket st))))))
    as Hin.
  { apply List.filter_In. split.
    - apply In_parsedObjects. by exists key.
    - unfold Marketplace.matchesFilter. by rewrite bool_decide_eq_true_2. }
  destruct (fetched _ _) as [|o data] eqn:Hd; [done|].
  destruct (List.filter _ _) as [|x l] eqn:Hl; [done|].
  by eexists.
Qed.

(** marketplace provider: whatever the filter, every listed service is
    stored with status AVAILABLE under a key that the query fetched; a
    service stored under a key with another status is therefore not
    listed. *)
Lemma market_listing_excludes (st : Marketplace.State) (ext : Marketplace.Ext)
    (args : Marketplace.ListServicesArgs) (f : string)
    (l : list Marketplace.Service) :
  Marketplace.listServices toLowerCase args ext st
    = Marketplace.AvailableServices f l ->
  forall x, In x l ->
    Marketplace.status x = Marketplace.SERVICE_STATUS.AVAILABLE /\
    exists k, In (k, Parsed x) (Marketplace.services (Marketplace.bucket st)) /\
              Marketplace.queryGet ext k = Fetched.
Proof.
  unfold Marketplace.listServices, Marketplace._queryObjects.
  destruct (negb _); [done|].
  destruct (Marketplace.queryThrows ext); [done|].
  destruct (fetched _ _) as [|o data] eqn:Hd; [done|].
  destruct (List.filter _ _) as [|y l'] eqn:Hf; [done|].
  intros [= <- <-] x Hx. rewrite <- Hf in Hx.
  apply List.filter_In in Hx as [Hin Hm]. split.
  - unfold Marketplace.matchesFilter in Hm.
    apply andb_true_iff in Hm as [Hm _]. by apply bool_decide_eq_true_1 in Hm.
  - apply In_parsedObjects in Hin as [k Hk]. rewrite <- Hd in Hk.
    apply In_fetched in Hk. by exists k.
Qed.

End WithToLowerCase.

(** The listings that pass the test of an unfiltered [listAvailableServices],
    in query order. *)
Lemma filter_put_index {A : Type} (P : A -> bool) (k : string) (v : A)
    (l : list (string * A)) :
  P v = true ->
  exists i, (i <= length (List.filter P (List.map snd l)))%nat /\
            List.filter P (List.map snd (put k v l)) !! i = Some v.
Proof.
  intros Hv. induction l as [|[k' v'] l IH]; simpl.
  - rewrite Hv. by exists 0%nat.
  - destruct (String.eqb k k'); simpl.
    + rewrite Hv. exists 0%nat. split; [lia|done].
    + destruct IH as (i & Hi & Hl). destruct (P v'); simpl.
      * exists (S i). split; [lia|done].
      * exists i. split; [lia|done].
Qed.

Lemma slice0_keeps {A : Type} (n : Z) (l : list A) (i : nat) (a : A) :
  l !! i = Some a -> (Z.of_nat i < n)%Z -> In a (slice0 n l).
Proof.
  intros Hl Hn. unfold slice0.
  destruct (Z.ltb_spec n 0); [lia|].
  apply list_elem_of_In, list_elem_of_lookup. exists i.
  rewrite lookup_take_lt; [done|lia].
Qed.

Lemma slice0_sub {A : Type} (n : Z) (l : list A) (a : A) :
  In a (slice0 n l) -> In a l.
Proof.
  unfold slice0. destruct (n <? 0)%Z; intros H;
    apply list_elem_of_In in H; apply list_elem_of_In;
    apply elem_of_take in H as (i & Hi & _);
    apply list_elem_of_lookup; by exists i.
Qed.

Lemma sliceTo_keeps {A : Type} (n : JsNumber) (l : list A) (i : nat) (a : A) :
  l !! i = Some a -> withinLimit n i = true -> In a (sliceTo n l).
Proof.
  intros Hl Hn. destruct n as [q| |]; simpl in *; [|
    |done].
  - apply (slice0_keeps _ _ i); [done|]. by apply Z.ltb_lt.
  - apply list_elem_of_In, list_elem_of_lookup. by exists i.
Qed.

Lemma sliceTo_sub {A : Type} (n : JsNumber) (l : list A) (a : A) :
  In a (sliceTo n l) -> In a l.
Proof.
  destruct n as [q| |]; simpl; [apply slice0_sub|done|done].
Qed.

Lemma withinLimit_le (n : JsNumber) (i j : nat) :
  (i <= j)%nat -> withinLimit n j = true -> withinLimit n i = true.
Proof.
  destruct n as [q| |]; simpl; [|done|done].
  intros Hij Hj. apply Z.ltb_lt in Hj. apply Z.ltb_lt. lia.
Qed.

End ListingFacts.

Section ModeriaListing.

Import Moderia.

(** The available listing stored under a key is, among the available
    listings in query order, at the index that counts the available
    listings before it. *)
Lemma availableBefore_index (key : string) (s : ServiceListing)
    (objs : list (string * ServiceListing)) (n : JsNumber) :
  get key objs = Some s ->
  status s = ServiceStatus.AVAILABLE ->
  List.filter (listed (unfilteredTo n)) (List.map snd objs)
    !! availableBefore key objs = Some s.
Proof.
  intros Hg Hs. induction objs as [|[k v] objs IH]; simpl in *; [done|].
  unfold listed at 1. simpl.
  destruct (String.eqb key k).
  - injection Hg as ->. by rewrite bool_decide_eq_true_2.
  - destruct (bool_decide (status v = ServiceStatus.AVAILABLE)); simpl;
      by apply IH.
Qed.

(** moderia provider: an unfiltered listing shows a stored listing that is
    AVAILABLE when the available listings before it are fewer than the
    limit. *)
Lemma moderia_listing_shows (n : JsNumber) (ext : Ext) (st : State)
    (b : Bucket ServiceListing) (key : string) (s : ServiceListing) :
  student st <> None ->
  servicesBucket st = Some b ->
  queryThrows ext = None ->
  get key (objects b) = Some s ->
  status s = ServiceStatus.AVAILABLE ->
  withinLimit n (availableBefore key (objects b)) = true ->
  exists l,
    listAvailableServices (unfilteredTo n) ext st = AvailableServices l /\
    In s l.
Proof.
  intros Hstu Hsb Hq Hg Hs Hn.
  unfold listAvailableServices, studentClient.
  rewrite bool_decide_eq_true_2 by (destruct (student st); [by eexists|done]).
  rewrite Hsb, Hq. cbn [negb limit unfilteredTo].
  assert (In s (sliceTo n (List.filter (listed (unfilteredTo n))
                             (List.map snd (objects b))))) as Hin.
  { apply (sliceTo_keeps _ _ (availableBefore key (objects b))); [|done].
    by apply availableBefore_index. }
  destruct (sliceTo _ _) as [|x l] eqn:Hsl; [done|]. by eexists.
Qed.

Lemma availableBefore_put (key : string) (v : ServiceListing)
    (objs : list (string * ServiceListing)) (n : JsNumber) :
  (availableBefore key (put key v objs)
   <= length (List.filter (listed (unfilteredTo n)) (List.map snd objs)))%nat.
Proof.
  induction objs as [|[k' v'] objs IH]; simpl.
  - rewrite String.eqb_refl. lia.
  - destruct (String.eqb key k') eqn:E; simpl.
    + rewrite String.eqb_refl. lia.
    + rewrite E. unfold listed at 1. simpl.
      destruct (bool_decide (status v' = ServiceStatus.AVAILABLE)); simpl; lia.
Qed.

(** moderia provider: [createServiceListing] stores the new listing, with
    the caller's fields and status AVAILABLE, under its object key, behind
    the listings that were stored before it. *)
Lemma moderia_listing_stored (args : CreateServiceListingArgs) (ext : Ext)
    (st st' : State) (sid : string) (n : JsNumber) :
  createServiceListing args ext st = (ListingCreated sid, st') ->
  exists b s,
    servicesBucket st' = Some b /\
    student st' = student st /\
    get ("service_" ++ sid ++ ".json") (objects b) = Some s /\
    (availableBefore ("service_" ++ sid ++ ".json") (objects b)
     <= length (List.filter (listed (unfilteredTo n))
                  (List.map snd (contents (servicesBucket st)))))%nat /\
    id s = sid /\ status s = ServiceStatus.AVAILABLE /\
    serviceType s = argServiceType args /\
    providerName s = argProviderName args /\
    startTime s = argStartTime args /\ endTime s = argEndTime args /\
    price s = argPrice args /\ walletAddress s = argWalletAddress args /\
    meetingLink s = argMeetingLink args /\
    description s = argDescription args /\
    objectKey s = "service_" ++ sid ++ ".json".
Proof.
  unfold createServiceListing.
  destruct (negb (teacherClient st)); [done|].
  destruct (servicesBucket st) as [b|] eqn:Hsb.
  - destruct (addThrows ext 0); [done|]. intros [= <- <-].
    do 2 eexists. split; [reflexivity|]. split; [reflexivity|].
    cbn [addObject objects objectKey]. split; [apply get_put_eq|].
    split; [apply availableBefore_put|]. by split_and!.
  - destruct (createdBucket ext) as [addr|]; [|done].
    destruct (addThrows ext 0); [done|]. intros [= <- <-].
    do 2 eexists. split; [reflexivity|]. split; [reflexivity|].
    cbn [addObject objects objectKey]. split; [apply get_put_eq|].
    split; [apply availableBefore_put|]. by split_and!.
Qed.

Lemma moderia_listing_available (args : ListAvailableServicesArgs) (ext : Ext)
    (st : State) (l : list ServiceListing) :
  listAvailableServices args ext st = AvailableServices l ->
  forall x, In x l ->
    status x = ServiceStatus.AVAILABLE /\
    exists k, In (k, x) (contents (servicesBucket st)).
Proof.
  unfold listAvailableServices.
  destruct (negb _); [done|].
  destruct (servicesBucket st) as [b|]; [|done].
  destruct (queryThrows ext); [done|].
  destruct (sliceTo _ _) as [|y l'] eqn:Hs; [done|].
  intros [= <-] x Hx. rewrite <- Hs in Hx.
  apply sliceTo_sub, List.filter_In in Hx as [Hin Hm]. split.
  - unfold listed in Hm. apply andb_true_iff in Hm as [_ Hm].
    by apply bool_decide_eq_true_1 in Hm.
  - simpl. apply List.in_map_iff in Hin as ([k y'] & <- & Hin). by exists k.
Qed.

Lemma firstMatch_In {A : Type} (test : string -> A -> bool)
    (objs : list (string * A)) (a : A) :
  firstMatch test objs = Some a -> exists k, In (k, a) objs.
Proof.
  induction objs as [|[k v] objs IH]; simpl; [done|].
  destruct (test k v).
  - intros [= ->]. exists k. by left.
  - intros H. destruct (IH H) as [k' Hk]. exists k'. by right.
Qed.

End ModeriaListing.

Section ListingAfterBooking.

Lemma put_keys {A : Type} (k : string) (v v0 : A) (l : list (string * A)) :
  get k l = Some v0 -> List.map fst (put k v l) = List.map fst l.
Proof.
  induction l as [|[k' v'] l IH]; simpl; [done|].
  destruct (String.eqb_spec k k') as [->|Hk]; simpl; [done|].
  intros H. by rewrite IH.
Qed.

(** marketplace provider: after a successful booking, every service that a
    listing shows is stored under another key than the booked one. *)
Lemma market_booked_not_listed (toLowerCase : string -> string)
    (args : Marketplace.BookServiceArgs)
    (ext ext2 : Marketplace.Ext) (st st' : Marketplace.State)
    (bid link : string) (largs : Marketplace.ListServicesArgs) (f : string)
    (l : list Marketplace.Service) :
  Marketplace.bookService args ext st = (Marketplace.ServiceBooked bid link, st') ->
  List.NoDup (List.map fst (Marketplace.services (Marketplace.bucket st))) ->
  Marketplace.listServices toLowerCase largs ext2 st'
    = Marketplace.AvailableServices f l ->
  forall x, In x l ->
    exists k, k <> Marketplace.argServiceId args /\
              In (k, Parsed x) (Marketplace.services (Marketplace.bucket st')).
Proof.
  intros Hb Hnd Hl x Hx.
  destruct (market_booking_order _ _ _ _ _ _ Hb)
    as (service & b & s' & Hg & _ & _ & Hbk & _ & _ & Hs' & _).
  destruct (market_listing_excludes _ _ _ _ _ _ Hl x Hx) as [Ha [k [Hk _]]].
  exists k. split; [|done]. intros ->.
  rewrite Hbk in Hk. simpl in Hk.
  apply In_get_NoDup in Hk.
  - rewrite get_put_eq in Hk. injection Hk as ->. by rewrite Hs' in Ha.
  - by rewrite (put_keys _ _ _ _ Hg).
Qed.

(** moderia provider: after a successful booking, in a services bucket
    whose keys are distinct and whose listings are stored under their own
    object keys, every listing that a listing call shows is stored under
    another key than the booked one. *)
Lemma moderia_booked_not_listed (args : Moderia.BookServiceArgs)
    (ext ext2 : Moderia.Ext) (st st' : Moderia.State) (sid bid : string)
    (largs : Moderia.ListAvailableServicesArgs)
    (l : list Moderia.ServiceListing) :
  Moderia.bookService args ext st = (Moderia.Booked sid bid, st') ->
  List.NoDup (List.map fst (Moderia.contents (Moderia.servicesBucket st))) ->
  (forall k s, In (k, s) (Moderia.contents (Moderia.servicesBucket st)) ->
               Moderia.objectKey s = k) ->
  Moderia.listAvailableServices largs ext2 st' = Moderia.AvailableServices l ->
  exists sb listing booked,
    Moderia.servicesBucket st = Some sb /\
    firstMatchListing args sb = Some listing /\
    get (Moderia.objectKey listing)
        (Moderia.contents (Moderia.servicesBucket st')) = Some booked /\
    Moderia.status booked = Moderia.ServiceStatus.BOOKED /\
    Moderia.id booked = Moderia.id listing /\
    forall x, In x l ->
      Moderia.status x = Moderia.ServiceStatus.AVAILABLE /\
      exists k, k <> Moderia.objectKey listing /\
                In (k, x) (Moderia.contents (Moderia.servicesBucket st')).
Proof.
  intros Hb Hnd Hown Hl.
  destruct (moderia_booking_order _ _ _ _ _ _ Hb)
    as (sb & bb & listing & booking & listing' & mid & Hsb & Hf & _ & _ & _
        & Hmid & -> & _ & _ & Hst & Hid).
  rewrite Hsb in Hnd, Hown. simpl in Hnd, Hown.
  destruct (firstMatch_In _ _ _ Hf) as [k0 Hk0].
  assert (get (Moderia.objectKey listing) (Moderia.objects sb) = Some listing)
    as Hg.
  { apply In_get_NoDup; [done|]. by rewrite (Hown _ _ Hk0). }
  exists sb, listing, listing'. split; [done|]. split; [done|].
  cbn [Moderia.addService Moderia.logPut Moderia.setServices
       Moderia.servicesBucket Moderia.contents Moderia.addObject
       Moderia.objects].
  split; [apply get_put_eq|]. split; [done|]. split; [done|].
  intros x Hx.
  destruct (moderia_listing_available _ _ _ _ Hl x Hx) as [Ha [k Hk]].
  split; [done|]. exists k. split; [|done]. intros ->.
  cbn [Moderia.addService Moderia.logPut Moderia.setServices
       Moderia.servicesBucket Moderia.contents Moderia.addObject
       Moderia.objects] in Hk.
  apply In_get_NoDup in Hk.
  - rewrite get_put_eq in Hk. injection Hk as ->. by rewrite Hst in Ha.
  - by rewrite (put_keys _ _ _ _ Hg).
Qed.

End ListingAfterBooking.

(** C9 (amended). marketplace provider: [createService] stores the service
    with the caller's fields; an unfiltered [listServices] shows every
    service that is stored with status AVAILABLE, fields unchanged, when
    the query answers the [get] of that object (an object whose [get]
    throws inside the query is skipped without an error), so it shows the
    created service as long as it is still AVAILABLE; once the service is
    booked no listing shows it. moderia provider: [createServiceListing]
    stores the listing with the caller's fields;
    [listAvailableServices] cuts its result with [slice(0, limit)]
    (10 by default, a fraction is dropped), so an unfiltered call shows a
    stored listing that is still AVAILABLE when fewer than [limit] available
    listings come before it in the bucket, which holds right after the
    creation when fewer than [limit] available listings were stored before;
    every listing shown is stored with status AVAILABLE; once the listing
    is booked no listing call shows it. *)
Theorem created_service_listed_until_booked :
  (forall (toLowerCase : string -> string)
          (args : Marketplace.CreateServiceArgs) (ext ext2 : Marketplace.Ext)
          (st st' : Marketplace.State) (sid : string),
     Marketplace.createService args ext st
       = (Marketplace.ServiceCreated sid, st') ->
     Marketplace.queryThrows ext2 = false ->
     Marketplace.queryGet ext2 sid = Fetched ->
     exists l s,
       get sid (Marketplace.services (Marketplace.bucket st')) = Some (Parsed s) /\
       Marketplace.listServices toLowerCase {| Marketplace.argFilter := None |}
                                ext2 st'
         = Marketplace.AvailableServices "" l /\
       In s l /\
       Marketplace.id s = sid /\
       Marketplace.status s = Marketplace.SERVICE_STATUS.AVAILABLE /\
       Marketplace.provider s = Marketplace.argProvider args /\
       Marketplace.title s = Marketplace.argTitle args /\
       Marketplace.description s = Marketplace.argDescription args /\
       Marketplace.date s = Marketplace.argDate args /\
       Marketplace.startTime s = Marketplace.argStartTime args /\
       Marketplace.endTime s = Marketplace.argEndTime args /\
       Marketplace.timeZone s = Marketplace.argTimeZone args /\
       Marketplace.price s = Marketplace.argPrice args) /\
  (forall (toLowerCase : string -> string)
          (st : Marketplace.State) (ext : Marketplace.Ext) (key : string)
          (s : Marketplace.Service),
     Marketplace.initialized st = true ->
     Marketplace.queryThrows ext = false ->
     Marketplace.queryGet ext key = Fetched ->
     get key (Marketplace.services (Marketplace.bucket st)) = Some (Parsed s) ->
     Marketplace.status s = Marketplace.SERVICE_STATUS.AVAILABLE ->
     exists l,
       Marketplace.listServices toLowerCase {| Marketplace.argFilter := None |}
                                ext st
         = Marketplace.AvailableServices "" l /\ In s l) /\
  (forall (toLowerCase : string -> string)
          (args : Marketplace.BookServiceArgs) (ext ext2 : Marketplace.Ext)
          (st st' : Marketplace.State) (bid link : string)
          (largs : Marketplace.ListServicesArgs) (f : string)
          (l : list Marketplace.Service),
     Marketplace.bookService args ext st
       = (Marketplace.ServiceBooked bid link, st') ->
     List.NoDup (List.map fst (Marketplace.services (Marketplace.bucket st))) ->
     Marketplace.listServices toLowerCase largs ext2 st'
       = Marketplace.AvailableServices f l ->
     forall x, In x l ->
       Marketplace.status x = Marketplace.SERVICE_STATUS.AVAILABLE /\
       exists k, k <> Marketplace.argServiceId args /\
                 In (k, Parsed x) (Marketplace.services (Marketplace.bucket st'))) /\
  (forall (args : Moderia.CreateServiceListingArgs) (ext ext2 : Moderia.Ext)
          (st st' : Moderia.State) (sid : string) (n : JsNumber),
     Moderia.createServiceListing args ext st = (Moderia.ListingCreated sid, st') ->
     exists s,
       get ("service_" ++ sid ++ ".json")
           (Moderia.contents (Moderia.servicesBucket st')) = Some s /\
       Moderia.id s = sid /\
       Moderia.status s = Moderia.ServiceStatus.AVAILABLE /\
       Moderia.serviceType s = Moderia.argServiceType args /\
       Moderia.providerName s = Moderia.argProviderName args /\
       Moderia.startTime s = Moderia.argStartTime args /\
       Moderia.endTime s = Moderia.argEndTime args /\
       Moderia.price s = Moderia.argPrice args /\
       Moderia.walletAddress s = Moderia.argWalletAddress args /\
       Moderia.meetingLink s = Moderia.argMeetingLink args /\
       Moderia.description s = Moderia.argDescription args /\
       (Moderia.student st <> None ->
        Moderia.queryThrows ext2 = None ->
        withinLimit n
          (length (List.filter (Moderia.listed (unfilteredTo n))
                     (List.map snd (Moderia.contents
                                      (Moderia.servicesBucket st))))) = true ->
        exists l,
          Moderia.listAvailableServices (unfilteredTo n) ext2 st'
            = Moderia.AvailableServices l /\ In s l)) /\
  (forall (n : JsNumber) (ext : Moderia.Ext) (st : Moderia.State)
          (b : Moderia.Bucket Moderia.ServiceListing) (key : string)
          (s : Moderia.ServiceListing),
     Moderia.student st <> None ->
     Moderia.servicesBucket st = Some b ->
     Moderia.queryThrows ext = None ->
     get key (Moderia.objects b) = Some s ->
     Moderia.status s = Moderia.ServiceStatus.AVAILABLE ->
     withinLimit n (availableBefore key (Moderia.objects b)) = true ->
     exists l,
       Moderia.listAvailableServices (unfilteredTo n) ext st
         = Moderia.AvailableServices l /\ In s l) /\
  (forall (args : Moderia.BookServiceArgs) (ext ext2 : Moderia.Ext)
          (st st' : Moderia.State) (sid bid : string)
          (largs : Moderia.ListAvailableServicesArgs)
          (l : list Moderia.ServiceListing),
     Moderia.bookService args ext st = (Moderia.Booked sid bid, st') ->
     List.NoDup (List.map fst (Moderia.contents (Moderia.servicesBucket st))) ->
     (forall k s, In (k, s) (Moderia.contents (Moderia.servicesBucket st)) ->
                  Moderia.objectKey s = k) ->
     Moderia.listAvailableServices largs ext2 st' = Moderia.AvailableServices l ->
     exists sb listing booked,
       Moderia.servicesBucket st = Some sb /\
       firstMatchListing args sb = Some listing /\
       get (Moderia.objectKey listing)
           (Moderia.contents (Moderia.servicesBucket st')) = Some booked /\
       Moderia.status booked = Moderia.ServiceStatus.BOOKED /\
       Moderia.id booked = Moderia.id listing /\
       forall x, In x l ->
         Moderia.status x = Moderia.ServiceStatus.AVAILABLE /\
         exists k, k <> Moderia.objectKey listing /\
                   In (k, x) (Moderia.contents (Moderia.servicesBucket st'))) /\
  (forall (args : Moderia.ListAvailableServicesArgs) (ext : Moderia.Ext)
          (st : Moderia.State) (l : list Moderia.ServiceListing),
     Moderia.listAvailableServices args ext st = Moderia.AvailableServices l ->
     (forall q, Moderia.limit args = Finite q -> (0 <= truncate q)%Z ->
                (Z.of_nat (length l) <= truncate q)%Z) /\
     forall x, In x l ->
       Moderia.status x = Moderia.ServiceStatus.AVAILABLE /\
       exists k, In (k, x) (Moderia.contents (Moderia.servicesBucket st))).
Proof.
  split_and!.
  - intros lower args ext ext2 st st' sid Hc Hq Hf.
    unfold Marketplace.createService, Marketplace._storeObject,
      Marketplace._isInitialized in Hc.
    destruct (Marketplace.initialized st) eqn:Hi; simpl in Hc; [|done].
    destruct (Marketplace.addOutcome ext 0); simpl in Hc; [|done].
    injection Hc as <- <-.
    match goal with
    | |- context [Marketplace.listServices _ _ _ ?S] =>
      destruct (market_listing_includes lower S ext2 _ _ eq_refl Hq Hf
                  (get_put_eq _ _ _) eq_refl) as (l & Hl & Hin)
    end.
    exists l. eexists. split; [apply get_put_eq|]. split; [exact Hl|].
    split; [exact Hin|]. split_and!; reflexivity.
  - intros lower st ext key s. apply market_listing_includes.
  - intros lower args ext ext2 st st' bid link largs f l Hb Hnd Hl x Hx. split.
    + by destruct (market_listing_excludes _ _ _ _ _ _ Hl x Hx).
    + by apply (market_booked_not_listed lower args ext ext2 st st' bid link
                  largs f l).
  - intros args ext ext2 st st' sid n Hc.
    destruct (moderia_listing_stored args ext st st' sid n Hc)
      as (b & s & Hsb & Hstu & Hg & Hle & H1 & H2 & H3 & H4 & H5 & H6 & H7 & H8
          & H9 & H10 & _).
    exists s. rewrite Hsb. split; [exact Hg|]. split_and!; try assumption.
    intros Hs Hq Hn.
    apply (moderia_listing_shows n ext2 st' b ("service_" ++ sid ++ ".json") s);
      try assumption.
    + by rewrite Hstu.
    + by apply (withinLimit_le n _ _ Hle).
  - apply moderia_listing_shows.
  - apply moderia_booked_not_listed.
  - intros args ext st l Hl. split.
    + unfold Moderia.listAvailableServices in Hl.
      destruct (negb _); [done|].
      destruct (Moderia.servicesBucket st) as [b|]; [|done].
      destruct (Moderia.queryThrows ext); [done|].
      destruct (sliceTo _ _) as [|y l'] eqn:Hs; [done|].
      injection Hl as <-. rewrite <- Hs. intros q -> Hlim. simpl.
      unfold slice0.
      destruct (Z.ltb_spec (truncate q) 0); rewrite length_take; lia.
    + by apply (moderia_listing_available args ext).
Qed.

Lemma created_service_listed_until_booked_witness :
  (exists l s,
     Marketplace.listServices asciiToLowerCase
       {| Marketplace.argFilter := None |}
       (calmExt "1700000000001" "8" "t1") marketListed
       = Marketplace.AvailableServices "" l /\
     In s l /\
     Marketplace.id s = "service_1700000000000_7" /\
     Marketplace.price s = "50") /\
  (exists l booked,
     Moderia.listAvailableServices (unfiltered 10)
       (quietExt "1700000000004" "abcd") firstOfTwoBooked
       = Moderia.AvailableServices l /\
     get "service_service_1700000000001_abcd.json"
         (Moderia.contents (Moderia.servicesBucket firstOfTwoBooked))
       = Some booked /\
     Moderia.status booked = Moderia.ServiceStatus.BOOKED /\
     forall x, In x l ->
       exists k, k <> "service_service_1700000000001_abcd.json" /\
                 In (k, x) (Moderia.contents
                              (Moderia.servicesBucket firstOfTwoBooked))).
Proof.
  destruct created_service_listed_until_booked
    as (H & _ & _ & _ & _ & Hm & _).
  split.
  - destruct (H asciiToLowerCase demoServiceArgs
                (calmExt "1700000000000" "7" "t0")
                (calmExt "1700000000001" "8" "t1") marketStart marketListed
                "service_1700000000000_7" eq_refl eq_refl eq_refl)
      as (l & s & _ & H1 & H2 & H3 & _ & _ & _ & _ & _ & _ & _ & _ & H4).
    exists l, s. split_and!; assumption.
  - assert (exists l,
               Moderia.listAvailableServices (unfiltered 10)
                 (quietExt "1700000000004" "abcd") firstOfTwoBooked
               = Moderia.AvailableServices l) as [l Hl].
    { eexists. vm_compute. reflexivity. }
    destruct (Hm {| Moderia.argServiceId := "service_1700000000001_abcd";
                    Moderia.argClientName := "Pedro";
                    Moderia.argClientEmail := None;
                    Moderia.argSpecialRequests := None |}
                (quietExt "1700000000003" "abcd")
                (quietExt "1700000000004" "abcd") twoListed firstOfTwoBooked
                "service_1700000000001_abcd" "booking_1700000000003_abcd"
                (unfiltered 10) l)
      as (sb & listing & booked & Hsb & Hf & Hg & Hst & _ & Hx).
    + vm_compute. reflexivity.
    + vm_compute. constructor.
      * intros [E|[]]. discriminate E.
      * constructor; [intros []|constructor].
    + intros k s. vm_compute. intros [E|[E|[]]]; by injection E as <- <-.
    + exact Hl.
    + injection Hsb as <-. injection Hf as <-.
      exists l, booked. split; [exact Hl|]. split; [exact Hg|].
      split; [exact Hst|]. intros x Hin.
      destruct (Hx x Hin) as [_ Hk]. exact Hk.
Defined.

(** C9, as stated, fails in the moderia provider: with ten available
    listings stored, an eleventh is created and stored as AVAILABLE, and
    the unfiltered listing issued right afterwards (limit 10, the default)
    shows ten listings, none of which is the new one. *)
Lemma eleventh_listing_counterexample :
  let '(reply, st) :=
    Moderia.createServiceListing lessonArgs (quietExt "1700000000011" "abcd")
                                 tenListed in
  reply = Moderia.ListingCreated "service_1700000000011_abcd" /\
  (exists s,
     get "service_service_1700000000011_abcd.json"
         (Moderia.contents (Moderia.servicesBucket st)) = Some s /\
     Moderia.id s = "service_1700000000011_abcd" /\
     Moderia.status s = Moderia.ServiceStatus.AVAILABLE) /\
  exists l,
    Moderia.listAvailableServices (unfiltered 10)
      (quietExt "1700000000012" "abcd") st = Moderia.AvailableServices l /\
    length l = 10%nat /\
    forallb (fun s => negb (String.eqb (Moderia.id s)
                                       "service_1700000000011_abcd")) l = true.
Proof.
  vm_compute. split; [reflexivity|]. split.
  - eexists. split_and!; reflexivity.
  - eexists. split_and!; reflexivity.
Qed.

(** ** Quality analysis and release of funds *)

Section QualityFacts.

Import Moderia.

(** C10. For every meeting that has a stored transcript,
    [analyzeServiceQuality] answers with the score 92 and the
    recommendation to authorize payment, records the score 92 on the
    meeting and stores the analysis text, which depends on the meeting id
    only: two runs on any two meetings, transcripts and bookings report the
    same score, and for the same meeting id they store the same text. *)
Theorem analysis_score_is_fixed (args : AnalyzeServiceQualityArgs) (st : State)
    (meeting : Meeting) (transcript : string) :
  meetingFiles st !! aqMeetingId args = Some meeting ->
  transcriptFiles st !! aqMeetingId args = Some transcript ->
  (exists st' meeting',
     analyzeServiceQuality args st
       = (QualityAnalysis (aqMeetingId args) 92 recommendation, st') /\
     meetingFiles st' !! aqMeetingId args = Some meeting' /\
     qualityScore meeting' = Some 92%Z /\
     hasAnalysis meeting' = true /\
     mBookingId meeting' = aqBookingId args /\
     analysisFiles st' !! aqMeetingId args
       = Some (analysisText (aqMeetingId args) 92)) /\
  includes recommendation "payment should be authorized" = true /\
  (forall (args2 : AnalyzeServiceQualityArgs) (st2 : State) (meeting2 : Meeting)
          (transcript2 : string),
     meetingFiles st2 !! aqMeetingId args2 = Some meeting2 ->
     transcriptFiles st2 !! aqMeetingId args2 = Some transcript2 ->
     replyScore (analyzeServiceQuality args st).1 = Some 92%Z /\
     replyScore (analyzeServiceQuality args2 st2).1
       = replyScore (analyzeServiceQuality args st).1 /\
     (aqMeetingId args2 = aqMeetingId args ->
      (analyzeServiceQuality args2 st2).1 = (analyzeServiceQuality args st).1 /\
      analysisFiles (analyzeServiceQuality args2 st2).2 !! aqMeetingId args
        = analysisFiles (analyzeServiceQuality args st).2 !! aqMeetingId args)).
Proof.
  intros Hm Ht. split_and!.
  - unfold analyzeServiceQuality. rewrite Hm, Ht.
    do 2 eexists. split; [reflexivity|]. simpl.
    rewrite !lookup_insert_eq. split_and!; reflexivity.
  - vm_compute. reflexivity.
  - intros args2 st2 meeting2 transcript2 Hm2 Ht2.
    unfold analyzeServiceQuality. rewrite Hm, Ht, Hm2, Ht2. simpl.
    split_and!; try reflexivity.
    intros ->. rewrite !lookup_insert_eq. by split.
Qed.

End QualityFacts.

Lemma analysis_score_is_fixed_witness :
  Moderia.replyScore
    (Moderia.analyzeServiceQuality sampleAnalysisArgs
       (withTranscript "Teacher: Bonjour!")).1 = Some 92%Z /\
  Moderia.replyScore
    (Moderia.analyzeServiceQuality sampleAnalysisArgs
       (withTranscript "The teacher never joined the call.")).1
  = Moderia.replyScore
      (Moderia.analyzeServiceQuality sampleAnalysisArgs
         (withTranscript "Teacher: Bonjour!")).1.
Proof.
  destruct (analysis_score_is_fixed sampleAnalysisArgs
              (withTranscript "Teacher: Bonjour!") sampleMeeting
              "Teacher: Bonjour!" eq_refl eq_refl) as (_ & _ & H).
  destruct (H sampleAnalysisArgs
              (withTranscript "The teacher never joined the call.")
              sampleMeeting "The teacher never joined the call."
              eq_refl eq_refl) as (H1 & H2 & _).
  split; assumption.
Defined.

Section ReleaseFacts.

Import Moderia.

Variable parseUnits : string -> nat -> Outcome Z.


(** With both wallets set, a pending local escrow record and an accepted
    transfer, the agent wallet pays the provider, whatever happens to the
    bucket writes that follow. *)
Lemma releaseFunds_pays (args : ReleaseFundsArgs) (ext : Ext) (st : State)
    (e : EscrowTransaction) (units : Z) (hash : string) :
  agent st <> None -> teacher st <> None ->
  transactionFiles st !! rfEscrowId args = Some e ->
  eStatus e = EscrowStatus.PENDING ->
  parseUnits (orElse (rfAmount args) (amount e)) USDC_DECIMALS = Returned units ->
  writeContract ext = Returned hash ->
  chain (releaseFunds parseUnits args ext st).2 =
    (chain st ++ [mkContractCall USDC_TOKEN_ADDRESS AgentWallet
                                 (providerAddress e) units])%list.
Proof.
  intros Ha Ht Hf Hp Hu Hw. unfold releaseFunds, loadEscrow.
  destruct (agent st); [|done]. destruct (teacher st); [|done].
  rewrite Hf. rewrite bool_decide_eq_true_2 by done. simpl.
  rewrite Hu, Hw. simpl.
  repeat (case_match; simpl; try reflexivity).
Qed.

End ReleaseFacts.

Section OtterFacts.

Import Otter.


(** The verdict that [analyzeCallQuality] records is the comparison of the
    recorded score with the threshold: the caller's override, or 7. *)
Lemma analyzeCallQuality_verdict (args : AnalyzeCallQualityArgs) (ext : Ext)
    (st st' : State) (a : AnalysisResult) (threshold : Q) :
  analyzeCallQuality args ext st = (CallAnalysis a threshold, st') ->
  analyses st' !! acMeetingId args = Some a /\
  qualityPassed a = Qle_bool threshold (qualityScore a) /\
  threshold = (if truthyQ (qualityThresholdOverride args)
               then default 0%Q (qualityThresholdOverride args)
               else QUALITY_THRESHOLDS.MIN_QUALITY_SCORE).
Proof.
  unfold analyzeCallQuality.
  destruct (String.eqb _ _); [done|].
  destruct (meetings st !! _) as [meeting|]; [|done].
  match goal with
  | |- context [match ?f with inl _ => _ | inr _ => _ end] =>
    destruct f as [answer|st1] eqn:Hf
  end.
  { intros ->. repeat case_match; simplify_eq. }
  destruct (analyses st1 !! _) as [a0|] eqn:Ha.
  - intros [= <- <- <-]. simpl. by rewrite lookup_insert_eq.
  - destruct (meetings _ !! _);
      intros [= <- <- <-]; simpl; by rewrite lookup_insert_eq.
Qed.

End OtterFacts.





(** moderia provider: [releaseFunds] reads the escrow record from the local
    file and writes the RELEASED record to the bucket only, so a second
    call finds the local record PENDING again and pays the provider a second
    time. *)
Lemma moderia_release_repeats :
  let again := Moderia.releaseFunds Escrow.wholeUnits flowReleaseArgs
                 (quietExt "1700000000005" "abcd") flowReleased.2 in
  again.1 = Moderia.FundsReleased "escrow_1700000000003_abcd" "50" "0xteacher"
                                  "0xtx1700000000005" /\
  List.map callRecipient (Moderia.chain again.2)
    = ["0xagent"; "0xteacher"; "0xteacher"].
Proof. vm_compute. split; reflexivity. Qed.

(** ** Escrow: creation, direct transfers and the transaction listing *)

Section EscrowLifecycle.

Import Escrow.

Variable parseUnits : string -> nat -> Outcome Z.

(** X1. A created escrow can be read back: when the funding goes through,
    [createEscrow] answers with the new id and status pending, and
    [getEscrowDetails] then returns under that id a record that is PENDING
    and carries the caller's addresses, token, amount and service id, with
    the funding hash and no release hash; every other file is untouched. *)
Theorem createEscrow_then_details cfg (args : CreateEscrowInput)
    (ext : CreateExt) (st : State) :
  (demoMode cfg = true -> createDirExists ext = true) ->
  (demoMode cfg = false ->
   keysPresent cfg = true /\ balanceBelowAmount ext = false /\
   exists units h,
     parseUnits (newAmount args) USDC_DECIMALS = Returned units /\
     fundingContract ext = Returned h) ->
  let newId := "escrow_" ++ createTimeMs ext ++ "_" ++ createRandomHex ext in
  exists msg h e st',
    createEscrow parseUnits cfg args ext st = (Success msg newId h PENDING, st') /\
    getEscrowDetails_data cfg st' newId = Some (EscrowFile e) /\
    id e = newId /\ status e = PENDING /\
    amount e = newAmount args /\ serviceId e = newServiceId args /\
    clientAddress e = newClientAddress args /\
    agentAddress e = newAgentAddress args /\
    providerAddress e = newProviderAddress args /\
    tokenAddress e = newTokenAddress args /\
    metadata e = newMetadata args /\
    clientTxHash e = Some h /\ releaseTxHash e = None /\
    (forall k, k <> newId -> files st' !! k = files st !! k).
Proof.
  intros Hdemo Hlive newId.
  unfold createEscrow, getEscrowDetails_data, getTransaction, initClients.
  destruct (demoMode cfg) eqn:Hd; simpl.
  - rewrite Hdemo by done. simpl.
    do 4 eexists. split; [reflexivity|]. simpl. rewrite lookup_insert_eq.
    split_and!; try reflexivity.
    intros k Hk. by rewrite lookup_insert_ne.
  - destruct (Hlive eq_refl) as (Hk & Hb & units & h & Hu & Hw).
    rewrite Hk, Hb, Hu, Hw. simpl.
    do 4 eexists. split; [reflexivity|]. simpl. rewrite lookup_insert_eq.
    split_and!; try reflexivity.
    intros k Hne. by rewrite lookup_insert_ne.
Qed.


(** X3. What is escrowed is what is released or refunded: outside demo
    mode, after a successful [createEscrow] a successful release or refund
    of the new escrow moves, from the agent wallet, exactly the base units
    that the client paid in: to the provider address for a release, back to
    the client address for a refund. The record then holds the terminal
    status. *)
Theorem createEscrow_then_settle cfg (args : CreateEscrowInput)
    (ext : CreateExt) (st : State) (c : Call) (units : Z) (h h2 : string) :
  demoMode cfg = false -> keysPresent cfg = true ->
  balanceBelowAmount ext = false ->
  parseUnits (newAmount args) USDC_DECIMALS = Returned units ->
  fundingContract ext = Returned h ->
  callTarget c = "escrow_" ++ createTimeMs ext ++ "_" ++ createRandomHex ext ->
  writeContract (extOf c) = Returned h2 ->
  let st1 := (createEscrow parseUnits cfg args ext st).2 in
  isSuccess (step parseUnits cfg c st1).1 = true /\
  chain (step parseUnits cfg c st1).2 =
    (chain st ++
     [mkContractCall (newTokenAddress args) ClientWallet
                     (newAgentAddress args) units;
      mkContractCall (newTokenAddress args) AgentWallet
                     (match c with
                      | CallRelease _ _ => newProviderAddress args
                      | CallRefund _ _ => newClientAddress args
                      end) units])%list /\
  statusOf (step parseUnits cfg c st1).2 (callTarget c) = Some (outcomeStatus c).
Proof.
  intros Hd Hk Hb Hu Hw Hc Hw2 st1. subst st1.
  unfold createEscrow, initClients. rewrite Hd, Hk, Hb, Hu, Hw. simpl.
  destruct c as [a x|a x]; simpl in *;
    unfold releaseEscrow, refundEscrow, getEscrowDetails_data, getTransaction,
      initClients, agentTransfer, statusOf, storeTransaction;
    rewrite Hd, Hk; simpl; rewrite Hc, lookup_insert_eq; simpl;
    rewrite Hu, Hw2; simpl; rewrite lookup_insert_eq; simpl;
    rewrite <- app_assoc; done.
Qed.

End EscrowLifecycle.

Section EscrowTransfers.

Import Escrow.

Variable parseUnits : string -> nat -> Outcome Z.


(** X5. Outside demo mode a successful [transferTokens] submits exactly one
    transfer, signed by the wallet whose account is the sender address, to
    the recipient and of the parsed amount, and stores a transfer record
    under a new id. That record is not an escrow: a later release or refund
    aimed at its id fails and changes nothing. *)
Theorem transferTokens_moves_once cfg (live : Accounts)
    (args : TransferTokensInput) (ext : TransferExt) (st : State)
    (wallet : Wallet) (balance amount : Z) (h : string) :
  demoMode cfg = false -> keysPresent cfg = true ->
  managedWallet cfg live (sendFrom args) = Some wallet ->
  senderBalance ext = Returned balance ->
  parseUnits (sendAmount args) USDC_DECIMALS = Returned amount ->
  (amount <= balance)%Z ->
  sendContract ext = Returned h ->
  let newId := "transfer_" ++ sendTimeMs ext ++ "_" ++ sendRandomHex ext in
  exists msg t st',
    transferTokens parseUnits cfg live args ext st = (Transferred msg h, st') /\
    chain st' =
      (chain st ++ [mkContractCall (sendToken args) wallet (sendTo args) amount])%list /\
    files st' = <[newId := TransferFile t]> (files st) /\
    fromAddress t = sendFrom args /\ toAddress t = sendTo args /\
    transferAmount t = sendAmount args /\ txHash t = h /\
    (forall c, callTarget c = newId ->
       exists m, step parseUnits cfg c st' = (Failure m, st')).
Proof.
  intros Hd Hk Hw Hb Hu Hle Hs newId.
  unfold transferTokens, initClients. rewrite Hd, Hk, Hw. simpl.
  rewrite Hb, Hu, (proj2 (Z.ltb_ge _ _) Hle), Hs. simpl.
  do 3 eexists. split; [reflexivity|]. simpl.
  split_and!; try reflexivity.
  intros c Hc. apply step_not_pending.
  unfold statusOf. simpl. rewrite Hc. fold newId.
  by rewrite lookup_insert_eq.
Qed.

Lemma In_queryTransactions (st : State) (tx : Stored) :
  In tx (queryTransactions st) <-> exists k, files st !! k = Some tx.
Proof.
  unfold queryTransactions.
  rewrite <- list_elem_of_In, list_elem_of_fmap. split.
  - intros [[k v] [-> Hin]]. exists k. by apply elem_of_map_to_list.
  - intros [k Hk]. exists (k, tx). split; [done|].
    by apply elem_of_map_to_list.
Qed.

Lemma In_filterBy (want : option string) (f : EscrowTransaction -> string)
    (l : list Stored) (tx : Stored) :
  In tx (filterBy want f l) <->
  In tx l /\ (truthy want = true -> storedField f tx = want).
Proof.
  unfold filterBy. destruct (truthy want).
  - rewrite List.filter_In, bool_decide_eq_true. split.
    + intros [H1 H2]. split; [done|by intros _].
    + intros [H1 H2]. split; [done|by apply H2].
  - split; [intros H1; by split|by intros [H1 _]].
Qed.

Lemma In_filterByStatus (want : option EscrowStatus) (l : list Stored)
    (tx : Stored) :
  In tx (filterByStatus want l) <->
  In tx l /\ (forall s, want = Some s -> storedStatus tx = Some s).
Proof.
  unfold filterByStatus. destruct want as [s|].
  - rewrite List.filter_In, bool_decide_eq_true. split.
    + intros [H1 H2]. split; [done|]. by intros s' [= <-].
    + intros [H1 H2]. split; [done|by apply H2].
  - split; [intros H1; by split|by intros [H1 _]].
Qed.

(** X6. [getAllEscrowTransactions] answers with exactly the stored files
    that pass every filter the caller gave (an absent or empty filter is
    ignored), and its count is the number of files it returns. The files
    include the records of direct transfers, which have no status, service
    or party fields: they are listed only when no filter is given. *)
Theorem getAllEscrowTransactions_filters cfg
    (args : GetAllEscrowTransactionsInput) (dirExists : bool) (st : State)
    (count : nat) (data : list Stored) :
  getAllEscrowTransactions cfg args dirExists st = Transactions count data ->
  count = length data /\
  (forall tx, In tx data <->
     (exists k, files st !! k = Some tx) /\
     (forall s, wantStatus args = Some s -> storedStatus tx = Some s) /\
     (truthy (wantServiceId args) = true ->
      storedField serviceId tx = wantServiceId args) /\
     (truthy (wantClientAddress args) = true ->
      storedField clientAddress tx = wantClientAddress args) /\
     (truthy (wantProviderAddress args) = true ->
      storedField providerAddress tx = wantProviderAddress args)) /\
  (forall t, In (TransferFile t) data <->
     (exists k, files st !! k = Some (TransferFile t)) /\
     wantStatus args = None /\
     truthy (wantServiceId args) = false /\
     truthy (wantClientAddress args) = false /\
     truthy (wantProviderAddress args) = false).
Proof.
  unfold getAllEscrowTransactions.
  destruct (initClients cfg); [|done].
  destruct (demoMode cfg && negb dirExists); [done|].
  destruct (queryTransactions st) as [|x l] eqn:Hq; [done|].
  intros [= <- <-]. split; [done|].
  assert (forall tx, In tx (filterBy (wantProviderAddress args) providerAddress
            (filterBy (wantClientAddress args) clientAddress
               (filterBy (wantServiceId args) serviceId
                  (filterByStatus (wantStatus args) (x :: l))))) <->
     (exists k, files st !! k = Some tx) /\
     (forall s, wantStatus args = Some s -> storedStatus tx = Some s) /\
     (truthy (wantServiceId args) = true ->
      storedField serviceId tx = wantServiceId args) /\
     (truthy (wantClientAddress args) = true ->
      storedField clientAddress tx = wantClientAddress args) /\
     (truthy (wantProviderAddress args) = true ->
      storedField providerAddress tx = wantProviderAddress args)) as Hall.
  { intros tx. rewrite !In_filterBy, In_filterByStatus, <- Hq,
      In_queryTransactions. tauto. }
  split; [exact Hall|].
  intros t. rewrite Hall. simpl. split.
  - intros (Hk & Hs & H1 & H2 & H3). split; [done|].
    split_and!.
    + destruct (wantStatus args) as [s|]; [|done]. by specialize (Hs s eq_refl).
    + destruct (truthy (wantServiceId args)) eqn:E; [|done].
      specialize (H1 eq_refl). destruct (wantServiceId args); done.
    + destruct (truthy (wantClientAddress args)) eqn:E; [|done].
      specialize (H2 eq_refl). destruct (wantClientAddress args); done.
    + destruct (truthy (wantProviderAddress args)) eqn:E; [|done].
      specialize (H3 eq_refl). destruct (wantProviderAddress args); done.
  - intros (Hk & Hs & H1 & H2 & H3). rewrite Hs, H1, H2, H3.
    split_and!; done.
Qed.

End EscrowTransfers.

(** ** Marketplace: reading back, partial failure and dispute records *)

Section MarketplaceMore.

Import Marketplace.

(** X7. A booking whose second write fails leaves a confirmed booking next
    to a service that still says AVAILABLE, so the same service can be
    booked again: after [bookService] answered "Booking created, but failed
    to update service status", a second [bookService] for that service
    succeeds and two CONFIRMED bookings refer to the one service. *)
Theorem partial_booking_allows_second (args args2 : BookServiceArgs)
    (ext ext2 : Ext) (st : State) (service : Service) (m : string) :
  initialized st = true ->
  getThrows ext 0 = false ->
  get (argServiceId args) (services (bucket st)) = Some (Parsed service) ->
  status service = SERVICE_STATUS.AVAILABLE ->
  (exists h, addOutcome ext 0 = Returned h) ->
  addOutcome ext 1 = Thrown m ->
  argServiceId args2 = argServiceId args ->
  getThrows ext2 0 = false ->
  (exists h, addOutcome ext2 0 = Returned h) ->
  (exists h, addOutcome ext2 1 = Returned h) ->
  let first := "booking_" ++ timeMs ext ++ "_" ++ random1000 ext in
  let second := "booking_" ++ timeMs ext2 ++ "_" ++ random1000 ext2 in
  first <> second ->
  exists st1 link st2 b1 b2,
    bookService args ext st =
      (BookedButServiceNotUpdated ("Failed to store data: " ++ m), st1) /\
    get (argServiceId args) (services (bucket st1)) = Some (Parsed service) /\
    bookService args2 ext2 st1 = (ServiceBooked second link, st2) /\
    get first (bookings (bucket st2)) = Some (Parsed b1) /\
    get second (bookings (bucket st2)) = Some (Parsed b2) /\
    bServiceId b1 = argServiceId args /\ bServiceId b2 = argServiceId args /\
    bStatus b1 = BOOKING_STATUS.CONFIRMED /\
    bStatus b2 = BOOKING_STATUS.CONFIRMED.
Proof.
  intros Hi Hg Hs Ha [h0 H0] H1 Hid Hg2 [h2 H2] [h3 H3] first second Hne.
  unfold bookService, _getObject, _storeObject, _isInitialized.
  rewrite Hi, Hg. simpl. rewrite Hs, Ha. simpl. rewrite H0. simpl.
  rewrite H1. simpl.
  do 5 eexists. split; [reflexivity|]. simpl. split; [exact Hs|].
  rewrite Hg2, Hid, Hs, Ha. simpl. rewrite H2. simpl. rewrite H3. simpl.
  split; [reflexivity|]. simpl.
  rewrite get_put_ne by (intros E; apply Hne; symmetry; exact E).
  rewrite !get_put_eq. split_and!; reflexivity.
Qed.

Lemma resolveDispute_disputes (args : ResolveDisputeArgs) (ext : Ext) (st : State) :
  disputes (bucket (resolveDispute args ext st).2) = disputes (bucket st) \/
  exists key d d',
    findDispute (rdBookingId args)
                (fetched (queryGet ext) (disputes (bucket st))) = Some (key, d) /\
    dStatus d' = dispute_resolved /\
    disputes (bucket (resolveDispute args ext st).2)
      = put key (Parsed d') (disputes (bucket st)).
Proof.
  unfold resolveDispute, _getObject, _storeObject, _queryObjects, _isInitialized.
  destruct (initialized st) eqn:Hi; simpl; [|by left].
  destruct (getThrows ext 0); [by left|].
  destruct (get _ _) as [[booking|]|]; [|by left..].
  destruct (negb _); [by left|].
  destruct (addOutcome ext 0); simpl; [|by left].
  destruct (queryThrows ext); simpl; [by left|].
  destruct (findDispute _ _) as [[key d]|] eqn:Hf; simpl; [|by left].
  destruct (addOutcome ext 1); simpl; [|by left].
  right. do 3 eexists. split; [reflexivity|]. split; [|reflexivity].
  reflexivity.
Qed.

(** The dispute that the loop of [resolveDispute] picks was fetched with
    its content and is stored under its key. *)
Lemma findDispute_fetched (bookingId : string) (fetch : string -> Fetch)
    (objs : list (string * Content Dispute)) (key : string) (d : Dispute) :
  findDispute bookingId (fetched fetch objs) = Some (key, d) ->
  fetch key = Fetched /\ In (key, Parsed d) objs /\ dBookingId d = bookingId.
Proof.
  induction objs as [|[k c] objs IH]; simpl; [done|].
  destruct (fetch k) eqn:Hk; simpl.
  - destruct c as [x|].
    + destruct (String.eqb_spec (dBookingId x) bookingId) as [He|He].
      * intros [= <- <-]. split; [done|]. split; [by left|done].
      * intros H. destruct (IH H) as (H1 & H2 & H3).
        split; [done|]. split; [by right|done].
    + intros H. destruct (IH H) as (H1 & H2 & H3).
      split; [done|]. split; [by right|done].
  - intros H. destruct (IH H) as (H1 & H2 & H3).
    split; [done|]. split; [by right|done].
  - intros H. destruct (IH H) as (H1 & H2 & H3).
    split; [done|]. split; [by right|done].
Qed.

(** X8. [resolveDispute] rewrites at most the booking and one dispute
    record. The service records stay as they are and every booking under
    another key stays as it is. The one dispute record that may be
    rewritten is the first, among those the query fetched with their
    content, that carries the booking id: every dispute record under
    another key stays as it is, also a second dispute filed against the
    same booking, and so does every record whose [get] inside the query
    throws or gives no content; the record that is rewritten is stored,
    carries the booking id and was fetched. *)
Theorem resolveDispute_frame (args : ResolveDisputeArgs) (ext : Ext) (st : State) :
  services (bucket (resolveDispute args ext st).2) = services (bucket st) /\
  (forall k, k <> rdBookingId args ->
     get k (bookings (bucket (resolveDispute args ext st).2))
       = get k (bookings (bucket st))) /\
  (forall k,
     (forall d, findDispute (rdBookingId args)
                  (fetched (queryGet ext) (disputes (bucket st)))
                  <> Some (k, d)) ->
     get k (disputes (bucket (resolveDispute args ext st).2))
       = get k (disputes (bucket st))) /\
  (forall k, queryGet ext k <> Fetched ->
     get k (disputes (bucket (resolveDispute args ext st).2))
       = get k (disputes (bucket st))) /\
  (forall k,
     get k (disputes (bucket (resolveDispute args ext st).2))
       <> get k (disputes (bucket st)) ->
     exists d, In (k, Parsed d) (disputes (bucket st)) /\
               dBookingId d = rdBookingId args /\
               queryGet ext k = Fetched /\ queryThrows ext = false).
Proof.
  assert (forall k,
     (forall d, findDispute (rdBookingId args)
                  (fetched (queryGet ext) (disputes (bucket st)))
                  <> Some (k, d)) ->
     get k (disputes (bucket (resolveDispute args ext st).2))
       = get k (disputes (bucket st))) as Hframe.
  { intros k Hk.
    destruct (resolveDispute_disputes args ext st)
      as [->|(key & d & d' & Hf & _ & ->)]; [done|].
    apply get_put_ne. intros ->. by apply (Hk d). }
  split_and!.
  - unfold resolveDispute, _getObject, _storeObject, _queryObjects,
      _isInitialized.
    repeat (case_match; simpl in *; simplify_eq; try reflexivity).
  - intros k Hk.
    unfold resolveDispute, _getObject, _storeObject, _queryObjects,
      _isInitialized.
    repeat (case_match; simpl in *; simplify_eq; try reflexivity);
      by rewrite get_put_ne.
  - exact Hframe.
  - intros k Hk. apply Hframe. intros d Hd.
    by destruct (findDispute_fetched _ _ _ _ _ Hd).
  - intros k Hk.
    destruct (findDispute (rdBookingId args)
                (fetched (queryGet ext) (disputes (bucket st))))
      as [[key d]|] eqn:Hf.
    + destruct (findDispute_fetched _ _ _ _ _ Hf) as (H1 & H2 & H3).
      destruct (String.eqb_spec k key) as [->|Hne].
      * exists d. split_and!; try done.
        destruct (queryThrows ext) eqn:Hq; [|done]. exfalso. apply Hk.
        unfold resolveDispute, _getObject, _storeObject, _queryObjects,
          _isInitialized. rewrite Hq.
        repeat (case_match; simpl in *; simplify_eq; try reflexivity).
      * exfalso. apply Hk, Hframe. intros d0 [= E _]. by apply Hne.
    + exfalso. apply Hk, Hframe. by intros d0.
Qed.

(** With two disputes filed against one booking and a query that cannot
    get the first of them, [resolveDispute] resolves the second one and
    leaves the first one pending. *)
Lemma resolveDispute_skips_unfetched :
  let st' :=
    (resolveDispute
       {| rdBookingId := "booking_1700000000001_8";
          rdResolution := full_refund;
          rdRefundAmount := None;
          rdNotes := "Provider absent" |}
       (skippingExt "dispute_1700000000002_booking_1700000000001_8")
       marketDisputedTwice).2 in
  List.map (fun x => (x.1, match x.2 with
                           | Parsed d => Some (dStatus d)
                           | Malformed => None
                           end))
           (disputes (bucket st'))
  = [("dispute_1700000000002_booking_1700000000001_8", Some dispute_pending);
     ("dispute_1700000000004_booking_1700000000001_8", Some dispute_resolved)].
Proof. vm_compute. reflexivity. Qed.

(** X9. A booking can be read back together with the claim on the service:
    after a successful [bookService], [getBooking] shows the new booking
    CONFIRMED with the client, the meeting link and a copy of the service's
    title, provider, date, times, time zone and price, and [getService]
    shows the service BOOKED by that booking with its other fields
    unchanged. *)
Theorem booking_read_back (args : BookServiceArgs) (ext ext2 : Ext)
    (st st' : State) (bookingId link : string) :
  bookService args ext st = (ServiceBooked bookingId link, st') ->
  getThrows ext2 0 = false ->
  exists service b s',
    get (argServiceId args) (services (bucket st)) = Some (Parsed service) /\
    getBooking bookingId ext2 st' = BookingDetails b /\
    bId b = bookingId /\ bStatus b = BOOKING_STATUS.CONFIRMED /\
    bServiceId b = argServiceId args /\
    clientName b = argClientName args /\ clientEmail b = argClientEmail args /\
    meetingLink b = link /\
    bService b =
      {| sTitle := title service; sProvider := provider service;
         sDate := date service; sStartTime := startTime service;
         sEndTime := endTime service; sTimeZone := timeZone service;
         sPrice := price service |} /\
    getService (argServiceId args) ext2 st' = ServiceDetails s' /\
    status s' = SERVICE_STATUS.BOOKED /\ bookedBy s' = Some bookingId /\
    id s' = id service /\ title s' = title service /\
    provider s' = provider service /\ price s' = price service /\
    date s' = date service /\ startTime s' = startTime service /\
    endTime s' = endTime service.
Proof.
  unfold bookService, _getObject, _storeObject, _isInitialized.
  destruct (initialized st) eqn:Hi; simpl; [|done].
  destruct (getThrows ext 0); [done|].
  destruct (get _ _) as [[service|]|] eqn:Hs; [|done..].
  destruct (negb _); [done|].
  destruct (addOutcome ext 0); simpl; [|done].
  destruct (addOutcome ext 1); simpl; [|done].
  intros [= <- <- <-] Hg2.
  unfold getBooking, getService, _getObject, _isInitialized. simpl.
  rewrite Hg2, !get_put_eq.
  do 3 eexists. split; [reflexivity|]. split_and!; reflexivity.
Qed.

Lemma includes_refl (s : string) : includes s s = true.
Proof.
  assert (String.prefix s s = true) as H.
  { induction s as [|c s IH]; simpl; [done|].
    destruct (Ascii.ascii_dec c c); [done|congruence]. }
  destruct s as [|c s']; [reflexivity|].
  change (String.prefix (String c s') (String c s')
          || includes s' (String c s') = true).
  by rewrite H.
Qed.

(** X10. [listBookings] lists exactly the stored bookings that the query
    fetched with their content and whose provider name and client name
    contain, after [toLowerCase] on both sides, the filters the caller gave
    (an absent or empty filter is ignored). A stored and fetched booking is
    therefore found under its own provider and client names in any letter
    case. When the [get] of every stored booking throws inside the query,
    the answer is that no bookings were found, without an error. *)
Theorem listBookings_filters (toLowerCase : string -> string)
    (args : ListBookingsArgs) (ext : Ext) (st : State) :
  (forall l, listBookings toLowerCase args ext st = BookingList l ->
     forall b, In b l <->
       (exists k, In (k, Parsed b) (bookings (bucket st)) /\
                  queryGet ext k = Fetched) /\
       (truthy (wantProvider args) = true ->
        includes (toLowerCase (sProvider (bService b)))
                 (toLowerCase (default "" (wantProvider args))) = true) /\
       (truthy (wantClient args) = true ->
        includes (toLowerCase (clientName b))
                 (toLowerCase (default "" (wantClient args))) = true)) /\
  (forall key b p c,
     initialized st = true -> queryThrows ext = false ->
     queryGet ext key = Fetched ->
     get key (bookings (bucket st)) = Some (Parsed b) ->
     toLowerCase p = toLowerCase (sProvider (bService b)) ->
     toLowerCase c = toLowerCase (clientName b) ->
     exists l,
       listBookings toLowerCase
                    {| wantProvider := Some p; wantClient := Some c |} ext st
         = BookingList l /\ In b l) /\
  (initialized st = true -> queryThrows ext = false ->
   (forall k c, In (k, c) (bookings (bucket st)) ->
                queryGet ext k = FetchThrows) ->
   listBookings toLowerCase args ext st = NoBookingsFound).
Proof.
  split_and!.
  - intros l. unfold listBookings, _queryObjects.
    destruct (negb _); [done|]. destruct (queryThrows ext); [done|].
    destruct (fetched _ _) as [|o data] eqn:Hd; [done|].
    destruct (List.filter _ _) as [|y l'] eqn:Hf; [done|].
    intros [= <-] b. rewrite <- Hf, List.filter_In, In_parsedObjects.
    rewrite <- Hd. unfold matchesBooking. rewrite andb_true_iff.
    split.
    + intros [[k Hk] [H1 H2]]. apply In_fetched in Hk. split; [by exists k|].
      split.
      * intros Ht. rewrite Ht in H1. exact H1.
      * intros Ht. rewrite Ht in H2. exact H2.
    + intros [[k Hk] [H1 H2]]. split.
      * exists k. by apply In_fetched.
      * split.
        -- destruct (truthy (wantProvider args)); [by apply H1|done].
        -- destruct (truthy (wantClient args)); [by apply H2|done].
  - intros key b p c Hi Hq Hfe Hg Hp Hc.
    unfold listBookings, _queryObjects, _isInitialized. rewrite Hi, Hq. simpl.
    apply get_In in Hg.
    set (own := {| wantProvider := Some p; wantClient := Some c |}).
    assert (In b (List.filter (matchesBooking toLowerCase own)
                    (parsedObjects
                       (fetched (queryGet ext) (bookings (bucket st))))))
      as Hin.
    { apply List.filter_In. split.
      - apply In_parsedObjects. exists key. by apply In_fetched.
      - unfold matchesBooking, own. simpl. rewrite Hp, Hc, !includes_refl.
        by rewrite !orb_true_r. }
    destruct (fetched _ _) as [|o data]; [done|].
    destruct (List.filter _ _) as [|x l]; [done|]. by eexists.
  - intros Hi Hq Hall.
    unfold listBookings, _queryObjects, _isInitialized. rewrite Hi, Hq. simpl.
    assert (fetched (queryGet ext) (bookings (bucket st)) = []) as ->; [|done].
    induction (bookings (bucket st)) as [|[k c] objs IH]; simpl; [done|].
    rewrite (Hall k c) by (by left). apply IH.
    intros k' c' H. apply (Hall k' c'). by right.
Qed.

End MarketplaceMore.

(** ** moderia: escrow funding and release, clients and meetings *)

Section ModeriaEscrow.

Import Moderia.

Variable parseUnits : string -> nat -> Outcome Z.

Lemma loadEscrow_file (args : ReleaseFundsArgs) (ext : Ext) (st st0 : State)
    (e : EscrowTransaction) :
  loadEscrow args ext st = inr (e, st0) ->
  transactionFiles st0 !! rfEscrowId args = Some e /\
  agent st0 = agent st /\ teacher st0 = teacher st /\
  chain st0 = chain st /\ transactionsBucket st0 = transactionsBucket st.
Proof.
  unfold loadEscrow.
  destruct (transactionFiles st !! _) eqn:Hf.
  { intros [= <- <-]. by rewrite Hf. }
  destruct (transactionsBucket st) eqn:Htb; [|done].
  destruct (queryThrows ext); [done|].
  destruct (firstMatch _ _); [|done].
  destruct (contentIsText ext); [|done].
  intros [= <- <-]. simpl. rewrite lookup_insert_eq. by split_and!.
Qed.

Lemma loadEscrow_reply (args : ReleaseFundsArgs) (ext : Ext) (st : State)
    (r : Reply) (a b c d : string) :
  loadEscrow args ext st = inl r -> r <> FundsReleased a b c d.
Proof.
  unfold loadEscrow. intros H ->.
  repeat (case_match; simplify_eq).
Qed.

(** X11. In the moderia provider a released escrow can be released again.
    [releaseFunds] reads the escrow from the local file of that id and
    writes the RELEASED record to the bucket only, so after any successful
    release the local file still says PENDING, and a second call whose
    transfer is accepted pays the provider the same amount a second time. *)
Theorem releaseFunds_pays_twice (args : ReleaseFundsArgs) (ext ext2 : Ext)
    (st st1 : State) (shown amt rcpt h h2 : string) :
  releaseFunds parseUnits args ext st = (FundsReleased shown amt rcpt h, st1) ->
  writeContract ext2 = Returned h2 ->
  exists e units,
    transactionFiles st1 !! rfEscrowId args = Some e /\
    eStatus e = EscrowStatus.PENDING /\
    rcpt = providerAddress e /\
    parseUnits amt USDC_DECIMALS = Returned units /\
    let pay := mkContractCall USDC_TOKEN_ADDRESS AgentWallet rcpt units in
    chain st1 = (chain st ++ [pay])%list /\
    chain (releaseFunds parseUnits args ext2 st1).2
      = (chain st ++ [pay; pay])%list.
Proof.
  intros H Hw2. unfold releaseFunds in H.
  destruct (agent st) as [a|] eqn:Ha; [|done].
  destruct (teacher st) as [t|] eqn:Ht; [|done].
  destruct (loadEscrow args ext st) as [r|[e st0]] eqn:Hl.
  { injection H as -> _.
    by destruct (loadEscrow_reply _ _ _ _ shown amt rcpt h Hl). }
  destruct (loadEscrow_file _ _ _ _ _ Hl) as (Hf & Ha0 & Ht0 & Hc0 & Hb0).
  destruct (bool_decide (eStatus e = EscrowStatus.PENDING)) eqn:Hp; [|done].
  apply bool_decide_eq_true_1 in Hp. simpl in H.
  destruct (parseUnits _ _) as [units|] eqn:Hu; [|done].
  destruct (writeContract ext); [|done]. simpl in H.
  destruct (transactionsBucket st0); [|done].
  destruct (addThrows ext 0); [done|]. destruct (addThrows ext 1); [done|].
  injection H as <- <- <- <- <-.
  exists e, units. split; [exact Hf|]. split; [exact Hp|]. split; [done|].
  split; [exact Hu|]. cbv zeta.
  assert (chain st = chain st0) as -> by done.
  split; [reflexivity|].
  match goal with
  | |- chain (releaseFunds _ _ _ ?S).2 = _ =>
    rewrite (releaseFunds_pays parseUnits args ext2 S e units h2)
  end; simpl; try done.
  - by rewrite <- app_assoc.
  - by rewrite Ha0, Ha.
  - by rewrite Ht0, Ht.
Qed.

(** The effects of a successful [createEscrow] of the moderia provider. *)
Lemma moderia_createEscrow_success (args : CreateEscrowArgs) (ext : Ext)
    (st st' : State) (shownBooking newId shownAmount hash : string) :
  createEscrow parseUnits args ext st
    = (EscrowCreated shownBooking newId shownAmount hash, st') ->
  exists studentAddress agentAddr booking service units e booking',
    student st = Some studentAddress /\ agent st = Some agentAddr /\
    firstMatch (fun _ b => String.eqb (bId b) (ceBookingId args))
               (contents (bookingsBucket st)) = Some booking /\
    firstMatch (fun _ s => String.eqb (id s) (bServiceId booking))
               (contents (servicesBucket st)) = Some service /\
    parseUnits (ceAmount args) USDC_DECIMALS = Returned units /\
    chain st' =
      (chain st ++ [mkContractCall USDC_TOKEN_ADDRESS ClientWallet agentAddr
                                   units])%list /\
    contents (transactionsBucket st')
      = put ("escrow_" ++ newId ++ ".json") e
            (contents (transactionsBucket st)) /\
    eId e = newId /\ eStatus e = EscrowStatus.PENDING /\
    amount e = ceAmount args /\ eBookingId e = ceBookingId args /\
    providerAddress e = walletAddress service /\
    clientAddress e = studentAddress /\ agentAddress e = agentAddr /\
    txHash e = Some hash /\
    contents (bookingsBucket st')
      = put (bObjectKey booking) booking' (contents (bookingsBucket st)) /\
    escrowId booking' = Some newId /\
    bId booking' = bId booking /\ bStatus booking' = bStatus booking /\
    bServiceId booking' = bServiceId booking /\
    clientName booking' = clientName booking /\
    clientEmail booking' = clientEmail booking /\
    specialRequests booking' = specialRequests booking /\
    bookingTime booking' = bookingTime booking /\
    meetingId booking' = meetingId booking /\
    bBucketId booking' = bBucketId booking /\
    bObjectKey booking' = bObjectKey booking /\
    contents (servicesBucket st') = contents (servicesBucket st) /\
    transactionFiles st' = transactionFiles st /\
    teacher st' = teacher st /\ student st' = student st /\
    agent st' = agent st.
Proof.
  unfold createEscrow.
  destruct (student st) as [sa|] eqn:Hs; [|by destruct (agent st)].
  destruct (agent st) as [aa|] eqn:Ha; [|done].
  destruct (bookingsBucket st) as [bb|] eqn:Hbb; [|done].
  destruct (transactionsBucket st) as [tb|] eqn:Htb.
  - destruct (queryThrows ext); [done|].
    destruct (firstMatch _ (objects bb)) as [booking|] eqn:Hb; [|done].
    destruct (servicesBucket st) as [sb|] eqn:Hsb; [|done].
    destruct (firstMatch _ (objects sb)) as [service|] eqn:Hsv; [|done].
    destruct (parseUnits _ _) as [units|] eqn:Hu; [|done].
    destruct (writeContract ext) as [hash0|]; [|done].
    destruct (addThrows ext 0); [done|]. destruct (addThrows ext 1); [done|].
    intros [= <- <- <- <- <-].
    exists sa, aa, booking, service, units. do 2 eexists.
    split_and!; try (reflexivity || assumption).
    unfold addBooking, addEscrow, logPut. simpl. by rewrite Hsb.
  - destruct (createdBucket ext) as [addr|]; [|done].
    destruct (queryThrows ext); [done|].
    destruct (firstMatch _ (objects bb)) as [booking|] eqn:Hb; [|done].
    simpl. destruct (servicesBucket st) as [sb|] eqn:Hsb; [|done].
    destruct (firstMatch _ (objects sb)) as [service|] eqn:Hsv; [|done].
    destruct (parseUnits _ _) as [units|] eqn:Hu; [|done].
    destruct (writeContract ext) as [hash0|]; [|done].
    destruct (addThrows ext 0); [done|]. destruct (addThrows ext 1); [done|].
    intros [= <- <- <- <- <-].
    exists sa, aa, booking, service, units. do 2 eexists.
    split_and!; try (reflexivity || assumption).
    unfold addBooking, addEscrow, logPut. simpl. by rewrite Hsb.
Qed.

(** X12. What a successful [createEscrow] does: the client wallet sends the
    amount named by the caller to the agent's address, a PENDING escrow for
    that amount is stored under ["escrow_<id>.json"] with the wallet address
    of the booked listing as the payee, and the booking is rewritten under
    its object key with the escrow id and every other field (id, service
    id, client name and email, special requests, booking time, status,
    meeting id, bucket id, object key) as it was. The amount is the
    caller's: the listing's price is not consulted. *)
Theorem moderia_createEscrow_effect (args : CreateEscrowArgs) (ext : Ext)
    (st st' : State) (shownBooking newId shownAmount hash : string) :
  createEscrow parseUnits args ext st
    = (EscrowCreated shownBooking newId shownAmount hash, st') ->
  exists studentAddress agentAddr booking service units e booking',
    student st = Some studentAddress /\ agent st = Some agentAddr /\
    firstMatch (fun _ b => String.eqb (bId b) (ceBookingId args))
               (contents (bookingsBucket st)) = Some booking /\
    firstMatch (fun _ s => String.eqb (id s) (bServiceId booking))
               (contents (servicesBucket st)) = Some service /\
    parseUnits (ceAmount args) USDC_DECIMALS = Returned units /\
    chain st' =
      (chain st ++ [mkContractCall USDC_TOKEN_ADDRESS ClientWallet agentAddr
                                   units])%list /\
    contents (transactionsBucket st')
      = put ("escrow_" ++ newId ++ ".json") e
            (contents (transactionsBucket st)) /\
    eId e = newId /\ eStatus e = EscrowStatus.PENDING /\
    amount e = ceAmount args /\ eBookingId e = ceBookingId args /\
    providerAddress e = walletAddress service /\
    clientAddress e = studentAddress /\ agentAddress e = agentAddr /\
    txHash e = Some hash /\
    contents (bookingsBucket st')
      = put (bObjectKey booking) booking' (contents (bookingsBucket st)) /\
    escrowId booking' = Some newId /\
    bId booking' = bId booking /\ bStatus booking' = bStatus booking /\
    bServiceId booking' = bServiceId booking /\
    clientName booking' = clientName booking /\
    clientEmail booking' = clientEmail booking /\
    specialRequests booking' = specialRequests booking /\
    bookingTime booking' = bookingTime booking /\
    meetingId booking' = meetingId booking /\
    bBucketId booking' = bBucketId booking /\
    bObjectKey booking' = bObjectKey booking /\
    contents (servicesBucket st') = contents (servicesBucket st) /\
    transactionFiles st' = transactionFiles st /\
    teacher st' = teacher st /\ student st' = student st /\
    agent st' = agent st.
Proof. apply moderia_createEscrow_success. Qed.

(** X13. [createEscrow] submits at most one transfer, from the client wallet
    to the agent's address, and it writes nothing before that transfer:
    whatever the outcome, either no transfer was submitted and the bookings
    and transactions buckets list what they listed before and no write was
    logged, or the one transfer of the parsed amount was submitted. *)
Theorem moderia_createEscrow_transfer_first (args : CreateEscrowArgs)
    (ext : Ext) (st : State) :
  let st' := (createEscrow parseUnits args ext st).2 in
  (chain st' = chain st /\
   contents (transactionsBucket st') = contents (transactionsBucket st) /\
   contents (bookingsBucket st') = contents (bookingsBucket st) /\
   addLog st' = addLog st) \/
  (exists agentAddr units,
     agent st = Some agentAddr /\
     parseUnits (ceAmount args) USDC_DECIMALS = Returned units /\
     chain st' =
       (chain st ++ [mkContractCall USDC_TOKEN_ADDRESS ClientWallet agentAddr
                                    units])%list).
Proof.
  cbv zeta. unfold createEscrow.
  destruct (student st) as [sa|]; [|left; by destruct (agent st)].
  destruct (agent st) as [aa|]; [|by left].
  destruct (bookingsBucket st) as [bb|] eqn:Hbb; [|left; simpl; by rewrite Hbb].
  destruct (transactionsBucket st) as [tb|] eqn:Htb.
  - destruct (queryThrows ext); [left; simpl; by rewrite Hbb, Htb|].
    destruct (firstMatch _ (objects bb)); [|left; simpl; by rewrite Hbb, Htb].
    destruct (servicesBucket st); [|left; simpl; by rewrite Hbb, Htb].
    destruct (firstMatch _ _); [|left; simpl; by rewrite Hbb, Htb].
    destruct (parseUnits _ _) as [units|] eqn:Hu;
      [|left; simpl; by rewrite Hbb, Htb].
    destruct (writeContract ext); [|left; simpl; by rewrite Hbb, Htb].
    right. exists aa, units. split; [done|]. split; [done|].
    destruct (addThrows ext 0); [done|]. by destruct (addThrows ext 1).
  - destruct (createdBucket ext); [|left; simpl; by rewrite Hbb, Htb].
    destruct (queryThrows ext); [left; simpl; by rewrite Hbb|].
    destruct (firstMatch _ (objects bb)); [|left; simpl; by rewrite Hbb].
    simpl. destruct (servicesBucket st); [|left; simpl; by rewrite Hbb].
    destruct (firstMatch _ _); [|left; simpl; by rewrite Hbb].
    destruct (parseUnits _ _) as [units|] eqn:Hu; [|left; simpl; by rewrite Hbb].
    destruct (writeContract ext); [|left; simpl; by rewrite Hbb].
    right. exists aa, units. split; [done|]. split; [done|].
    destruct (addThrows ext 0); [done|]. by destruct (addThrows ext 1).
Qed.

(** X14. When the transfer is accepted and the write of the escrow record
    is then refused, [createEscrow] answers with the failure, but the
    client's tokens have already moved to the agent: the transfer is on the
    chain while no escrow record exists and the booking carries no escrow
    id. *)
Theorem moderia_createEscrow_unrecorded_transfer (args : CreateEscrowArgs)
    (ext : Ext) (st : State) (studentAddress agentAddr hash m : string)
    (bb : Bucket ServiceBooking) (tb : Bucket EscrowTransaction)
    (sb : Bucket ServiceListing) (booking : ServiceBooking)
    (service : ServiceListing) (units : Z) :
  student st = Some studentAddress -> agent st = Some agentAddr ->
  bookingsBucket st = Some bb -> transactionsBucket st = Some tb ->
  servicesBucket st = Some sb ->
  queryThrows ext = None ->
  firstMatch (fun _ b => String.eqb (bId b) (ceBookingId args)) (objects bb)
    = Some booking ->
  firstMatch (fun _ s => String.eqb (id s) (bServiceId booking)) (objects sb)
    = Some service ->
  parseUnits (ceAmount args) USDC_DECIMALS = Returned units ->
  writeContract ext = Returned hash ->
  addThrows ext 0 = Some m ->
  exists st',
    createEscrow parseUnits args ext st
      = (Failed "Failed to create escrow." m, st') /\
    chain st' =
      (chain st ++ [mkContractCall USDC_TOKEN_ADDRESS ClientWallet agentAddr
                                   units])%list /\
    transactionsBucket st' = Some tb /\ bookingsBucket st' = Some bb /\
    transactionFiles st' = transactionFiles st /\ addLog st' = addLog st.
Proof.
  intros Hs Ha Hbb Htb Hsb Hq Hb Hsv Hu Hw Hadd.
  unfold createEscrow. rewrite Hs, Ha, Hbb, Htb, Hq, Hb, Hsb, Hsv, Hu, Hw, Hadd.
  eexists. split; [reflexivity|]. simpl. by rewrite Htb, Hbb.
Qed.

Lemma firstMatch_put_fresh {A : Type} (test : string -> A -> bool) (k : string)
    (v : A) (l : list (string * A)) :
  (forall k0 v0, In (k0, v0) l -> test k0 v0 = false) ->
  test k v = true ->
  firstMatch test (put k v l) = Some v.
Proof.
  intros Hl Hk. induction l as [|[k' v'] l IH]; simpl.
  - by rewrite Hk.
  - destruct (String.eqb k k'); simpl.
    + by rewrite Hk.
    + rewrite (Hl k' v') by (by left). apply IH.
      intros k0 v0 H0. apply (Hl k0 v0). by right.
Qed.

Lemma put_nonempty {A : Type} (k : string) (v : A) (l : list (string * A)) :
  put k v l <> [].
Proof.
  destruct l as [|[k' v'] l]; simpl; [done|]. by destruct (String.eqb k k').
Qed.

Lemma prefix_app (s t : string) : String.prefix s (s ++ t) = true.
Proof.
  induction s as [|c s IH]; simpl; [by destruct t|].
  destruct (Ascii.ascii_dec c c); [done|congruence].
Qed.

Lemma includes_infix (a s b : string) : includes (a ++ s ++ b) s = true.
Proof.
  induction a as [|c a IH]; simpl.
  - assert (forall h, String.prefix s h = true -> includes h s = true) as Hp.
    { intros h Hh.
      destruct h as [|c h];
        [change (String.prefix s EmptyString || false = true)
        |change (String.prefix s (String c h) || includes h s = true)];
        by rewrite Hh. }
    apply Hp. exact (prefix_app s b).
  - rewrite IH. apply orb_true_r.
Qed.

(** X15. Funding and release fit together: after a successful
    [createEscrow], a [releaseFunds] for the new escrow id without an
    amount, run while no local file of that id exists and no other object
    key of the transactions bucket contains the id, finds the record in the
    bucket and pays exactly the funded units from the agent wallet to the
    wallet address of the booked listing. *)
Theorem escrow_funded_then_released (args : CreateEscrowArgs) (ext ext2 : Ext)
    (st st' : State) (shownBooking newId shownAmount hash hash2 : string) :
  createEscrow parseUnits args ext st
    = (EscrowCreated shownBooking newId shownAmount hash, st') ->
  teacher st <> None ->
  transactionFiles st !! newId = None ->
  (forall k e, In (k, e) (contents (transactionsBucket st)) ->
               includes k newId = false) ->
  queryThrows ext2 = None -> contentIsText ext2 = true ->
  writeContract ext2 = Returned hash2 ->
  exists agentAddr booking service units,
    agent st = Some agentAddr /\
    firstMatch (fun _ b => String.eqb (bId b) (ceBookingId args))
               (contents (bookingsBucket st)) = Some booking /\
    firstMatch (fun _ s => String.eqb (id s) (bServiceId booking))
               (contents (servicesBucket st)) = Some service /\
    parseUnits (ceAmount args) USDC_DECIMALS = Returned units /\
    chain (releaseFunds parseUnits {| rfEscrowId := newId; rfAmount := None |}
                        ext2 st').2
      = (chain st ++
         [mkContractCall USDC_TOKEN_ADDRESS ClientWallet agentAddr units;
          mkContractCall USDC_TOKEN_ADDRESS AgentWallet (walletAddress service)
                         units])%list.
Proof.
  intros H Ht Hf Hfresh Hq Hc Hw.
  destruct (moderia_createEscrow_success _ _ _ _ _ _ _ _ H)
    as (sa & aa & booking & service & units & e & booking' & Hs & Ha & Hb & Hsv
        & Hu & Hch & Htx & He1 & He2 & He3 & He4 & He5 & He6 & He7 & He8 & _
        & _ & _ & _ & _ & _ & _ & _ & _ & _ & _ & _ & _ & Hfiles & Ht' & _
        & Ha').
  exists aa, booking, service, units. split_and!; try done.
  unfold releaseFunds, loadEscrow. simpl.
  rewrite Ha', Ha, Ht'. destruct (teacher st) as [t|]; [|done].
  rewrite Hfiles, Hf.
  destruct (transactionsBucket st') as [tb'|] eqn:Htb'.
  2:{ simpl in Htx. symmetry in Htx. by apply put_nonempty in Htx. }
  simpl in Htx. rewrite Hq, Htx.
  rewrite (firstMatch_put_fresh (fun key _ => includes key newId)).
  2:{ intros k0 v0 H0. by apply (Hfresh k0 v0). }
  2:{ apply (includes_infix "escrow_" newId ".json"). }
  rewrite Hc. rewrite bool_decide_eq_true_2 by done. simpl.
  unfold orElse. simpl. rewrite He3, Hu, Hw. simpl. rewrite Htb'.
  rewrite He5.
  destruct (addThrows ext2 0); simpl; [by rewrite Hch, <- app_assoc|].
  destruct (addThrows ext2 1); simpl; by rewrite Hch, <- app_assoc.
Qed.

End ModeriaEscrow.

Section ModeriaMeetings.

Import Moderia.

(** X16. The meeting steps compose. After [joinMeeting] accepted a link,
    an analysis of the new meeting is refused while no transcript file of
    that id exists; after [getTranscript] for the id returned by
    [joinMeeting], [analyzeServiceQuality] reports the score 92 and leaves
    one meeting file that is ENDED, has a transcript and an analysis, keeps
    the joined link, carries the booking id given to the analysis and the
    score 92, next to the simulated transcript and the analysis text. None
    of the three steps touches a bucket or submits a transfer. *)
Theorem meeting_pipeline (jargs : JoinMeetingArgs) (mext : MeetingExt)
    (now bookingId : string) (st : State) :
  includes (jmMeetingUrl jargs) "meet.google.com"
  || includes (jmMeetingUrl jargs) "zoom.us"
  || includes (jmMeetingUrl jargs) "jitsi.meet" = true ->
  let newId := newMeetingId mext in
  let aargs := {| aqMeetingId := newId; aqBookingId := bookingId |} in
  let st1 := (joinMeeting jargs mext st).2 in
  let st2 := (getTranscript newId now st1).2 in
  let out := analyzeServiceQuality aargs st2 in
  (transcriptFiles st !! newId = None ->
   analyzeServiceQuality aargs st1
     = (Text ("Transcript not found for meeting ID: " ++ newId), st1)) /\
  replyScore out.1 = Some 92%Z /\
  (exists m,
     meetingFiles out.2 !! newId = Some m /\
     mId m = newId /\ url m = jmMeetingUrl jargs /\
     mStatus m = MeetingStatus.ENDED /\ mEndTime m = Some now /\
     hasTranscript m = true /\ hasAnalysis m = true /\
     qualityScore m = Some 92%Z /\ mBookingId m = bookingId) /\
  transcriptFiles out.2 !! newId = Some simulatedTranscript /\
  analysisFiles out.2 !! newId = Some (analysisText newId 92) /\
  chain out.2 = chain st /\ addLog out.2 = addLog st /\
  servicesBucket out.2 = servicesBucket st /\
  bookingsBucket out.2 = bookingsBucket st /\
  transactionsBucket out.2 = transactionsBucket st /\
  transactionFiles out.2 = transactionFiles st.
Proof.
  intros Hurl. cbv zeta. unfold joinMeeting.
  assert (negb (includes (jmMeetingUrl jargs) "meet.google.com") &&
          negb (includes (jmMeetingUrl jargs) "zoom.us") &&
          negb (includes (jmMeetingUrl jargs) "jitsi.meet") = false) as ->.
  { destruct (includes _ "meet.google.com"), (includes _ "zoom.us"),
      (includes _ "jitsi.meet"); done. }
  cbv zeta. split.
  { intros Hnone. unfold analyzeServiceQuality. simpl.
    by rewrite lookup_insert_eq, Hnone. }
  unfold getTranscript. simpl. rewrite lookup_insert_eq. simpl.
  unfold analyzeServiceQuality. simpl. rewrite !lookup_insert_eq. simpl.
  rewrite !lookup_insert_eq.
  split; [reflexivity|]. split; [|by split_and!].
  eexists. split; [reflexivity|]. by split_and!.
Qed.

(** X17. [joinMeeting] names the meeting file by the time and the random
    bytes alone, so a second join that draws the same two values replaces
    the first meeting file: the file then carries the second link and says
    that it has no transcript, while the transcript files are left as they
    were. After a join with a different id the first meeting file is still
    there with its own link. *)
Theorem joinMeeting_same_id_overwrites (a b : JoinMeetingArgs)
    (mext mext2 : MeetingExt) (st : State) :
  includes (jmMeetingUrl a) "meet.google.com"
  || includes (jmMeetingUrl a) "zoom.us"
  || includes (jmMeetingUrl a) "jitsi.meet" = true ->
  includes (jmMeetingUrl b) "meet.google.com"
  || includes (jmMeetingUrl b) "zoom.us"
  || includes (jmMeetingUrl b) "jitsi.meet" = true ->
  let st1 := (joinMeeting a mext st).2 in
  let st2 := (joinMeeting b mext2 st1).2 in
  (newMeetingId mext2 = newMeetingId mext ->
   exists m, meetingFiles st2 !! newMeetingId mext = Some m /\
             url m = jmMeetingUrl b /\ hasTranscript m = false /\
             transcriptFiles st2 = transcriptFiles st) /\
  (newMeetingId mext2 <> newMeetingId mext ->
   meetingFiles st2 !! newMeetingId mext = meetingFiles st1 !! newMeetingId mext /\
   exists m, meetingFiles st2 !! newMeetingId mext = Some m /\
             url m = jmMeetingUrl a).
Proof.
  intros Ha Hb. cbv zeta. unfold joinMeeting.
  assert (forall u, includes u "meet.google.com" || includes u "zoom.us"
                    || includes u "jitsi.meet" = true ->
            negb (includes u "meet.google.com") && negb (includes u "zoom.us")
            && negb (includes u "jitsi.meet") = false) as Hv.
  { intros u. destruct (includes u "meet.google.com"), (includes u "zoom.us"),
      (includes u "jitsi.meet"); done. }
  rewrite (Hv _ Ha), (Hv _ Hb). simpl. split.
  - intros ->. rewrite lookup_insert_eq. eexists. by split_and!.
  - intros Hne. rewrite lookup_insert_ne by done. rewrite lookup_insert_eq.
    split; [done|]. eexists. by split_and!.
Qed.

(** X18. The clients are per user type. With the teacher's key in the
    environment and no student client, [createRecallClient] for the teacher
    lets [createServiceListing] store a listing, while listing the services
    and booking one still answer that the client is missing and funding an
    escrow that the wallet is missing; a user type whose key is not set
    gets no client, and the provider stays as it was. *)
Theorem teacher_client_only (net : NetworkName) (keys : Keys) (st : State)
    (address : string) (sargs : CreateServiceListingArgs) (ext ext2 : Ext)
    (largs : ListAvailableServicesArgs) (bargs : BookServiceArgs)
    (cargs : CreateEscrowArgs) (parseUnits : string -> nat -> Outcome Z) :
  keys TeacherUser = Some (Returned address) ->
  keys StudentUser = None ->
  student st = None ->
  (servicesBucket st <> None \/ exists addr, createdBucket ext = Returned addr) ->
  addThrows ext 0 = None ->
  let st1 := (createRecallClient {| crNetworkName := net;
                                    crUserType := TeacherUser |} keys st).2 in
  createRecallClient {| crNetworkName := net; crUserType := StudentUser |}
                     keys st1
    = (Text (ERROR_MESSAGES.MISSING_PRIVATE_KEY ++ " for student"), st1) /\
  teacher st1 = Some address /\
  let serviceId := "service_" ++ timeMs ext ++ "_" ++ randomHex ext in
  exists st2 listing,
    createServiceListing sargs ext st1 = (ListingCreated serviceId, st2) /\
    get ("service_" ++ serviceId ++ ".json") (contents (servicesBucket st2))
      = Some listing /\
    status listing = ServiceStatus.AVAILABLE /\
    walletAddress listing = argWalletAddress sargs /\
    listAvailableServices largs ext2 st2 = Text ERROR_MESSAGES.MISSING_CLIENT /\
    bookService bargs ext2 st2 = (Text ERROR_MESSAGES.MISSING_CLIENT, st2) /\
    createEscrow parseUnits cargs ext2 st2
      = (Text ERROR_MESSAGES.WALLET_NOT_INITIALIZED, st2).
Proof.
  intros Hk Hks Hst Hb Hadd. cbv zeta. unfold createRecallClient. simpl.
  rewrite Hk. simpl. rewrite Hks. split; [reflexivity|]. split; [reflexivity|].
  unfold createServiceListing, teacherClient. simpl.
  assert (bool_decide (is_Some (@None string)) = false) as Hnone.
  { apply bool_decide_eq_false_2. by intros [? ?]. }
  destruct (servicesBucket st) as [sb|] eqn:Hsb.
  - rewrite Hadd. do 2 eexists. split; [reflexivity|].
    unfold listAvailableServices, bookService, createEscrow, studentClient.
    simpl. rewrite Hst, Hnone. simpl. rewrite get_put_eq. by split_and!.
  - destruct Hb as [Hb|[addr Hb]]; [done|]. rewrite Hb, Hadd.
    do 2 eexists. split; [reflexivity|].
    unfold listAvailableServices, bookService, createEscrow, studentClient.
    simpl. rewrite Hst, Hnone. simpl. rewrite String.eqb_refl. by split_and!.
Qed.

End ModeriaMeetings.

(** ** Otter: transcript, analysis and payment authorization *)

Section OtterMore.

Import Otter.

Lemma getOtterAiTranscript_keeps (key : string) (ext : Ext) (st : State)
    (m : Meeting) :
  meetings st !! key = Some m ->
  is_Some (meetings (getOtterAiTranscript key ext st).2 !! key) /\
  analyses (getOtterAiTranscript key ext st).2 = analyses st.
Proof.
  intros Hm. unfold getOtterAiTranscript.
  destruct (String.eqb key ""); [cbn [snd]; rewrite Hm; eauto|].
  rewrite Hm.
  destruct (bool_decide (status m = MeetingStatus.RECORDING));
    cbn [transcripts];
    destruct (transcripts st !! key) as [t|]; try destruct (String.eqb t "");
    cbn [meetings analyses snd]; rewrite ?lookup_insert_eq, ?Hm; eauto.
Qed.

Lemma analyzeCallQuality_meeting (args : AnalyzeCallQualityArgs) (ext : Ext)
    (st st' : State) (a : AnalysisResult) (threshold : Q) :
  analyzeCallQuality args ext st = (CallAnalysis a threshold, st') ->
  String.eqb (acMeetingId args) "" = false /\
  is_Some (meetings st' !! acMeetingId args) /\
  (analyses st !! acMeetingId args = None ->
   qualityScore a = qualityScore DEMO_ANALYSIS).
Proof.
  unfold analyzeCallQuality.
  destruct (String.eqb _ _) eqn:He; [done|].
  destruct (meetings st !! _) as [meeting|] eqn:Hm; [|done].
  destruct (getOtterAiTranscript_keeps _ ext _ _ Hm) as [Hk Han].
  match goal with
  | |- context [match ?f with inl _ => _ | inr _ => _ end] =>
    destruct f as [answer|st1] eqn:Hf
  end.
  { intros ->. repeat case_match; simplify_eq. }
  assert (is_Some (meetings st1 !! acMeetingId args) /\
          analyses st1 = analyses st) as [[m1 Hm1] Ha1].
  { destruct (negb (hasTranscript meeting)).
    - destruct (getOtterAiTranscript _ ext st) as [r s1]. simpl in Hk, Han.
      destruct r; try (injection Hf as <-; done).
      destruct (includes _ _); [done|]. by injection Hf as <-.
    - injection Hf as <-. split; [by eexists|done]. }
  destruct (analyses st1 !! _) as [a0|] eqn:Ha.
  - intros [= <- <- <-]. split; [done|]. simpl. rewrite Hm1.
    split; [by eexists|]. intros Hn. rewrite Ha1, Hn in Ha. done.
  - simpl. rewrite Hm1. intros [= <- <- <-]. simpl. rewrite lookup_insert_eq.
    split; [done|]. split; [by eexists|done].
Qed.

(** X19. The recorded verdict is what gates the authorization. After
    [analyzeCallQuality] answered with an analysis and a threshold,
    [authorizePaymentBasedOnQuality] for the same meeting records an
    authorization, with the caller's amount and recipient, exactly when the
    caller's [qualityPassed] override is true or the threshold is at most
    the recorded score; otherwise it answers that the threshold is not met
    and records nothing. A first analysis of a meeting always carries the
    demo score 8.5. *)
Theorem analysis_verdict_gates_authorization (aargs : AnalyzeCallQualityArgs)
    (pargs : AuthorizePaymentArgs) (ext ext2 : Ext) (st st' : State)
    (a : AnalysisResult) (threshold : Q) :
  analyzeCallQuality aargs ext st = (CallAnalysis a threshold, st') ->
  apMeetingId pargs = acMeetingId aargs ->
  (analyses st !! acMeetingId aargs = None -> qualityScore a = (17 # 2)%Q) /\
  (default false (apQualityPassed pargs)
   || Qle_bool threshold (qualityScore a) = true ->
   exists auth st'',
     authorizePaymentBasedOnQuality pargs ext2 st'
       = (PaymentAuthorized auth, st'') /\
     authorized auth = true /\
     amount auth = paymentAmount pargs /\
     recipient auth = paymentRecipient pargs /\
     paymentAuthorizations st'' !! apMeetingId pargs = Some auth /\
     analyses st'' = analyses st' /\ meetings st'' = meetings st') /\
  (default false (apQualityPassed pargs)
   || Qle_bool threshold (qualityScore a) = false ->
   authorizePaymentBasedOnQuality pargs ext2 st'
     = (Text (cross ERROR_MESSAGES.QUALITY_THRESHOLD_NOT_MET
              ++ " Payment cannot be authorized."), st')).
Proof.
  intros H Hid.
  destruct (analyzeCallQuality_meeting _ _ _ _ _ _ H) as (He & [m Hm] & Hs).
  destruct (analyzeCallQuality_verdict _ _ _ _ _ _ H) as (Ha & Hv & _).
  split; [exact Hs|].
  unfold authorizePaymentBasedOnQuality. rewrite Hid, He, Hm, Ha, Hv.
  split.
  - intros ->. simpl. do 2 eexists. split; [reflexivity|].
    simpl. rewrite lookup_insert_eq. by split_and!.
  - by intros ->.
Qed.

Lemma DEMO_TRANSCRIPT_nonempty : String.eqb DEMO_TRANSCRIPT "" = false.
Proof. reflexivity. Qed.

(** X20. Fetching a transcript twice gives the same answer and the same
    state as fetching it once, whatever the clock says the second time: the
    first call ends a recording and stores the demo transcript when none is
    stored, and the second call finds nothing left to change. *)
Theorem getOtterAiTranscript_idempotent (key : string) (ext ext2 : Ext)
    (st : State) :
  getOtterAiTranscript key ext2 (getOtterAiTranscript key ext st).2
    = getOtterAiTranscript key ext st.
Proof.
  assert (bool_decide (MeetingStatus.COMPLETED = MeetingStatus.RECORDING)
          = false) as Hc by reflexivity.
  assert (bool_decide (MeetingStatus.TRANSCRIBING = MeetingStatus.RECORDING)
          = false) as Htr by reflexivity.
  unfold getOtterAiTranscript at 2 3.
  destruct (String.eqb key "") eqn:He.
  { cbn [snd]. unfold getOtterAiTranscript. by rewrite He. }
  destruct (meetings st !! key) as [meeting|] eqn:Hm.
  2:{ cbn [snd]. unfold getOtterAiTranscript. by rewrite He, Hm. }
  destruct (bool_decide (status meeting = MeetingStatus.RECORDING)) eqn:Hr.
  - cbn [meetings transcripts analyses paymentAuthorizations].
    destruct (transcripts st !! key) as [t|] eqn:Ht;
      [destruct (String.eqb t "") eqn:Hte|];
      cbn [snd]; unfold getOtterAiTranscript;
      cbn [meetings transcripts analyses paymentAuthorizations status];
      rewrite He, ?lookup_insert_eq;
      cbn [status]; rewrite ?Hc, ?Htr;
      cbn [transcripts];
      rewrite ?lookup_insert_eq, ?Ht, ?Hte, ?DEMO_TRANSCRIPT_nonempty;
      reflexivity.
  - destruct (transcripts st !! key) as [t|] eqn:Ht;
      [destruct (String.eqb t "") eqn:Hte|];
      cbn [snd]; unfold getOtterAiTranscript;
      cbn [meetings transcripts analyses paymentAuthorizations status];
      rewrite He, ?lookup_insert_eq, ?Hm;
      cbn [status]; rewrite ?Hc, ?Hr;
      cbn [transcripts];
      rewrite ?lookup_insert_eq, ?Ht, ?Hte, ?DEMO_TRANSCRIPT_nonempty;
      reflexivity.
Qed.

End OtterMore.

Section ModeriaBooking.

Import Moderia.

Lemma moderia_bookService_writes (args : BookServiceArgs) (ext : Ext)
    (st : State) (sb : Bucket ServiceListing) (bb : Bucket ServiceBooking)
    (listing : ServiceListing) :
  student st <> None ->
  servicesBucket st = Some sb -> bookingsBucket st = Some bb ->
  queryThrows ext = None ->
  firstMatch (fun _ s => String.eqb (id s) (argServiceId args)) (objects sb)
    = Some listing ->
  status listing = ServiceStatus.AVAILABLE ->
  addThrows ext 0 = None ->
  exists st2,
    bookService args ext st =
      match addThrows ext 1 with
      | Some m =>
        (Failed "Failed to book service." m,
         addBooking st bb (bObjectKey (newBooking args ext bb))
                    (newBooking args ext bb))
      | None => (Booked (argServiceId args) (bId (newBooking args ext bb)), st2)
      end /\
    student st2 = student st /\
    bookingsBucket st2
      = Some (addObject (bObjectKey (newBooking args ext bb))
                        (newBooking args ext bb) bb).
Proof.
  intros Hs Hsb Hbb Hq Hf Ha H0.
  unfold bookService, studentClient.
  destruct (student st) as [sa|] eqn:Hst; [|done].
  rewrite bool_decide_eq_true_2 by by eexists.
  cbn [negb]. rewrite Hsb, Hbb, Hq, Hf, Ha.
  rewrite bool_decide_eq_true_2 by done. cbn [negb]. rewrite H0.
  eexists. split; [destruct (addThrows ext 1); reflexivity|].
  split; [exact Hst|reflexivity].
Qed.

(** X21. The moderia provider's [bookService] has the same gap between its
    two writes. When the booking is stored and the write of the BOOKED
    listing is then refused, the call answers with the failure, the stored
    listing still says AVAILABLE, and a second [bookService] for the same
    service succeeds: two CONFIRMED bookings then refer to the one
    service. *)
Theorem moderia_partial_booking_allows_second (args args2 : BookServiceArgs)
    (ext ext2 : Ext) (st : State) (sb : Bucket ServiceListing)
    (bb : Bucket ServiceBooking) (listing : ServiceListing) (m : string) :
  student st <> None ->
  servicesBucket st = Some sb -> bookingsBucket st = Some bb ->
  queryThrows ext = None ->
  firstMatch (fun _ s => String.eqb (id s) (argServiceId args)) (objects sb)
    = Some listing ->
  status listing = ServiceStatus.AVAILABLE ->
  addThrows ext 0 = None -> addThrows ext 1 = Some m ->
  argServiceId args2 = argServiceId args ->
  queryThrows ext2 = None ->
  addThrows ext2 0 = None -> addThrows ext2 1 = None ->
  let first := "booking_" ++ timeMs ext ++ "_" ++ randomHex ext in
  let second := "booking_" ++ timeMs ext2 ++ "_" ++ randomHex ext2 in
  "booking_" ++ first ++ ".json" <> "booking_" ++ second ++ ".json" ->
  exists st1 st2 b1 b2,
    bookService args ext st = (Failed "Failed to book service." m, st1) /\
    servicesBucket st1 = Some sb /\
    bookService args2 ext2 st1 = (Booked (argServiceId args) second, st2) /\
    get ("booking_" ++ first ++ ".json") (contents (bookingsBucket st2))
      = Some b1 /\
    get ("booking_" ++ second ++ ".json") (contents (bookingsBucket st2))
      = Some b2 /\
    bId b1 = first /\ bId b2 = second /\
    bServiceId b1 = argServiceId args /\ bServiceId b2 = argServiceId args /\
    bStatus b1 = BookingStatus.CONFIRMED /\
    bStatus b2 = BookingStatus.CONFIRMED.
Proof.
  intros Hs Hsb Hbb Hq Hf Ha H0 H1 Hid Hq2 H20 H21 first second Hne.
  destruct (moderia_bookService_writes args ext st sb bb listing)
    as (st0 & E1 & _); try assumption.
  rewrite H1 in E1.
  set (b1 := newBooking args ext bb) in *.
  set (st1 := addBooking st bb (bObjectKey b1) b1) in *.
  assert (student st1 <> None) as Hs1 by exact Hs.
  assert (servicesBucket st1 = Some sb) as Hsb1 by exact Hsb.
  assert (bookingsBucket st1 = Some (addObject (bObjectKey b1) b1 bb)) as Hbb1
    by reflexivity.
  clearbody st1.
  destruct (moderia_bookService_writes args2 ext2 st1 sb
              (addObject (bObjectKey b1) b1 bb) listing)
    as (st2 & E2 & _ & Hbb2); try assumption.
  { by rewrite Hid. }
  rewrite H21 in E2.
  exists st1, st2, b1, (newBooking args2 ext2 (addObject (bObjectKey b1) b1 bb)).
  split; [exact E1|]. split; [exact Hsb1|].
  split; [by rewrite <- Hid|].
  rewrite Hbb2. unfold contents, addObject. cbn [objects].
  split; [|split].
  - change (bObjectKey b1) with ("booking_" ++ first ++ ".json").
    rewrite get_put_ne by (intros E; apply Hne; symmetry; exact E).
    apply get_put_eq.
  - apply get_put_eq.
  - by split_and!.
Qed.

End ModeriaBooking.

(** ** The further properties at concrete inputs *)

Lemma createEscrow_then_details_witness :
  exists msg h e st',
    Escrow.createEscrow Escrow.wholeUnits liveConfig newEscrowArgs
                        (fundingExt false) sampleEscrowState
      = (Escrow.Success msg "escrow_1700000000000_beef0001" h Escrow.PENDING,
         st') /\
    Escrow.getEscrowDetails_data liveConfig st' "escrow_1700000000000_beef0001"
      = Some (Escrow.EscrowFile e) /\
    Escrow.amount e = "25" /\ Escrow.clientTxHash e = Some h.
Proof.
  destruct (createEscrow_then_details Escrow.wholeUnits liveConfig newEscrowArgs
              (fundingExt false) sampleEscrowState)
    as (msg & h & e & st' & H1 & H2 & _ & _ & H3 & _ & _ & _ & _ & _ & _ & H4 & _).
  - discriminate.
  - intros _. split; [reflexivity|]. split; [reflexivity|].
    exists 25000000%Z, "0xfund2". split; reflexivity.
  - exists msg, h, e, st'. split_and!; assumption.
Defined.


Lemma createEscrow_then_settle_witness :
  let created :=
    (Escrow.createEscrow Escrow.wholeUnits liveConfig newEscrowArgs
                         (fundingExt false) sampleEscrowState).2 in
  let refund :=
    Escrow.CallRefund
      (Escrow.mkRefundEscrowInput "escrow_1700000000000_beef0001" None)
      (sampleExt "0xback") in
  Escrow.chain (Escrow.step Escrow.wholeUnits liveConfig refund created).2 =
    [mkContractCall "0xusdc" ClientWallet "0xagent" 25000000%Z;
     mkContractCall "0xusdc" AgentWallet "0xclient" 25000000%Z] /\
  Escrow.statusOf (Escrow.step Escrow.wholeUnits liveConfig refund created).2
                  "escrow_1700000000000_beef0001" = Some Escrow.REFUNDED.
Proof.
  cbv zeta.
  destruct (createEscrow_then_settle Escrow.wholeUnits liveConfig newEscrowArgs
              (fundingExt false) sampleEscrowState
              (Escrow.CallRefund
                 (Escrow.mkRefundEscrowInput "escrow_1700000000000_beef0001" None)
                 (sampleExt "0xback"))
              25000000%Z "0xfund2" "0xback")
    as (_ & H2 & H3); try reflexivity.
  split; [exact H2|exact H3].
Defined.


Lemma transferTokens_moves_once_witness :
  exists msg t st',
    Escrow.transferTokens Escrow.wholeUnits liveConfig liveAccounts sendArgs
                          (sendExt 5000000%Z) sampleEscrowState
      = (Escrow.Transferred msg "0xsend", st') /\
    Escrow.chain st' =
      [mkContractCall "0xusdc" ClientWallet "0xfriend" 3000000%Z] /\
    Escrow.transferAmount t = "3".
Proof.
  destruct (transferTokens_moves_once Escrow.wholeUnits liveConfig liveAccounts
              sendArgs (sendExt 5000000%Z) sampleEscrowState ClientWallet
              5000000%Z 3000000%Z "0xsend")
    as (msg & t & st' & H1 & H2 & _ & _ & _ & H3 & _); try reflexivity.
  - discriminate.
  - exists msg, t, st'. split_and!; assumption.
Defined.

Lemma getAllEscrowTransactions_filters_witness :
  Escrow.getAllEscrowTransactions liveConfig noFilter true sampleEscrowState
    = Escrow.Transactions 1 [Escrow.EscrowFile sampleEscrow] /\
  (forall tx, In tx [Escrow.EscrowFile sampleEscrow] ->
              exists k, Escrow.files sampleEscrowState !! k = Some tx).
Proof.
  assert (Escrow.getAllEscrowTransactions liveConfig noFilter true
            sampleEscrowState
          = Escrow.Transactions 1 [Escrow.EscrowFile sampleEscrow]) as H
    by (vm_compute; reflexivity).
  split; [exact H|].
  destruct (getAllEscrowTransactions_filters liveConfig noFilter true
              sampleEscrowState 1 [Escrow.EscrowFile sampleEscrow] H)
    as (_ & H2 & _).
  intros tx Htx. by apply H2 in Htx as [Hk _].
Defined.

Lemma partial_booking_allows_second_witness :
  exists st1 link st2 b1 b2,
    Marketplace.bookService demoBookArgs
      (flakyExt "1700000000001" "8" "t1") marketListed
      = (Marketplace.BookedButServiceNotUpdated
           "Failed to store data: network down", st1) /\
    Marketplace.bookService demoBookArgs
      (calmExt "1700000000005" "9" "t5") st1
      = (Marketplace.ServiceBooked "booking_1700000000005_9" link, st2) /\
    get "booking_1700000000001_8" (Marketplace.bookings (Marketplace.bucket st2))
      = Some (Parsed b1) /\
    get "booking_1700000000005_9" (Marketplace.bookings (Marketplace.bucket st2))
      = Some (Parsed b2) /\
    Marketplace.bServiceId b1 = Marketplace.bServiceId b2.
Proof.
  destruct (partial_booking_allows_second demoBookArgs demoBookArgs
              (flakyExt "1700000000001" "8" "t1")
              (calmExt "1700000000005" "9" "t5") marketListed demoService
              "network down")
    as (st1 & link & st2 & b1 & b2 & H1 & _ & H2 & H3 & H4 & H5 & H6 & _);
    try reflexivity.
  - by exists None.
  - by exists None.
  - by exists None.
  - discriminate.
  - exists st1, link, st2, b1, b2. split_and!; try assumption.
    by rewrite H5, H6.
Defined.

Lemma booking_read_back_witness :
  exists b s',
    Marketplace.getBooking "booking_1700000000001_8"
      (calmExt "1700000000006" "1" "t6") marketBooked
      = Marketplace.BookingDetails b /\
    Marketplace.bStatus b = Marketplace.BOOKING_STATUS.CONFIRMED /\
    Marketplace.getService "service_1700000000000_7"
      (calmExt "1700000000006" "1" "t6") marketBooked
      = Marketplace.ServiceDetails s' /\
    Marketplace.status s' = Marketplace.SERVICE_STATUS.BOOKED.
Proof.
  destruct (booking_read_back demoBookArgs (calmExt "1700000000001" "8" "t1")
              (calmExt "1700000000006" "1" "t6") marketListed marketBooked
              "booking_1700000000001_8"
              "https://zoom.example.com/meeting/booking_1700000000001_8")
    as (service & b & s' & _ & H1 & _ & H2 & _ & _ & _ & _ & _ & H3 & H4 & _);
    try reflexivity.
  exists b, s'. split_and!; assumption.
Defined.

Lemma releaseFunds_pays_twice_witness :
  Moderia.chain
    (Moderia.releaseFunds Escrow.wholeUnits flowReleaseArgs
       (quietExt "1700000000005" "abcd") flowReleased.2).2
  = (Moderia.chain flowFunded ++
     [mkContractCall Moderia.USDC_TOKEN_ADDRESS AgentWallet "0xteacher"
                     50000000%Z;
      mkContractCall Moderia.USDC_TOKEN_ADDRESS AgentWallet "0xteacher"
                     50000000%Z])%list.
Proof.
  destruct (releaseFunds_pays_twice Escrow.wholeUnits flowReleaseArgs
              (quietExt "1700000000004" "abcd")
              (quietExt "1700000000005" "abcd") flowFunded flowReleased.2
              "escrow_1700000000003_abcd" "50" "0xteacher"
              "0xtx1700000000004" "0xtx1700000000005")
    as (e & units & _ & _ & _ & Hu & _ & H2); [reflexivity|reflexivity|].
  injection Hu as <-. exact H2.
Defined.

Lemma moderia_createEscrow_effect_witness :
  exists e booking',
    get "escrow_escrow_1700000000003_abcd.json"
        (Moderia.contents (Moderia.transactionsBucket flowFunded)) = Some e /\
    Moderia.eStatus e = Moderia.EscrowStatus.PENDING /\
    Moderia.amount e = "50" /\
    get "booking_booking_1700000000002_abcd.json"
        (Moderia.contents (Moderia.bookingsBucket flowFunded))
      = Some booking' /\
    Moderia.escrowId booking' = Some "escrow_1700000000003_abcd".
Proof.
  destruct (moderia_createEscrow_effect Escrow.wholeUnits flowEscrowArgs
              (quietExt "1700000000003" "abcd") flowBooked flowFunded
              "booking_1700000000002_abcd" "escrow_1700000000003_abcd" "50"
              "0xtx1700000000003" eq_refl)
    as (sa & aa & booking & service & units & e & booking' & _ & _ & Hb & _ & _
        & _ & Htx & _ & He & Ham & _ & _ & _ & _ & _ & Hbk & Hid & _).
  exists e, booking'. rewrite Htx, Hbk.
  injection Hb as <-. split_and!; try assumption.
  - apply get_put_eq.
  - apply get_put_eq.
Defined.

Lemma moderia_createEscrow_unrecorded_transfer_witness :
  exists st',
    Moderia.createEscrow Escrow.wholeUnits flowEscrowArgs
      (refusingExt "1700000000006" "abcd") flowFunded
      = (Moderia.Failed "Failed to create escrow." "network down", st') /\
    Moderia.chain st' =
      (Moderia.chain flowFunded ++
       [mkContractCall Moderia.USDC_TOKEN_ADDRESS ClientWallet "0xagent"
                       50000000%Z])%list /\
    Moderia.transactionsBucket st' = Moderia.transactionsBucket flowFunded.
Proof.
  edestruct (moderia_createEscrow_unrecorded_transfer Escrow.wholeUnits
               flowEscrowArgs (refusingExt "1700000000006" "abcd") flowFunded
               "0xstudent" "0xagent" "0xtx1700000000006" "network down")
    as (st' & H1 & H2 & H3 & _); try reflexivity.
  exists st'. split_and!; [exact H1|exact H2|by rewrite H3].
Defined.

Lemma escrow_funded_then_released_witness :
  Moderia.chain
    (Moderia.releaseFunds Escrow.wholeUnits flowReleaseArgs
       (quietExt "1700000000004" "abcd") flowFunded).2
  = [mkContractCall Moderia.USDC_TOKEN_ADDRESS ClientWallet "0xagent"
                    50000000%Z;
     mkContractCall Moderia.USDC_TOKEN_ADDRESS AgentWallet "0xteacher"
                    50000000%Z].
Proof.
  destruct (escrow_funded_then_released Escrow.wholeUnits flowEscrowArgs
              (quietExt "1700000000003" "abcd")
              (quietExt "1700000000004" "abcd") flowBooked flowFunded
              "booking_1700000000002_abcd" "escrow_1700000000003_abcd" "50"
              "0xtx1700000000003" "0xtx1700000000004")
    as (aa & booking & service & units & Ha & Hb & Hs & Hu & H);
    [reflexivity | discriminate | reflexivity | intros k e []
    | reflexivity | reflexivity | reflexivity | ].
  injection Ha as <-. injection Hb as <-. injection Hs as <-.
  injection Hu as <-. etrans; [exact H|reflexivity].
Defined.

Lemma meeting_pipeline_witness :
  let newId := "meeting_1700000000007_abcd0123" in
  let st1 := (Moderia.joinMeeting (lessonJoin "https://meet.google.com/abc")
                (joinExt "1700000000007") moderiaReady).2 in
  let st2 := (Moderia.getTranscript newId "2025-03-24T11:00:00.000Z" st1).2 in
  Moderia.replyScore
    (Moderia.analyzeServiceQuality
       {| Moderia.aqMeetingId := newId;
          Moderia.aqBookingId := "booking_1700000000002_abcd" |} st2).1
  = Some 92%Z.
Proof.
  cbv zeta.
  destruct (meeting_pipeline (lessonJoin "https://meet.google.com/abc")
              (joinExt "1700000000007") "2025-03-24T11:00:00.000Z"
              "booking_1700000000002_abcd" moderiaReady)
    as (_ & H & _); [reflexivity|].
  exact H.
Defined.

Lemma joinMeeting_same_id_overwrites_witness :
  let st1 := (Moderia.joinMeeting (lessonJoin "https://meet.google.com/abc")
                (joinExt "1700000000007") moderiaReady).2 in
  let st2 := (Moderia.joinMeeting (lessonJoin "https://zoom.us/j/42")
                (joinExt "1700000000007") st1).2 in
  exists m,
    Moderia.meetingFiles st2 !! "meeting_1700000000007_abcd0123" = Some m /\
    Moderia.url m = "https://zoom.us/j/42".
Proof.
  cbv zeta.
  destruct (joinMeeting_same_id_overwrites
              (lessonJoin "https://meet.google.com/abc")
              (lessonJoin "https://zoom.us/j/42")
              (joinExt "1700000000007") (joinExt "1700000000007") moderiaReady)
    as [H _]; [reflexivity|reflexivity|].
  destruct (H eq_refl) as (m & H1 & H2 & _). exists m. split; [exact H1|exact H2].
Defined.

Lemma teacher_client_only_witness :
  let st1 := (Moderia.createRecallClient
                {| Moderia.crNetworkName := Moderia.Testnet;
                   Moderia.crUserType := Moderia.TeacherUser |}
                teacherKeyOnly Moderia.initial).2 in
  exists st2,
    Moderia.createServiceListing lessonArgs (quietExt "1700000000001" "abcd") st1
      = (Moderia.ListingCreated "service_1700000000001_abcd", st2) /\
    Moderia.listAvailableServices (unfiltered 10) (quietExt "1700000000002" "abcd")
                                  st2
      = Moderia.Text Moderia.ERROR_MESSAGES.MISSING_CLIENT.
Proof.
  cbv zeta.
  destruct (teacher_client_only Moderia.Testnet teacherKeyOnly Moderia.initial
              "0xteacher" lessonArgs (quietExt "1700000000001" "abcd")
              (quietExt "1700000000002" "abcd") (unfiltered 10)
              {| Moderia.argServiceId := "service_1700000000001_abcd";
                 Moderia.argClientName := "Pedro";
                 Moderia.argClientEmail := None;
                 Moderia.argSpecialRequests := None |}
              flowEscrowArgs Escrow.wholeUnits)
    as (_ & _ & st2 & listing & H1 & _ & _ & _ & H2 & _);
    [reflexivity | reflexivity | reflexivity
    | right; by exists "0xbucket1700000000001" | reflexivity | ].
  exists st2. split; [exact H1|exact H2].
Defined.

Lemma analysis_verdict_gates_authorization_witness :
  let analysed :=
    (Otter.analyzeCallQuality (otterAnalyzeArgs (Some 9%Q)) otterExt
                              otterState).2 in
  Otter.authorizePaymentBasedOnQuality (otterPayArgs None) otterExt analysed
    = (Otter.Text (Otter.cross Otter.ERROR_MESSAGES.QUALITY_THRESHOLD_NOT_MET
                   ++ " Payment cannot be authorized."), analysed) /\
  exists auth st'',
    Otter.authorizePaymentBasedOnQuality (otterPayArgs (Some true)) otterExt
                                         analysed
      = (Otter.PaymentAuthorized auth, st'') /\
    Otter.authorized auth = true.
Proof.
  cbv zeta. split.
  - edestruct (analysis_verdict_gates_authorization (otterAnalyzeArgs (Some 9%Q))
                 (otterPayArgs None) otterExt otterExt otterState)
      as (_ & _ & H); [reflexivity|reflexivity|].
    apply H. reflexivity.
  - edestruct (analysis_verdict_gates_authorization (otterAnalyzeArgs (Some 9%Q))
                 (otterPayArgs (Some true)) otterExt otterExt otterState)
      as (_ & H & _); [reflexivity|reflexivity|].
    destruct (H eq_refl) as (auth & st'' & H1 & H2 & _).
    exists auth, st''. split; [exact H1|exact H2].
Defined.

Lemma moderia_partial_booking_allows_second_witness :
  exists st1 st2 b1 b2,
    Moderia.bookService (lessonBooking "Pedro")
                        (halfExt "1700000000008" "abcd") flowListedOpen
      = (Moderia.Failed "Failed to book service." "network down", st1) /\
    Moderia.bookService (lessonBooking "Ana")
                        (quietExt "1700000000009" "abcd") st1
      = (Moderia.Booked "service_1700000000001_abcd"
                        "booking_1700000000009_abcd", st2) /\
    get "booking_booking_1700000000008_abcd.json"
        (Moderia.contents (Moderia.bookingsBucket st2)) = Some b1 /\
    get "booking_booking_1700000000009_abcd.json"
        (Moderia.contents (Moderia.bookingsBucket st2)) = Some b2 /\
    Moderia.bServiceId b1 = Moderia.bServiceId b2.
Proof.
  edestruct (moderia_partial_booking_allows_second (lessonBooking "Pedro")
               (lessonBooking "Ana") (halfExt "1700000000008" "abcd")
               (quietExt "1700000000009" "abcd") flowListedOpen)
    as (st1 & st2 & b1 & b2 & H1 & _ & H2 & H3 & H4 & _ & _ & H5 & H6 & _);
    [discriminate | reflexivity | reflexivity | reflexivity | reflexivity
    | reflexivity | reflexivity | reflexivity | reflexivity | reflexivity
    | reflexivity | reflexivity | discriminate | ].
  exists st1, st2, b1, b2. split_and!; try assumption.
  by rewrite H5, H6.
Defined.
